(** * UniHaven: accommodation search and the reservation state machine

    A shallow embedding of [unihaven/core/models.py] and
    [unihaven/core/views.py].  The Django database is an explicit record of
    tables (lists of rows in insertion order); every view is a function from
    the database and the request to a response and the database after the
    call.  Timestamps kept by the ORM ([created_at], [updated_at]) and the
    descriptive columns no view reads are left out of the rows; a university
    or an owner is the primary key that refers to it. *)

From Stdlib Require Import ZArith List String Bool Lia.
From Stdlib Require Import QArith Qreals Reals Lra.
From Stdlib Require Import Sorting.Sorted Sorting.Permutation.
Import ListNotations.

Open Scope Z_scope.

(** ** models.py: the rows *)

(** A [DateField] value, as its proleptic ordinal. *)
Definition date := Z.

(** A [DecimalField(max_digits=10, decimal_places=2)] value, in hundredths. *)
Definition decimal := Z.

Module Campus.
Record t := mk {
  id : Z;
  name : string;
  latitude : Q;      (* FloatField: a finite double is a dyadic rational *)
  longitude : Q;
  university : Z
}.
End Campus.

Module Member.
Record t := mk {
  id : Z;
  name : string;
  university : Z
}.
End Member.

Module Specialist.
Record t := mk {
  id : Z;
  name : string;
  university : Z
}.
End Specialist.

Module Accommodation.
Record t := mk {
  id : Z;
  name : string;
  universities : list Z;   (* ManyToManyField through AccommodationUniversity *)
  type : string;
  num_bedrooms : Z;
  num_beds : Z;
  latitude : Q;
  longitude : Q;
  available_from : date;
  available_to : date;
  monthly_rent : decimal;
  is_available : bool
}.

Definition set_is_available (b : bool) (a : t) : t :=
  mk (id a) (name a) (universities a) (type a) (num_bedrooms a) (num_beds a)
     (latitude a) (longitude a) (available_from a) (available_to a)
     (monthly_rent a) b.

Section FloatArithmetic.

(** Python floats are read as the real numbers they denote, and every
    floating-point operation returns the rounding [rnd] of its exact
    result.  [math.cos], which the C library does not round correctly, is
    any function [math_cos].  (Overflow and NaN are outside this model.) *)
Variable rnd : R -> R.
Variable math_cos : R -> R.

(** [math.sqrt], correctly rounded *)
Definition math_sqrt (x : R) : R := rnd (sqrt x).

(** [math.radians]: the product with the constant [pi / 180.0] *)
Definition math_radians (deg : R) : R := rnd (deg * rnd (rnd PI / 180)).

(** Earth radius in kilometers *)
Definition R_earth : R := 6371%R.

(** [Accommodation.calculate_distance]: the equirectangular approximation *)
Definition calculate_distance (self : t) (campus : Campus.t) : R :=
  let lat1 := math_radians (Q2R (latitude self)) in
  let lon1 := math_radians (Q2R (longitude self)) in
  let lat2 := math_radians (Q2R (Campus.latitude campus)) in
  let lon2 := math_radians (Q2R (Campus.longitude campus)) in
  let x := rnd (rnd (lon2 - lon1) * math_cos (rnd (rnd (lat1 + lat2) / 2))) in
  let y := rnd (lat2 - lat1) in
  let d := rnd (R_earth * math_sqrt (rnd (rnd (x * x) + rnd (y * y)))) in
  d.

End FloatArithmetic.
End Accommodation.

(** Arithmetic without rounding error. *)
Definition no_rounding (x : R) : R := x.

Module Reservation.
Definition STATUS_CHOICES : list (string * string) :=
  [ ("PENDING", "Pending"); ("CONFIRMED", "Confirmed");
    ("CANCELLED", "Cancelled"); ("COMPLETED", "Completed") ]%string.

Record t := mk {
  id : Z;
  accommodation : Z;
  member : Z;
  reserved_from : date;
  reserved_to : date;
  contact_name : string;
  contact_phone : string;
  status : string
}.

Definition set_status (s : string) (r : t) : t :=
  mk (id r) (accommodation r) (member r) (reserved_from r) (reserved_to r)
     (contact_name r) (contact_phone r) s.

(** [Reservation.can_be_cancelled] *)
Definition can_be_cancelled (self : t) : bool :=
  String.eqb (status self) "PENDING".
End Reservation.

Module Rating.
Record t := mk {
  id : Z;
  accommodation : Z;
  member : Z;
  reservation : Z;          (* OneToOneField *)
  score : Z;
  comment : string;
  is_approved : bool;
  moderated_by : option Z;
  moderation_date : option Z;
  moderation_note : string
}.
End Rating.

Module ActionLog.
Record t := mk {
  id : Z;
  action_type : string;
  user_type : string;
  user_id : option Z;
  accommodation_id : option Z;
  reservation_id : option Z;
  rating_id : option Z;
  details : string
}.
End ActionLog.

(** ** The database *)

Record DB := mkDB {
  campuses : list Campus.t;
  members : list Member.t;
  specialists : list Specialist.t;
  accommodations : list Accommodation.t;
  reservations : list Reservation.t;
  ratings : list Rating.t;
  action_logs : list ActionLog.t
}.

Definition set_accommodations (l : list Accommodation.t) (db : DB) : DB :=
  mkDB (campuses db) (members db) (specialists db) l (reservations db)
     (ratings db) (action_logs db).

Definition set_reservations (l : list Reservation.t) (db : DB) : DB :=
  mkDB (campuses db) (members db) (specialists db) (accommodations db) l
     (ratings db) (action_logs db).

Definition set_ratings (l : list Rating.t) (db : DB) : DB :=
  mkDB (campuses db) (members db) (specialists db) (accommodations db)
     (reservations db) l (action_logs db).

Definition set_action_logs (l : list ActionLog.t) (db : DB) : DB :=
  mkDB (campuses db) (members db) (specialists db) (accommodations db)
     (reservations db) (ratings db) l.

(** ** The ORM manager: lookups and writes on one table *)

Module objects.
Section Table.
Context {A : Type} (pk : A -> Z).

(** [Model.objects.get(pk=k)]; [None] stands for [DoesNotExist]. *)
Definition get (k : Z) (rows : list A) : option A :=
  find (fun r => pk r =? k) rows.

(** [instance.save()]: UPDATE the row with this primary key, INSERT when
    there is none. *)
Fixpoint save (x : A) (rows : list A) : list A :=
  match rows with
  | [] => [x]
  | y :: rows' => if pk y =? pk x then x :: rows' else y :: save x rows'
  end.

(** The next value of the auto-increment primary key. *)
Definition next_pk (rows : list A) : Z :=
  1 + fold_right (fun r m => Z.max (pk r) m) 0 rows.

(** [Model.objects.create(...)]: the new row and the table with it. *)
Definition create (new : Z -> A) (rows : list A) : A * list A :=
  let x := new (next_pk rows) in (x, rows ++ [x]).

(** [instance.delete()] on this table. *)
Definition delete (k : Z) (rows : list A) : list A :=
  filter (fun r => negb (pk r =? k)) rows.
End Table.
End objects.

(** [ActionLog.objects.create(...)] *)
Definition log_action (action_type user_type : string)
    (user_id accommodation_id reservation_id rating_id : option Z)
    (details : string) (db : DB) : DB :=
  set_action_logs
    (snd (objects.create ActionLog.id
            (fun i => ActionLog.mk i action_type user_type user_id
                        accommodation_id reservation_id rating_id details)
            (action_logs db)))
    db.

(** ** models.py: the methods of [Reservation] that read or write the store *)



(** [Reservation.cancel]: the returned value, the instance and the store
    after the call.  [self.accommodation] is the cached related row; when the
    foreign key dangles the access raises and nothing more is written. *)
Definition Reservation_cancel (self : Reservation.t) (db : DB)
  : option bool * Reservation.t * DB :=
  if Reservation.can_be_cancelled self then
    let self := Reservation.set_status "CANCELLED" self in
    let db := set_reservations (objects.save Reservation.id self (reservations db)) db in
    match objects.get Accommodation.id (Reservation.accommodation self) (accommodations db) with
    | None => (None, self, db)
    | Some accommodation =>
        let accommodation := Accommodation.set_is_available true accommodation in
        let db := set_accommodations
                    (objects.save Accommodation.id accommodation (accommodations db)) db in
        (Some false, self, db)
    end
  else (Some false, self, db).

(** ** views.py: responses *)

Definition HTTP_200_OK : Z := 200.
Definition HTTP_201_CREATED : Z := 201.
Definition HTTP_400_BAD_REQUEST : Z := 400.
Definition HTTP_404_NOT_FOUND : Z := 404.
Definition HTTP_500_INTERNAL_SERVER_ERROR : Z := 500.

Module Response.
Inductive body :=
| Error (msg : string)                 (* {"error": msg} *)
| Detail (msg : string)                (* {"detail": msg}, from the exception handler *)
| Status (msg : string)                (* {"status": msg} *)
| SerializerErrors                     (* serializer.errors *)
| ReservationData (r : Reservation.t)  (* ReservationSerializer(...).data *)
| AccommodationList (l : list (Accommodation.t * option R))
                                       (* serialized rows, with the 'distance' key if any *)
| RatingData (g : Rating.t)            (* RatingSerializer(...).data *)
| Moderated (msg : string) (g : Rating.t).

Record t := mk { status_code : Z; data : body }.
End Response.

(** [get_object()] found no row: Http404, turned into a response by the
    framework. *)
Definition not_found : Response.t :=
  Response.mk HTTP_404_NOT_FOUND (Response.Detail "Not found.").

(** An exception no handler catches ([DoesNotExist] on a dangling foreign
    key): the framework answers 500 and what was saved stays saved. *)
Definition server_error : Response.t :=
  Response.mk HTTP_500_INTERNAL_SERVER_ERROR (Response.Detail "Server Error (500)").

(** The three rejections of the error taxonomy are the 400 and 404
    responses. *)
Definition is_rejection (r : Response.t) : bool :=
  (Response.status_code r =? HTTP_400_BAD_REQUEST)
  || (Response.status_code r =? HTTP_404_NOT_FOUND).

(** ** QuerySet operations used by the views *)

(** [order_by] and [list.sort]: a stable insertion sort on the order [leb].
    ([list.sort] is stable; the database may order rows of equal price as it
    likes, and nothing below depends on how ties fall.) *)
Fixpoint insert_sorted {A : Type} (leb : A -> A -> bool) (x : A) (l : list A) : list A :=
  match l with
  | [] => [x]
  | y :: l' => if leb x y then x :: l else y :: insert_sorted leb x l'
  end.

Definition sort_by {A : Type} (leb : A -> A -> bool) (l : list A) : list A :=
  fold_right (insert_sorted leb) [] l.

(** [if param: queryset = queryset.filter(...)] *)
Definition filter_if {P A : Type} (param : option P) (keep : P -> A -> bool)
    (queryset : list A) : list A :=
  match param with
  | Some p => filter (keep p) queryset
  | None => queryset
  end.

(** A query-string parameter that holds text: the empty string is falsy. *)
Definition nonempty (param : option string) : option string :=
  match param with
  | Some s => if String.eqb s EmptyString then None else Some s
  | None => None
  end.

(** A JSON body field that holds an id: absent, null and 0 are falsy. *)
Definition truthy_id (param : option Z) : option Z :=
  match param with
  | Some n => if n =? 0 then None else Some n
  | None => None
  end.

(** [reservation__status__in=['PENDING', 'CONFIRMED']] *)
Definition status_active (r : Reservation.t) : bool :=
  String.eqb (Reservation.status r) "PENDING"
  || String.eqb (Reservation.status r) "CONFIRMED".

(** The rows reached through the reverse foreign key [reservation]. *)
Definition reservation_set (db : DB) (a : Accommodation.t) : list Reservation.t :=
  filter (fun r => Reservation.accommodation r =? Accommodation.id a) (reservations db).

(** [queryset.exclude(reservation__reserved_from__lt=available_to,
                      reservation__reserved_to__gt=available_from,
                      reservation__status__in=['PENDING', 'CONFIRMED'])].

    [reservation] is a multi-valued relation.  For [exclude], Django turns
    each keyword of the call into a subquery of its own (Query.build_filter
    raises MultiJoin on the negated branch and Query.split_exclude builds
    one EXISTS per condition), so the row is dropped when
    [NOT (EXISTS r1. c1 AND EXISTS r2. c2 AND EXISTS r3. c3)] fails: the three
    conditions need not hold of the same reservation (Django documentation,
    "Spanning multi-valued relationships"). *)
Definition overlap_excluded (db : DB) (available_from available_to : date)
    (a : Accommodation.t) : bool :=
  existsb (fun r => Reservation.reserved_from r <? available_to) (reservation_set db a)
  && existsb (fun r => Reservation.reserved_to r >? available_from) (reservation_set db a)
  && existsb status_active (reservation_set db a).

(** [round(distance, 2)]: to the nearest hundredth, ties to the even one. *)
Definition round_half_even (x : R) : Z :=
  let n := Int_part x in
  match total_order_T (frac_part x) (1 / 2)%R with
  | inleft (left _) => n
  | inleft (right _) => if Z.even n then n else n + 1
  | inright _ => n + 1
  end.

Definition round2 (x : R) : R := (IZR (round_half_even (x * 100)) / 100)%R.

Definition Rleb (x y : R) : bool := if Rle_dec x y then true else false.

(** The orders of [order_by('monthly_rent')] and [order_by('-monthly_rent')]. *)
Definition rent_asc (a b : Accommodation.t) : bool :=
  Accommodation.monthly_rent a <=? Accommodation.monthly_rent b.

Definition rent_desc (a b : Accommodation.t) : bool :=
  Accommodation.monthly_rent b <=? Accommodation.monthly_rent a.

(** ** AccommodationViewSet *)

Module SearchParams.
(** [request.query_params]; the numeric and date parameters are given by
    the value their text denotes, [None] when absent or empty. *)
Record t := mk {
    type : option string;
    available_from : option date;
    available_to : option date;
    num_beds : option Z;
    num_bedrooms : option Z;
    min_price : option decimal;
    max_price : option decimal;
    campus_id : option Z;
    sort_by : option string;
    member_id : option Z
  }.
End SearchParams.

Module ReserveData.
(** [request.data] of [reserve] *)
Record t := mk {
    member_id : option Z;
    reserved_from : option date;
    reserved_to : option date;
    contact_name : option string;
    contact_phone : option string
  }.
End ReserveData.

Module AccommodationViewSet.

Definition ok_list (l : list (Accommodation.t * option R)) : Response.t :=
  Response.mk HTTP_200_OK (Response.AccommodationList l).

(** [self.get_serializer(queryset, many=True).data] *)
Definition serialize_many (queryset : list Accommodation.t)
  : list (Accommodation.t * option R) :=
  map (fun a => (a, None)) queryset.

(** Steps 2 to 4 of [search]: the filtered queryset. *)
Definition search_queryset (db : DB) (q : SearchParams.t) (member_university : Z)
  : list Accommodation.t :=
  let queryset :=
    filter (fun a => existsb (Z.eqb member_university) (Accommodation.universities a)
                     && Accommodation.is_available a)
           (accommodations db) in
  let queryset :=
    filter_if (nonempty (SearchParams.type q))
              (fun ty a => String.eqb (Accommodation.type a) ty) queryset in
  let queryset :=
    filter_if (SearchParams.available_from q)
              (fun d a => Accommodation.available_from a <=? d) queryset in
  let queryset :=
    filter_if (SearchParams.available_to q)
              (fun d a => Accommodation.available_to a >=? d) queryset in
  let queryset :=
    filter_if (SearchParams.num_beds q)
              (fun n a => Accommodation.num_beds a >=? n) queryset in
  let queryset :=
    filter_if (SearchParams.num_bedrooms q)
              (fun n a => Accommodation.num_bedrooms a >=? n) queryset in
  let queryset :=
    filter_if (SearchParams.min_price q)
              (fun p a => Accommodation.monthly_rent a >=? p) queryset in
  let queryset :=
    filter_if (SearchParams.max_price q)
              (fun p a => Accommodation.monthly_rent a <=? p) queryset in
  match SearchParams.available_from q, SearchParams.available_to q with
  | Some available_from, Some available_to =>
      filter (fun a => negb (overlap_excluded db available_from available_to a)) queryset
  | _, _ => queryset
  end.

Section Search.

(** The float arithmetic of [calculate_distance]. *)
Variable rnd : R -> R.
Variable math_cos : R -> R.

(** [AccommodationViewSet.search] *)
Definition search (db : DB) (q : SearchParams.t) : Response.t :=
  let sort_by_param :=
    match SearchParams.sort_by q with Some s => s | None => "distance"%string end in
  match SearchParams.member_id q with
  | None =>
      Response.mk HTTP_400_BAD_REQUEST
        (Response.Error "member_id is required for searching accommodations")
  | Some member_id =>
  match objects.get Member.id member_id (members db) with
  | None => Response.mk HTTP_404_NOT_FOUND (Response.Error "Member not found")
  | Some member =>
      let queryset := search_queryset db q (Member.university member) in
      if String.eqb sort_by_param "price_asc" then
        ok_list (serialize_many
          (sort_by rent_asc queryset))
      else if String.eqb sort_by_param "price_desc" then
        ok_list (serialize_many
          (sort_by rent_desc queryset))
      else
        match SearchParams.campus_id q with
        | Some campus_id =>
            match objects.get Campus.id campus_id (campuses db) with
            | Some campus =>
                let accommodations_with_distance :=
                  map (fun a => (a, Accommodation.calculate_distance rnd math_cos a campus))
                      queryset in
                let sorted := sort_by (fun x y => Rleb (snd x) (snd y))
                                      accommodations_with_distance in
                ok_list (map (fun x => (fst x, Some (round2 (snd x)))) sorted)
            | None =>
                Response.mk HTTP_404_NOT_FOUND (Response.Error "Campus not found")
            end
        | None => ok_list (serialize_many queryset)
        end
  end
  end.

End Search.

Section Reserve.

(** [utils.validate_required_fields], which is not among the sources:
    [Some msg] when it raises [ValueError(msg)]. *)
Variable validate_required_fields : ReserveData.t -> list string -> option string.

(** The validation rules [serializers.ReservationSerializer] adds on its own,
    not among the sources either: whether it accepts the row it is about to
    create. *)
Variable ReservationSerializer_validate : DB -> Reservation.t -> bool.

(** Modelled from the spec: [ReservationSerializer(data=...).is_valid()]
    ([serializers.py] is missing).  A model serializer requires every column
    and an existing member; the reservation is created PENDING with the
    submitted range and contact.  [Some new] gives the row that [save()]
    inserts, for the primary key it will receive. *)
Definition ReservationSerializer_is_valid (db : DB) (accommodation : Z)
    (data : ReserveData.t) : option (Z -> Reservation.t) :=
  match ReserveData.member_id data, ReserveData.reserved_from data,
        ReserveData.reserved_to data, ReserveData.contact_name data,
        ReserveData.contact_phone data with
  | Some member, Some reserved_from, Some reserved_to,
    Some contact_name, Some contact_phone =>
      let new := fun i => Reservation.mk i accommodation member reserved_from
                            reserved_to contact_name contact_phone "PENDING" in
      match objects.get Member.id member (members db) with
      | Some _ =>
          if ReservationSerializer_validate db
               (new (objects.next_pk Reservation.id (reservations db)))
          then Some new else None
      | None => None
      end
  | _, _, _, _, _ => None
  end.

(** [AccommodationViewSet.reserve] *)
Definition reserve (db : DB) (pk : Z) (data : ReserveData.t) : Response.t * DB :=
  match objects.get Accommodation.id pk (accommodations db) with
  | None => (not_found, db)
  | Some accommodation =>
      if negb (Accommodation.is_available accommodation) then
        (Response.mk HTTP_400_BAD_REQUEST (Response.Error "Accommodation not available"), db)
      else
        match validate_required_fields data
                ["member_id"; "reserved_from"; "reserved_to";
                 "contact_name"; "contact_phone"]%string with
        | Some e => (Response.mk HTTP_400_BAD_REQUEST (Response.Error e), db)
        | None =>
            match ReservationSerializer_is_valid db (Accommodation.id accommodation) data with
            | Some new =>
                let '(reservation, rows) :=
                  objects.create Reservation.id new (reservations db) in
                let db := set_reservations rows db in
                let accommodation := Accommodation.set_is_available false accommodation in
                let db := set_accommodations
                            (objects.save Accommodation.id accommodation (accommodations db))
                            db in
                let db :=
                  log_action "CREATE_RESERVATION" "MEMBER"
                    (Some (Reservation.member reservation))
                    (Some (Accommodation.id accommodation))
                    (Some (Reservation.id reservation)) None
                    ("Created reservation for '" ++ Accommodation.name accommodation ++ "'")
                    db in
                (Response.mk HTTP_201_CREATED (Response.ReservationData reservation), db)
            | None => (Response.mk HTTP_400_BAD_REQUEST Response.SerializerErrors, db)
            end
        end
  end.

End Reserve.

(** The log entry of [mark_unavailable] and [destroy]: attributed to the
    specialist when [specialist_id] is given and names one. *)
Definition log_specialist_action (action_type : string) (specialist_id : option Z)
    (accommodation_id : option Z) (details : string) (db : DB) : DB :=
  match truthy_id specialist_id with
  | Some sid =>
      match objects.get Specialist.id sid (specialists db) with
      | Some specialist =>
          log_action action_type "SPECIALIST" (Some (Specialist.id specialist))
            accommodation_id None None details db
      | None => log_action action_type "SPECIALIST" None accommodation_id None None details db
      end
  | None => log_action action_type "SPECIALIST" None accommodation_id None None details db
  end.

(** [AccommodationViewSet.mark_unavailable] *)
Definition mark_unavailable (db : DB) (pk : Z) (specialist_id : option Z)
  : Response.t * DB :=
  match objects.get Accommodation.id pk (accommodations db) with
  | None => (not_found, db)
  | Some accommodation =>
      let accommodation := Accommodation.set_is_available false accommodation in
      let db := set_accommodations
                  (objects.save Accommodation.id accommodation (accommodations db)) db in
      let db :=
        log_specialist_action "MARK_UNAVAILABLE" specialist_id
          (Some (Accommodation.id accommodation))
          ("Marked accommodation '" ++ Accommodation.name accommodation ++ "' as unavailable")
          db in
      (Response.mk HTTP_200_OK (Response.Status "Accommodation marked as unavailable"), db)
  end.

(** [self.perform_destroy(accommodation)]: the row goes, and with it the rows
    whose foreign keys cascade (its reservations, and the ratings of the
    accommodation or of those reservations). *)
Definition perform_destroy (accommodation : Accommodation.t) (db : DB) : DB :=
  let gone := map Reservation.id (reservation_set db accommodation) in
  let db :=
    set_ratings
      (filter (fun g => negb ((Rating.accommodation g =? Accommodation.id accommodation)
                              || existsb (Z.eqb (Rating.reservation g)) gone))
              (ratings db)) db in
  let db :=
    set_reservations
      (filter (fun r => negb (Reservation.accommodation r =? Accommodation.id accommodation))
              (reservations db)) db in
  set_accommodations
    (objects.delete Accommodation.id (Accommodation.id accommodation) (accommodations db)) db.

(** [AccommodationViewSet.destroy] *)
Definition destroy (db : DB) (pk : Z) (specialist_id : option Z) : Response.t * DB :=
  match objects.get Accommodation.id pk (accommodations db) with
  | None => (not_found, db)
  | Some accommodation =>
      let active_reservations := existsb status_active (reservation_set db accommodation) in
      if active_reservations then
        (Response.mk HTTP_400_BAD_REQUEST
           (Response.Error "Cannot delete accommodation with active reservations"), db)
      else
        let name := Accommodation.name accommodation in
        let db := perform_destroy accommodation db in
        let db :=
          log_specialist_action "DELETE_ACCOMMODATION" specialist_id None
            ("Deleted accommodation '" ++ name ++ "'") db in
        (Response.mk HTTP_200_OK
           (Response.Status ("Accommodation '" ++ name ++ "' successfully deleted")), db)
  end.

End AccommodationViewSet.

(** ** ReservationViewSet *)

Module ReservationViewSet.

(** [ReservationViewSet.cancel] *)
Definition cancel (db : DB) (pk : Z) : Response.t * DB :=
  match objects.get Reservation.id pk (reservations db) with
  | None => (not_found, db)
  | Some reservation =>
      if String.eqb (Reservation.status reservation) "CONFIRMED" then
        (Response.mk HTTP_400_BAD_REQUEST
           (Response.Error "Cannot cancel a confirmed reservation"), db)
      else
        let old_status := Reservation.status reservation in
        let reservation := Reservation.set_status "CANCELLED" reservation in
        let db := set_reservations
                    (objects.save Reservation.id reservation (reservations db)) db in
        match objects.get Accommodation.id (Reservation.accommodation reservation)
                (accommodations db) with
        | None => (server_error, db)
        | Some accommodation =>
            let accommodation := Accommodation.set_is_available true accommodation in
            let db := set_accommodations
                        (objects.save Accommodation.id accommodation (accommodations db))
                        db in
            match objects.get Member.id (Reservation.member reservation) (members db) with
            | None => (server_error, db)
            | Some member =>
                let db :=
                  log_action "CANCEL_RESERVATION" "MEMBER"
                    (Some (Member.id member))
                    (Some (Accommodation.id accommodation))
                    (Some (Reservation.id reservation)) None
                    ("Reservation cancelled; status changed from " ++ old_status
                       ++ " to CANCELLED")
                    db in
                (Response.mk HTTP_200_OK
                   (Response.Status "Reservation cancelled successfully"), db)
            end
        end
  end.

(** [valid_statuses = [s[0] for s in Reservation.STATUS_CHOICES]] *)
Definition valid_statuses : list string := map fst Reservation.STATUS_CHOICES.

Definition str_in (s : string) (l : list string) : bool := existsb (String.eqb s) l.

(** [ReservationViewSet.update_status]; [new_status] is
    [request.data.get('status')]. *)
Definition update_status (db : DB) (pk : Z) (new_status : option string)
  : Response.t * DB :=
  match objects.get Reservation.id pk (reservations db) with
  | None => (not_found, db)
  | Some reservation =>
      match nonempty new_status with
      | None =>
          (Response.mk HTTP_400_BAD_REQUEST (Response.Error "Invalid status value"), db)
      | Some new_status =>
          if negb (str_in new_status valid_statuses) then
            (Response.mk HTTP_400_BAD_REQUEST (Response.Error "Invalid status value"), db)
          else
            let old_status := Reservation.status reservation in
            let reservation := Reservation.set_status new_status reservation in
            let db := set_reservations
                        (objects.save Reservation.id reservation (reservations db)) db in
            let after_side_effect : option DB :=
              if String.eqb new_status "CONFIRMED" && String.eqb old_status "PENDING" then
                Some db
              else if String.eqb new_status "COMPLETED"
                      && negb (String.eqb old_status "COMPLETED") then
                Some db
              else if String.eqb new_status "CANCELLED"
                      && negb (String.eqb old_status "CANCELLED") then
                match objects.get Accommodation.id (Reservation.accommodation reservation)
                        (accommodations db) with
                | None => None
                | Some accommodation =>
                    let accommodation :=
                      Accommodation.set_is_available true accommodation in
                    Some (set_accommodations
                            (objects.save Accommodation.id accommodation
                               (accommodations db)) db)
                end
              else Some db in
            match after_side_effect with
            | None => (server_error, db)
            | Some db =>
                match objects.get Member.id (Reservation.member reservation) (members db),
                      objects.get Accommodation.id (Reservation.accommodation reservation)
                        (accommodations db) with
                | Some member, Some accommodation =>
                    let db :=
                      log_action "UPDATE_RESERVATION_STATUS" "MEMBER"
                        (Some (Member.id member))
                        (Some (Accommodation.id accommodation))
                        (Some (Reservation.id reservation)) None
                        ("Reservation status updated from " ++ old_status ++ " to "
                           ++ new_status)
                        db in
                    (Response.mk HTTP_200_OK (Response.ReservationData reservation), db)
                | _, _ => (server_error, db)
                end
            end
      end
  end.

End ReservationViewSet.

(** ** RatingViewSet *)

Module ModerateData.
(** The [accommodation] query parameter and [request.data] of [moderate] *)
Record t := mk {
    accommodation : option Z;
    specialist_id : option Z;
    is_approved : option bool;
    moderation_note : option string
  }.
End ModerateData.

Module RatingViewSet.

(** [RatingViewSet.get_queryset] *)
Definition get_queryset (db : DB) (accommodation : option Z) : list Rating.t :=
  filter_if accommodation (fun k g => Rating.accommodation g =? k) (ratings db).

(** [RatingViewSet.moderate]; [now] is [timezone.now()]. *)
Definition moderate (db : DB) (pk : Z) (data : ModerateData.t) (now : Z)
  : Response.t * DB :=
  match objects.get Rating.id pk (get_queryset db (ModerateData.accommodation data)) with
  | None => (not_found, db)
  | Some rating =>
      match truthy_id (ModerateData.specialist_id data) with
      | None =>
          (Response.mk HTTP_400_BAD_REQUEST (Response.Error "Specialist ID is required"), db)
      | Some specialist_id =>
          match objects.get Specialist.id specialist_id (specialists db) with
          | None =>
              (Response.mk HTTP_404_NOT_FOUND (Response.Error "Specialist not found"), db)
          | Some specialist =>
              let is_approved :=
                match ModerateData.is_approved data with Some b => b | None => true end in
              let moderation_note :=
                match ModerateData.moderation_note data with
                | Some s => s | None => EmptyString end in
              let rating :=
                Rating.mk (Rating.id rating) (Rating.accommodation rating)
                  (Rating.member rating) (Rating.reservation rating)
                  (Rating.score rating) (Rating.comment rating)
                  is_approved (Some (Specialist.id specialist)) (Some now)
                  moderation_note in
              let db := set_ratings (objects.save Rating.id rating (ratings db)) db in
              let outcome :=
                ("Rating " ++ (if is_approved then "approved" else "rejected"))%string in
              match objects.get Accommodation.id (Rating.accommodation rating)
                      (accommodations db) with
              | None => (server_error, db)
              | Some accommodation =>
                  let db :=
                    log_action "MODERATE_RATING" "SPECIALIST"
                      (Some (Specialist.id specialist))
                      (Some (Accommodation.id accommodation)) None
                      (Some (Rating.id rating))
                      (outcome ++ ": " ++ moderation_note) db in
                  (Response.mk HTTP_200_OK (Response.Moderated outcome rating), db)
              end
          end
      end
  end.

End RatingViewSet.

(** ** Rating creation *)

(** The fields a new Rating is given; the moderation fields take their
    defaults. *)
Module NewRating.
Record t := mk {
    accommodation : Z;
    member : Z;
    reservation : Z;
    score : Z;
    comment : string
  }.
End NewRating.






(** ** The exposed mutating operations *)

Inductive operation :=
| Reserve (pk : Z) (data : ReserveData.t)
| Cancel (pk : Z)
| UpdateStatus (pk : Z) (status : option string)
| Moderate (pk : Z) (data : ModerateData.t) (now : Z)
| Destroy (pk : Z) (specialist_id : option Z).

Section Dispatch.

Variable validate_required_fields : ReserveData.t -> list string -> option string.
Variable ReservationSerializer_validate : DB -> Reservation.t -> bool.

(** The router: one request against the database. *)
Definition run (op : operation) (db : DB) : Response.t * DB :=
  match op with
  | Reserve pk data =>
      AccommodationViewSet.reserve validate_required_fields
        ReservationSerializer_validate db pk data
  | Cancel pk => ReservationViewSet.cancel db pk
  | UpdateStatus pk status => ReservationViewSet.update_status db pk status
  | Moderate pk data now => RatingViewSet.moderate db pk data now
  | Destroy pk specialist_id => AccommodationViewSet.destroy db pk specialist_id
  end.

End Dispatch.

(** ** Vocabulary of the statements *)

(** The same query with another [campus_id]. *)
Definition set_campus_id (campus_id : option Z) (q : SearchParams.t) : SearchParams.t :=
  SearchParams.mk (SearchParams.type q) (SearchParams.available_from q)
    (SearchParams.available_to q) (SearchParams.num_beds q)
    (SearchParams.num_bedrooms q) (SearchParams.min_price q)
    (SearchParams.max_price q) campus_id (SearchParams.sort_by q)
    (SearchParams.member_id q).

(** The exclusion in the spec's words, for comparison with
    [overlap_excluded]: some one reservation of the accommodation is PENDING
    or CONFIRMED and overlaps the requested range under the half-open test
    [existing.from < query.to AND existing.to > query.from]. *)
Definition has_active_overlap (db : DB) (available_from available_to : date)
    (a : Accommodation.t) : bool :=
  existsb (fun r => status_active r
                    && (Reservation.reserved_from r <? available_to)
                    && (Reservation.reserved_to r >? available_from))
          (reservation_set db a).

(** What the search contract asks of a result [a] for a member of
    [university]: the association, the availability flag, and every
    optional filter that was supplied. *)
Definition satisfies_filters (university : Z) (q : SearchParams.t)
    (a : Accommodation.t) : Prop :=
  In university (Accommodation.universities a)
  /\ Accommodation.is_available a = true
  /\ (forall ty, SearchParams.type q = Some ty -> ty <> EmptyString ->
                 Accommodation.type a = ty)
  /\ (forall n, SearchParams.num_beds q = Some n -> n <= Accommodation.num_beds a)
  /\ (forall n, SearchParams.num_bedrooms q = Some n -> n <= Accommodation.num_bedrooms a)
  /\ (forall p, SearchParams.min_price q = Some p -> p <= Accommodation.monthly_rent a)
  /\ (forall p, SearchParams.max_price q = Some p -> Accommodation.monthly_rent a <= p)
  /\ (forall d, SearchParams.available_from q = Some d ->
                Accommodation.available_from a <= d)
  /\ (forall d, SearchParams.available_to q = Some d ->
                d <= Accommodation.available_to a).

(** ** Sample data: the rows of [signals.create_initial_data], and reservations *)

Definition hku : Z := 1.
Definition hkust : Z := 2.

Definition peter : Member.t := Member.mk 1 "Peter" hku.

Definition yu : Specialist.t := Specialist.mk 1 "Yu" hku.

Definition a_building : Accommodation.t :=
  Accommodation.mk 1 "A Building" [hku; hkust] "Apartment" 2 4
    (2228405 # 100000) (11413784 # 100000) 739252 739617 500000 true.

Definition b_building : Accommodation.t :=
  Accommodation.mk 2 "B Building" [hku] "Apartment" 2 4
    (2228405 # 100000) (11413784 # 100000) 739252 739617 500000 true.

Definition c_building : Accommodation.t :=
  Accommodation.mk 3 "C Building" [hkust] "Apartment" 2 4
    (2233584 # 100000) (11426355 # 100000) 739252 739617 500000 true.

Definition main_campus : Campus.t :=
  Campus.mk 1 "Main Campus" (2228405 # 100000) (11413784 # 100000) hku.

Definition sassoon_road : Campus.t :=
  Campus.mk 2 "Sassoon Road Campus" (222675 # 10000) (11412881 # 100000) hku.

Definition initial_data : DB :=
  mkDB [main_campus; sassoon_road] [peter] [yu]
       [a_building; b_building; c_building] [] [] [].

(** The helpers missing from the sources, as they are used in the examples:
    every listed field must be present, and the serializer adds the rule
    that the reserved range is not reversed. *)
Definition required_fields_present (data : ReserveData.t) (fields : list string)
  : option string :=
  match ReserveData.member_id data, ReserveData.reserved_from data,
        ReserveData.reserved_to data, ReserveData.contact_name data,
        ReserveData.contact_phone data with
  | Some _, Some _, Some _, Some _, Some _ => None
  | _, _, _, _, _ => Some "Missing required fields"%string
  end.

Definition range_not_reversed (db : DB) (r : Reservation.t) : bool :=
  Reservation.reserved_from r <=? Reservation.reserved_to r.

(** Reservations against A Building used in the examples. *)
Definition completed_stay : Reservation.t :=
  Reservation.mk 1 1 1 739300 739330 "Peter" "12345678" "COMPLETED".

Definition pending_stay : Reservation.t :=
  Reservation.mk 2 1 1 739400 739430 "Peter" "12345678" "PENDING".

Definition cancelled_stay : Reservation.t :=
  Reservation.mk 3 1 1 739320 739360 "Peter" "12345678" "CANCELLED".

Definition confirmed_stay : Reservation.t :=
  Reservation.mk 4 1 1 739500 739530 "Peter" "12345678" "CONFIRMED".

Definition with_reservations (available : bool) (l : list Reservation.t) : DB :=
  mkDB [main_campus; sassoon_road] [peter] [yu]
       [Accommodation.set_is_available available a_building; b_building; c_building]
       l [] [].

(** A Building is held by [pending_stay]; an earlier stay is completed. *)
Definition db_held : DB := with_reservations false [completed_stay; pending_stay].

(** A Building is held by [pending_stay]; an earlier reservation was
    cancelled. *)
Definition db_held_after_cancel : DB :=
  with_reservations false [cancelled_stay; pending_stay].

(** A Building is held by a confirmed reservation. *)
Definition db_confirmed : DB := with_reservations false [confirmed_stay].

(** A reserve request by Peter. *)
Definition peter_request : ReserveData.t :=
  ReserveData.mk (Some 1) (Some 739400) (Some 739430) (Some "Peter"%string)
    (Some "12345678"%string).

(** A pending reservation of A Building that ends on day 739330. *)
Definition boundary_stay : Reservation.t :=
  Reservation.mk 5 1 1 739300 739330 "Peter" "12345678" "PENDING".

(** Peter looks for a place from day 739330 to day 739350, cheapest first. *)
Definition peter_query : SearchParams.t :=
  SearchParams.mk None (Some 739330) (Some 739350) None None None None None
    (Some "price_asc"%string) (Some 1).

(** A listing with three rents, none reserved. *)
Definition b_discounted : Accommodation.t :=
  Accommodation.mk 2 "B Building" [hku] "Apartment" 2 4
    (2228405 # 100000) (11413784 # 100000) 739252 739617 450000 true.

Definition d_building : Accommodation.t :=
  Accommodation.mk 4 "D Building" [hku] "Studio" 1 1
    (2228649 # 100000) (11414426 # 100000) 739252 739617 620000 true.

Definition db_listing : DB :=
  mkDB [main_campus; sassoon_road] [peter] [yu]
       [a_building; b_discounted; d_building; c_building] [] [] [].

(** ** models.py: the rating summary of an accommodation *)

(** [self.ratings.all()]: the reverse side of [Rating.accommodation]. *)
Definition rating_set (self : Accommodation.t) (db : DB) : list Rating.t :=
  filter (fun g => Rating.accommodation g =? Accommodation.id self) (ratings db).

(** [Accommodation.rating_count] *)
Definition Accommodation_rating_count (self : Accommodation.t) (db : DB) : Z :=
  Z.of_nat (List.length (rating_set self db)).

(** [sum(rating.score for rating in ratings)] *)
Definition sum_scores (l : list Rating.t) : Z :=
  fold_right (fun g acc => Rating.score g + acc) 0 l.

(** [Accommodation.average_rating]: [None] without ratings, else the true
    division of two integers, which is the rounding of the exact quotient. *)
Definition Accommodation_average_rating (rnd : R -> R) (self : Accommodation.t) (db : DB)
  : option R :=
  match rating_set self db with
  | [] => None
  | ratings =>
      Some (rnd (IZR (sum_scores ratings) / IZR (Z.of_nat (List.length ratings)))%R)
  end.

(** ** views.py: the list views *)

(** What a list view answers: an error response, a serialized list, or one
    page of a paginated list with its count and the numbers of the
    neighbouring pages. *)
Inductive view_result (A : Type) : Type :=
| Failed (r : Response.t)
| Rows (l : list A)
| Page (count : Z) (next previous : option Z) (results : list A).

Arguments Failed {A} r.
Arguments Rows {A} l.
Arguments Page {A} count next previous results.

(** The [page] query parameter. *)
Inductive page_param :=
| PageAbsent              (* no parameter: page 1 *)
| PageNumber (n : Z)      (* page=n *)
| PageLast                (* page=last *)
| PageNotANumber.         (* any other text *)

(** [Paginator.num_pages], with [allow_empty_first_page]: an empty list has
    one (empty) page. *)
Definition num_pages {A : Type} (page_size : Z) (queryset : list A) : Z :=
  let hits := Z.max 1 (Z.of_nat (List.length queryset)) in
  (hits + page_size - 1) / page_size.

(** [Paginator.validate_number] behind [get_page_number]: [None] stands for
    InvalidPage. *)
Definition page_number {A : Type} (page_size : Z) (queryset : list A) (page : page_param)
  : option Z :=
  match page with
  | PageAbsent => Some 1
  | PageNumber n =>
      if (1 <=? n) && (n <=? num_pages page_size queryset) then Some n else None
  | PageLast => Some (num_pages page_size queryset)
  | PageNotANumber => None
  end.

(** [Paginator.page(number).object_list]: the slice [bottom:top]. *)
Definition page_rows {A : Type} (page_size : Z) (queryset : list A) (number : Z) : list A :=
  firstn (Z.to_nat page_size) (skipn (Z.to_nat ((number - 1) * page_size)) queryset).

(** [paginator.paginate_queryset(queryset, request)] *)
Definition paginate_queryset {A : Type} (page_size : Z) (queryset : list A)
    (page : page_param) : option (Z * list A) :=
  match page_number page_size queryset page with
  | Some number => Some (number, page_rows page_size queryset number)
  | None => None
  end.

(** [paginator.get_paginated_response(data)]; the links are given by the
    page numbers they point to. *)
Definition get_paginated_response {A : Type} (page_size : Z) (queryset : list A)
    (number : Z) (data : list A) : view_result A :=
  Page (Z.of_nat (List.length queryset))
       (if number <? num_pages page_size queryset then Some (number + 1) else None)
       (if 1 <? number then Some (number - 1) else None)
       data.

(** NotFound, raised by [paginate_queryset] on an invalid page. *)
Definition invalid_page : Response.t :=
  Response.mk HTTP_404_NOT_FOUND (Response.Detail "Invalid page.").

Module MemberViewSet.

(** [MemberViewSet.reservations] *)
Definition reservations_of (db : DB) (pk : Z) : view_result Reservation.t :=
  match objects.get Member.id pk (members db) with
  | None => Failed not_found
  | Some member =>
      Rows (filter (fun r => Reservation.member r =? Member.id member) (reservations db))
  end.

End MemberViewSet.

Section Timestamps.

(** The [created_at] columns, which the rows leave out. *)
Variable rating_created_at : Rating.t -> Z.
Variable log_created_at : ActionLog.t -> Z.

Definition unmoderated (g : Rating.t) : bool :=
  match Rating.moderated_by g with
  | None => true
  | Some _ => false
  end.

(** [Rating.objects.filter(moderated_by__isnull=True).order_by('created_at')] *)
Definition pending_ratings (db : DB) : list Rating.t :=
  sort_by (fun x y => rating_created_at x <=? rating_created_at y)
          (filter unmoderated (ratings db)).

(** [RatingViewSet.pending] *)
Definition pending (db : DB) (page : page_param) : view_result Rating.t :=
  match paginate_queryset 10 (pending_ratings db) page with
  | None => Failed invalid_page
  | Some (number, rows) => get_paginated_response 10 (pending_ratings db) number rows
  end.

(** [ActionLog.Meta.ordering = ['-created_at', 'id']] *)
Definition log_order (x y : ActionLog.t) : bool :=
  (log_created_at y <? log_created_at x)
  || ((log_created_at x =? log_created_at y) && (ActionLog.id x <=? ActionLog.id y)).

Record LogParams := mkLogParams {
  lp_action_type : option string;
  lp_user_type : option string;
  lp_user_id : option Z;
  lp_accommodation_id : option Z;
  lp_start_date : option Z;
  lp_end_date : option Z;
  lp_page : page_param
}.

Definition opt_is (k : Z) (o : option Z) : bool :=
  match o with
  | Some v => v =? k
  | None => false
  end.

(** The filtered logs of [get_action_logs], before pagination. *)
Definition logs_queryset (db : DB) (q : LogParams) : list ActionLog.t :=
  let logs := sort_by log_order (action_logs db) in
  let logs := filter_if (nonempty (lp_action_type q))
                (fun s e => String.eqb (ActionLog.action_type e) s) logs in
  let logs := filter_if (nonempty (lp_user_type q))
                (fun s e => String.eqb (ActionLog.user_type e) s) logs in
  let logs := filter_if (lp_user_id q) (fun k e => opt_is k (ActionLog.user_id e)) logs in
  let logs := filter_if (lp_accommodation_id q)
                (fun k e => opt_is k (ActionLog.accommodation_id e)) logs in
  let logs := filter_if (lp_start_date q) (fun d e => log_created_at e >=? d) logs in
  let logs := filter_if (lp_end_date q) (fun d e => log_created_at e <=? d) logs in
  logs.

(** [get_action_logs] *)
Definition get_action_logs (db : DB) (q : LogParams) : view_result ActionLog.t :=
  let logs := logs_queryset db q in
  match paginate_queryset 20 logs (lp_page q) with
  | None => Failed invalid_page
  | Some (number, result_page) =>
      match result_page with
      | [] => Failed (Response.mk HTTP_404_NOT_FOUND (Response.Error "No logs found"))
      | _ => get_paginated_response 20 logs number result_page
      end
  end.

End Timestamps.

(** ** Vocabulary of the further statements *)

(** Every foreign key of a reservation or a rating names a row. *)
Definition fk_integrity (db : DB) : Prop :=
  (forall r, In r (reservations db) ->
     objects.get Accommodation.id (Reservation.accommodation r) (accommodations db) <> None
     /\ objects.get Member.id (Reservation.member r) (members db) <> None)
  /\ (forall g, In g (ratings db) ->
        objects.get Accommodation.id (Rating.accommodation g) (accommodations db) <> None
        /\ objects.get Member.id (Rating.member g) (members db) <> None
        /\ objects.get Reservation.id (Rating.reservation g) (reservations db) <> None).

(** [ActionLog.ACTION_TYPES]: the declared choices of [action_type]. *)
Definition ACTION_TYPES : list string :=
  [ "CREATE_ACCOMMODATION"; "UPDATE_ACCOMMODATION"; "DELETE_ACCOMMODATION";
    "MARK_UNAVAILABLE"; "CREATE_RESERVATION"; "UPDATE_RESERVATION";
    "CANCEL_RESERVATION"; "CREATE_RATING"; "MODERATE_RATING";
    "UPLOAD_PHOTO"; "DELETE_PHOTO" ]%string.

(** The action type under which each operation is logged. *)
Definition logged_as (op : operation) : string :=
  match op with
  | Reserve _ _ => "CREATE_RESERVATION"
  | Cancel _ => "CANCEL_RESERVATION"
  | UpdateStatus _ _ => "UPDATE_RESERVATION_STATUS"
  | Moderate _ _ _ => "MODERATE_RATING"
  | Destroy _ _ => "DELETE_ACCOMMODATION"
  end%string.


(** What one request does to the audit log: a 200 or 201 appends one entry
    of type [ty], any other answer appends nothing. *)
Definition logs_once (ty : string) (db : DB) (out : Response.t * DB) : Prop :=
  (Response.status_code (fst out) = HTTP_200_OK
   \/ Response.status_code (fst out) = HTTP_201_CREATED ->
   exists e, action_logs (snd out) = action_logs db ++ [e]
             /\ ActionLog.action_type e = ty)
  /\ (Response.status_code (fst out) <> HTTP_200_OK ->
      Response.status_code (fst out) <> HTTP_201_CREATED ->
      action_logs (snd out) = action_logs db).

(** The rating as [moderate] saves it. *)
Definition moderated (g : Rating.t) (specialist : Specialist.t) (data : ModerateData.t)
    (now : Z) : Rating.t :=
  Rating.mk (Rating.id g) (Rating.accommodation g) (Rating.member g)
    (Rating.reservation g) (Rating.score g) (Rating.comment g)
    (match ModerateData.is_approved data with Some b => b | None => true end)
    (Some (Specialist.id specialist)) (Some now)
    (match ModerateData.moderation_note data with Some s => s | None => EmptyString end).


(** [x] is the row of [rows] with primary key [k]: the key is unique. *)
Definition the_row {A : Type} (pk : A -> Z) (k : Z) (x : A) (rows : list A) : Prop :=
  In x rows /\ pk x = k /\ forall y, In y rows -> pk y = k -> y = x.

(** The rows a list view answered with; none for an error. *)
Definition results_of {A : Type} (v : view_result A) : list A :=
  match v with
  | Failed _ => []
  | Rows l => l
  | Page _ _ _ results => results
  end.

(** The valid page numbers of a list: 1 to [num_pages]. *)
Definition page_numbers {A : Type} (page_size : Z) (queryset : list A) : list Z :=
  map Z.of_nat (seq 1 (Z.to_nat (num_pages page_size queryset))).


(** ** views.py: creating an accommodation *)

Module CreateData.
(** [request.data] of [create]: the fields the view reads, and the rest of
    the payload, which only the serializer reads. *)
Record t := mk {
  building_name : option string;
  latitude : option Q;
  longitude : option Q;
  geo_address : option string;
  specialist_id : option Z;
  universities : list Z;
  rest : list (string * string)
}.
End CreateData.

(** What [AddressLookupService.lookup_address] can do: return a location,
    return nothing, or raise. *)
Inductive lookup_result :=
| Located (latitude longitude : option Q) (geo_address : option string)
| NoAddress
| LookupRaised (message : string).

(** What [create] answers: an error response, or 201 with the new row. *)
Inductive create_result :=
| NotCreated (r : Response.t)
| Created (a : Accommodation.t).

(** A submitted number is falsy when absent and when it is 0. *)
Definition truthy_number (x : option Q) : bool :=
  match x with
  | Some v => negb (Qeq_bool v 0)
  | None => false
  end.

Definition truthy_text (x : option string) : bool :=
  match nonempty x with
  | Some _ => true
  | None => false
  end.

Section Create.

(** The collaborators that are not among the sources: the address lookup
    service, the validation and row construction of
    [AccommodationSerializer] ([None] when [is_valid] raises), and the text
    Python prints for the submitted list of universities. *)
Variable lookup_address : string -> lookup_result.
Variable AccommodationSerializer : DB -> CreateData.t -> option (Z -> Accommodation.t).
Variable str_universities : list Z -> string.

(** Whether [create] consults the lookup service. *)
Definition needs_lookup (data : CreateData.t) : bool :=
  truthy_text (CreateData.building_name data)
  && negb (truthy_number (CreateData.latitude data)
           && truthy_number (CreateData.longitude data)
           && truthy_text (CreateData.geo_address data)).

(** [request_data] with the location the service returned. *)
Definition with_location (data : CreateData.t) (latitude longitude : option Q)
    (geo_address : option string) : CreateData.t :=
  CreateData.mk (CreateData.building_name data) latitude longitude geo_address
    (CreateData.specialist_id data) (CreateData.universities data)
    (CreateData.rest data).

(** [AccommodationViewSet.create] *)
Definition create (db : DB) (data : CreateData.t) : create_result * DB :=
  let located : Response.t + CreateData.t :=
    if needs_lookup data then
      match CreateData.building_name data with
      | Some building_name =>
          match lookup_address building_name with
          | Located latitude longitude geo_address =>
              inr (with_location data latitude longitude geo_address)
          | NoAddress =>
              inl (Response.mk HTTP_400_BAD_REQUEST
                     (Response.Error
                        "No address found for this building name. Please enter location data manually."))
          | LookupRaised e =>
              inl (Response.mk HTTP_400_BAD_REQUEST
                     (Response.Error
                        ("Failed to get location data: " ++ e
                           ++ ". Please enter location data manually.")))
          end
      | None => inr data
      end
    else inr data in
  match located with
  | inl response => (NotCreated response, db)
  | inr request_data =>
      match AccommodationSerializer db request_data with
      | None =>
          (NotCreated (Response.mk HTTP_400_BAD_REQUEST Response.SerializerErrors), db)
      | Some new =>
          let '(accommodation, rows) :=
            objects.create Accommodation.id new (accommodations db) in
          let db := set_accommodations rows db in
          let db :=
            log_action "CREATE_ACCOMMODATION"
              (match truthy_id (CreateData.specialist_id data) with
               | Some _ => "SPECIALIST"
               | None => "SYSTEM"
               end)
              (CreateData.specialist_id data)
              (Some (Accommodation.id accommodation)) None None
              ("Created accommodation '" ++ Accommodation.name accommodation
                 ++ "' with universities "
                 ++ str_universities (CreateData.universities request_data))
              db in
          (Created accommodation, db)
      end
  end.

End Create.


(** ** Sample data for the further statements *)

(** Peter's rating of his completed stay, not yet moderated. *)
Definition quiet_rating : Rating.t :=
  Rating.mk 1 1 1 1 4 "quiet" true None None EmptyString.

Definition db_rated : DB :=
  mkDB [main_campus; sassoon_road] [peter] [yu]
       [a_building; b_building; c_building] [completed_stay] [quiet_rating] [].

(** Yu rejects a rating. *)
Definition yu_rejects : ModerateData.t :=
  ModerateData.mk None (Some 1) (Some false) (Some "off topic"%string).

(** Peter looks for the places nearest to a campus. *)
Definition nearest_to (campus_id : option Z) : SearchParams.t :=
  SearchParams.mk None None None None None None None campus_id None (Some 1).

(** Rows are stamped in the order of their keys. *)
Definition rating_clock (g : Rating.t) : Z := Rating.id g.
Definition log_clock (e : ActionLog.t) : Z := ActionLog.id e.

(** The log after Peter reserved and cancelled B Building. *)
Definition db_logged : DB :=
  mkDB [main_campus; sassoon_road] [peter] [yu]
       [a_building; b_building; c_building] [] []
       [ActionLog.mk 1 "CREATE_RESERVATION" "MEMBER" (Some 1) (Some 2) (Some 1) None
          "Created reservation for 'B Building'";
        ActionLog.mk 2 "CANCEL_RESERVATION" "MEMBER" (Some 1) (Some 2) (Some 1) None
          "Reservation cancelled; status changed from PENDING to CANCELLED"].

Definition logs_of_cancellations : LogParams :=
  mkLogParams (Some "CANCEL_RESERVATION"%string) None None (Some 2) None None PageAbsent.

Definition logs_of_deletions : LogParams :=
  mkLogParams (Some "DELETE_ACCOMMODATION"%string) None None None None None PageAbsent.

(** A request to list a building by name only, a lookup service that knows
    no building, and a serializer that accepts located requests. *)
Definition by_name_only : CreateData.t :=
  CreateData.mk (Some "E Building"%string) None None None None [hku] [].

Definition with_coordinates : CreateData.t :=
  CreateData.mk (Some "E Building"%string) (Some (2228405 # 100000))
    (Some (11413784 # 100000)) (Some "8325013160T20050430"%string) (Some 1) [hku] [].

Definition knows_nothing (building_name : string) : lookup_result := NoAddress.

Definition always_down (building_name : string) : lookup_result :=
  LookupRaised "timeout".

Definition located_serializer (db : DB) (data : CreateData.t)
  : option (Z -> Accommodation.t) :=
  match CreateData.building_name data, CreateData.latitude data,
        CreateData.longitude data with
  | Some name, Some latitude, Some longitude =>
      Some (fun i => Accommodation.mk i name (CreateData.universities data) "APARTMENT"
                       1 1 latitude longitude 739252 739617 500000 true)
  | _, _, _ => None
  end.

Definition count_of (l : list Z) : string :=
  match l with
  | [] => "[]"
  | _ => "[...]"
  end.


(** Two queries that differ at most in [sort_by] and [campus_id]. *)
Definition same_filters (q q' : SearchParams.t) : Prop :=
  SearchParams.type q = SearchParams.type q'
  /\ SearchParams.available_from q = SearchParams.available_from q'
  /\ SearchParams.available_to q = SearchParams.available_to q'
  /\ SearchParams.num_beds q = SearchParams.num_beds q'
  /\ SearchParams.num_bedrooms q = SearchParams.num_bedrooms q'
  /\ SearchParams.min_price q = SearchParams.min_price q'
  /\ SearchParams.max_price q = SearchParams.max_price q'
  /\ SearchParams.member_id q = SearchParams.member_id q'.


(** * Properties *)

(** ** The ORM manager *)

Section TableFacts.
Context {A : Type} (pk : A -> Z).

Lemma get_pk (k : Z) (rows : list A) (x : A) :
  objects.get pk k rows = Some x -> pk x = k.
Proof.
  unfold objects.get. intros H.
  apply find_some in H. destruct H as [_ H]. now apply Z.eqb_eq.
Qed.

Lemma get_In (k : Z) (rows : list A) (x : A) :
  objects.get pk k rows = Some x -> In x rows.
Proof.
  unfold objects.get. intros H. now apply find_some in H.
Qed.

Lemma get_save_same (x : A) (rows : list A) :
  objects.get pk (pk x) (objects.save pk x rows) = Some x.
Proof.
  unfold objects.get.
  induction rows as [|y rows IH]; simpl.
  - now rewrite Z.eqb_refl.
  - destruct (pk y =? pk x) eqn:E; simpl.
    + now rewrite Z.eqb_refl.
    + now rewrite E.
Qed.

Lemma get_save_other (k : Z) (x : A) (rows : list A) :
  k <> pk x -> objects.get pk k (objects.save pk x rows) = objects.get pk k rows.
Proof.
  unfold objects.get. intros Hk.
  assert (Hx : (pk x =? k) = false) by (apply Z.eqb_neq; congruence).
  induction rows as [|y rows IH]; simpl.
  - now rewrite Hx.
  - destruct (pk y =? pk x) eqn:E; simpl.
    + apply Z.eqb_eq in E. rewrite E, Hx. reflexivity.
    + destruct (pk y =? k); [reflexivity | exact IH].
Qed.

Lemma save_length (x y : A) (rows : list A) :
  objects.get pk (pk x) rows = Some y ->
  List.length (objects.save pk x rows) = List.length rows.
Proof.
  unfold objects.get.
  induction rows as [|z rows IH]; simpl; [discriminate|].
  destruct (pk z =? pk x); simpl; [reflexivity|].
  intros H. now rewrite IH.
Qed.

End TableFacts.

(** ** Sorting *)

Section SortFacts.
Context {A : Type} (leb : A -> A -> bool).

Lemma insert_sorted_perm (x : A) (l : list A) :
  Permutation (x :: l) (insert_sorted leb x l).
Proof.
  induction l as [|y l IH]; simpl; [reflexivity|].
  destruct (leb x y); [reflexivity|].
  rewrite perm_swap. now constructor.
Qed.

Lemma sort_by_perm (l : list A) : Permutation l (sort_by leb l).
Proof.
  induction l as [|x l IH]; simpl; [constructor|].
  etransitivity; [|apply insert_sorted_perm]. now constructor.
Qed.

Lemma sort_by_In (x : A) (l : list A) : In x (sort_by leb l) <-> In x l.
Proof.
  split; apply Permutation_in; [symmetry|]; apply sort_by_perm.
Qed.

Hypothesis leb_total : forall x y, leb x y = true \/ leb y x = true.
Hypothesis leb_trans : forall x y z, leb x y = true -> leb y z = true -> leb x z = true.

Lemma insert_sorted_sorted (x : A) (l : list A) :
  StronglySorted (fun a b => leb a b = true) l ->
  StronglySorted (fun a b => leb a b = true) (insert_sorted leb x l).
Proof.
  induction 1 as [|y l Hs IH Hy]; simpl.
  - repeat constructor.
  - destruct (leb x y) eqn:E.
    + constructor; [now constructor|].
      constructor; [exact E|].
      rewrite Forall_forall in *. intros z Hz. eapply leb_trans; eauto.
    + constructor; [exact IH|].
      rewrite Forall_forall in *. intros z Hz.
      apply (Permutation_in _ (Permutation_sym (insert_sorted_perm x l))) in Hz.
      destruct Hz as [<-|Hz]; [|now apply Hy].
      destruct (leb_total x y) as [H|H]; congruence.
Qed.

Lemma sort_by_sorted (l : list A) :
  StronglySorted (fun a b => leb a b = true) (sort_by leb l).
Proof.
  induction l as [|x l IH]; simpl; [constructor|].
  now apply insert_sorted_sorted.
Qed.

End SortFacts.

Lemma StronglySorted_impl {A : Type} (P Q : A -> A -> Prop) (l : list A) :
  (forall x y, P x y -> Q x y) -> StronglySorted P l -> StronglySorted Q l.
Proof.
  intros HPQ. induction 1 as [|x l Hs IH Hx]; constructor; [exact IH|].
  rewrite Forall_forall in *. auto.
Qed.

Lemma filter_if_In {P A : Type} (param : option P) (keep : P -> A -> bool)
    (l : list A) (x : A) :
  In x (filter_if param keep l) <->
  In x l /\ forall p, param = Some p -> keep p x = true.
Proof.
  destruct param as [p|]; simpl.
  - rewrite filter_In. split.
    + intros [H1 H2]. split; [exact H1|]. intros p' [= <-]. exact H2.
    + intros [H1 H2]. split; [exact H1 | now apply H2].
  - split; [intros H; split; [exact H | discriminate] | now intros [H _]].
Qed.

(** ** Distance calculator *)

Section RoundedArithmetic.

Variable rnd : R -> R.
Variable math_cos : R -> R.
Hypothesis rnd_0 : rnd 0%R = 0%R.
Hypothesis rnd_monotone : forall x y : R, (x <= y)%R -> (rnd x <= rnd y)%R.

Lemma rnd_nonneg (x : R) : (0 <= x)%R -> (0 <= rnd x)%R.
Proof.
  intros H. rewrite <- rnd_0. now apply rnd_monotone.
Qed.

Lemma calculate_distance_nonneg (a : Accommodation.t) (c : Campus.t) :
  (0 <= Accommodation.calculate_distance rnd math_cos a c)%R.
Proof.
  unfold Accommodation.calculate_distance, Accommodation.math_sqrt,
    Accommodation.R_earth.
  apply rnd_nonneg. apply Rmult_le_pos; [lra|].
  apply rnd_nonneg. apply sqrt_pos.
Qed.

Lemma calculate_distance_same_point (a : Accommodation.t) (c : Campus.t) :
  Accommodation.latitude a == Campus.latitude c ->
  Accommodation.longitude a == Campus.longitude c ->
  Accommodation.calculate_distance rnd math_cos a c = 0%R.
Proof.
  intros Hlat Hlon.
  apply Qeq_eqR in Hlat. apply Qeq_eqR in Hlon.
  unfold Accommodation.calculate_distance, Accommodation.math_sqrt.
  rewrite Hlat, Hlon.
  repeat first [ rewrite Rminus_diag | rewrite rnd_0 | rewrite Rmult_0_l
               | rewrite Rmult_0_r | rewrite Rplus_0_l | rewrite sqrt_0 ].
  reflexivity.
Qed.

End RoundedArithmetic.

(** C5. [calculate_distance] is R * sqrt(x^2 + y^2) with R = 6371,
    x = (lon2 - lon1) * cos((lat1 + lat2) / 2) and y = lat2 - lat1 on the
    four coordinates converted from degrees to radians: the equation is
    that of the code read in exact arithmetic.  Whatever the rounding of
    the float operations (any monotone [rnd] that keeps 0, any [math_cos]),
    the result is never negative, and it is zero when the accommodation and
    the campus have the same coordinates. *)
Theorem calculate_distance_equirectangular :
  forall (rnd math_cos : R -> R),
    rnd 0%R = 0%R ->
    (forall x y : R, (x <= y)%R -> (rnd x <= rnd y)%R) ->
    forall (a : Accommodation.t) (c : Campus.t),
      let lat1 := (Q2R (Accommodation.latitude a) * (PI / 180))%R in
      let lon1 := (Q2R (Accommodation.longitude a) * (PI / 180))%R in
      let lat2 := (Q2R (Campus.latitude c) * (PI / 180))%R in
      let lon2 := (Q2R (Campus.longitude c) * (PI / 180))%R in
      let x := ((lon2 - lon1) * cos ((lat1 + lat2) / 2))%R in
      let y := (lat2 - lat1)%R in
      Accommodation.calculate_distance no_rounding cos a c = (6371 * sqrt (Rsqr x + Rsqr y))%R
      /\ (0 <= Accommodation.calculate_distance rnd math_cos a c)%R
      /\ (Accommodation.latitude a == Campus.latitude c ->
          Accommodation.longitude a == Campus.longitude c ->
          Accommodation.calculate_distance rnd math_cos a c = 0%R).
Proof.
  intros rnd math_cos H0 Hmono a c lat1 lon1 lat2 lon2 x y.
  split; [reflexivity|]. split.
  - now apply calculate_distance_nonneg.
  - now apply calculate_distance_same_point.
Qed.

Lemma calculate_distance_equirectangular_witness :
  (0 <= Accommodation.calculate_distance no_rounding cos a_building sassoon_road)%R
  /\ Accommodation.calculate_distance no_rounding cos a_building main_campus = 0%R.
Proof.
  pose proof (calculate_distance_equirectangular no_rounding cos eq_refl
                (fun x y H => H)) as distance.
  split.
  - apply (distance a_building sassoon_road).
  - apply (distance a_building main_campus); reflexivity.
Defined.

(** ** Rating eligibility *)





(** ** The model-level cancel *)

(** C9. [Reservation.cancel] never returns True.  On a reservation that is
    not PENDING it returns False and writes nothing; on a PENDING one (whose
    accommodation row exists) it also returns False, although it has set the
    status to CANCELLED, saved the reservation and made the accommodation
    available again.  The return value is the same in both cases. *)
Theorem Reservation_cancel_returns_False :
  forall (self : Reservation.t) (db : DB),
    fst (fst (Reservation_cancel self db)) <> Some true
    /\ (Reservation.status self <> "PENDING"%string ->
        Reservation_cancel self db = (Some false, self, db))
    /\ (Reservation.status self = "PENDING"%string ->
        forall a,
          objects.get Accommodation.id (Reservation.accommodation self) (accommodations db)
            = Some a ->
          exists db',
            Reservation_cancel self db
              = (Some false, Reservation.set_status "CANCELLED" self, db')
            /\ objects.get Reservation.id (Reservation.id self) (reservations db')
               = Some (Reservation.set_status "CANCELLED" self)
            /\ objects.get Accommodation.id (Reservation.accommodation self)
                 (accommodations db')
               = Some (Accommodation.set_is_available true a)
            /\ Accommodation.is_available (Accommodation.set_is_available true a) = true
            /\ ratings db' = ratings db /\ action_logs db' = action_logs db).
Proof.
  intros self db. unfold Reservation_cancel, Reservation.can_be_cancelled.
  split; [|split].
  - destruct (String.eqb _ _); [|simpl; discriminate].
    simpl. destruct (objects.get _ _ _); simpl; discriminate.
  - intros H. apply String.eqb_neq in H. now rewrite H.
  - intros H a Ha. apply String.eqb_eq in H. rewrite H. simpl.
    rewrite Ha. eexists. split; [reflexivity|]. simpl.
    split; [apply (get_save_same Reservation.id (Reservation.set_status "CANCELLED" self))|].
    split; [|auto].
    rewrite <- (get_pk _ _ _ _ Ha).
    apply (get_save_same Accommodation.id (Accommodation.set_is_available true a)).
Qed.

Lemma Reservation_cancel_returns_False_witness :
  fst (fst (Reservation_cancel pending_stay db_held)) = Some false
  /\ fst (fst (Reservation_cancel completed_stay db_held)) = Some false.
Proof.
  split.
  - destruct (proj2 (proj2 (Reservation_cancel_returns_False pending_stay db_held))
                eq_refl (Accommodation.set_is_available false a_building) eq_refl)
      as [db' [E _]].
    rewrite E. reflexivity.
  - rewrite (proj1 (proj2 (Reservation_cancel_returns_False completed_stay db_held))).
    + reflexivity.
    + discriminate.
Defined.

(** ** Rejections write nothing *)

(** Splits on the scrutinee of the first [match] or [if] of the goal. *)
Ltac split_view :=
  match goal with
  | |- context [match ?x with _ => _ end] =>
      lazymatch x with
      | context [match _ with _ => _ end] => fail
      | _ => destruct x eqn:?
      end
  end.

Ltac settle_rejection :=
  simpl; try reflexivity; try (intros; discriminate).

Lemma reserve_rejection v sv db pk data :
  is_rejection (fst (AccommodationViewSet.reserve v sv db pk data)) = true ->
  snd (AccommodationViewSet.reserve v sv db pk data) = db.
Proof.
  unfold AccommodationViewSet.reserve.
  repeat (split_view; settle_rejection).
Qed.

Lemma cancel_rejection db pk :
  is_rejection (fst (ReservationViewSet.cancel db pk)) = true ->
  snd (ReservationViewSet.cancel db pk) = db.
Proof.
  unfold ReservationViewSet.cancel.
  repeat (split_view; settle_rejection).
Qed.

Lemma update_status_rejection db pk new_status :
  is_rejection (fst (ReservationViewSet.update_status db pk new_status)) = true ->
  snd (ReservationViewSet.update_status db pk new_status) = db.
Proof.
  unfold ReservationViewSet.update_status.
  destruct (objects.get Reservation.id pk (reservations db)) as [r|];
    [|reflexivity].
  destruct (nonempty new_status) as [s|]; [|reflexivity].
  destruct (negb (ReservationViewSet.str_in s ReservationViewSet.valid_statuses));
    [reflexivity|].
  cbv zeta.
  repeat (split_view; settle_rejection).
Qed.

Lemma moderate_rejection db pk data now :
  is_rejection (fst (RatingViewSet.moderate db pk data now)) = true ->
  snd (RatingViewSet.moderate db pk data now) = db.
Proof.
  unfold RatingViewSet.moderate.
  repeat (split_view; settle_rejection).
Qed.

Lemma destroy_rejection db pk specialist_id :
  is_rejection (fst (AccommodationViewSet.destroy db pk specialist_id)) = true ->
  snd (AccommodationViewSet.destroy db pk specialist_id) = db.
Proof.
  unfold AccommodationViewSet.destroy.
  repeat (split_view; settle_rejection).
Qed.

(** C7. Whenever reserve, cancel, update-status, moderate or delete
    accommodation answers with a validation, not-found or conflict error
    (a 400 or a 404), the database after the call is the database before
    it: no accommodation, reservation or rating row is modified and no
    audit entry is created. *)
Theorem rejected_operation_leaves_state_untouched :
  forall (validate_required_fields : ReserveData.t -> list string -> option string)
         (ReservationSerializer_validate : DB -> Reservation.t -> bool)
         (op : operation) (db : DB),
    is_rejection (fst (run validate_required_fields ReservationSerializer_validate op db))
      = true ->
    snd (run validate_required_fields ReservationSerializer_validate op db) = db.
Proof.
  intros v sv [pk data|pk|pk s|pk data now|pk sid] db; simpl.
  - apply reserve_rejection.
  - apply cancel_rejection.
  - apply update_status_rejection.
  - apply moderate_rejection.
  - apply destroy_rejection.
Qed.

Lemma rejected_operation_leaves_state_untouched_witness :
  snd (run required_fields_present range_not_reversed (Reserve 1 peter_request) db_confirmed)
    = db_confirmed
  /\ snd (run required_fields_present range_not_reversed (Cancel 4) db_confirmed)
     = db_confirmed
  /\ snd (run required_fields_present range_not_reversed
            (UpdateStatus 4 (Some "ARCHIVED"%string)) db_confirmed)
     = db_confirmed
  /\ snd (run required_fields_present range_not_reversed
            (Moderate 9 (ModerateData.mk None (Some 1) None None) 0) db_confirmed)
     = db_confirmed
  /\ snd (run required_fields_present range_not_reversed (Destroy 1 (Some 1)) db_confirmed)
     = db_confirmed.
Proof.
  pose proof (rejected_operation_leaves_state_untouched
                required_fields_present range_not_reversed) as untouched.
  refine (conj _ (conj _ (conj _ (conj _ _)))); apply untouched; reflexivity.
Defined.

(** ** Cancel *)

Lemma cancel_confirmed_rejected db pk r :
  objects.get Reservation.id pk (reservations db) = Some r ->
  Reservation.status r = "CONFIRMED"%string ->
  ReservationViewSet.cancel db pk
    = (Response.mk HTTP_400_BAD_REQUEST
         (Response.Error "Cannot cancel a confirmed reservation"), db).
Proof.
  intros Hr Hs. unfold ReservationViewSet.cancel. rewrite Hr, Hs. reflexivity.
Qed.

Lemma cancel_success_effects db pk resp db' :
  ReservationViewSet.cancel db pk = (resp, db') ->
  Response.status_code resp = HTTP_200_OK ->
  exists r a entry,
    objects.get Reservation.id pk (reservations db) = Some r
    /\ Reservation.status r <> "CONFIRMED"%string
    /\ objects.get Reservation.id pk (reservations db')
       = Some (Reservation.set_status "CANCELLED" r)
    /\ objects.get Accommodation.id (Reservation.accommodation r) (accommodations db')
       = Some (Accommodation.set_is_available true a)
    /\ action_logs db' = action_logs db ++ [entry]
    /\ ActionLog.action_type entry = "CANCEL_RESERVATION"%string.
Proof.
  unfold ReservationViewSet.cancel.
  destruct (objects.get Reservation.id pk (reservations db)) as [r|] eqn:Hr;
    [|intros [= <- <-]; discriminate].
  destruct (String.eqb (Reservation.status r) "CONFIRMED") eqn:Hs;
    [intros [= <- <-]; discriminate|].
  simpl.
  destruct (objects.get Accommodation.id _ _) as [a|] eqn:Ha;
    [|intros [= <- <-]; discriminate].
  destruct (objects.get Member.id _ _) as [m|] eqn:Hm;
    [|intros [= <- <-]; discriminate].
  intros [= <- <-] _.
  exists r, a. eexists. simpl.
  split; [reflexivity|].
  split; [now apply String.eqb_neq|].
  split.
  { rewrite <- (get_pk _ _ _ _ Hr).
    apply (get_save_same Reservation.id (Reservation.set_status "CANCELLED" r)). }
  split.
  { rewrite <- (get_pk _ _ _ _ Ha).
    apply (get_save_same Accommodation.id (Accommodation.set_is_available true a)). }
  split; reflexivity.
Qed.

(** The view refuses CONFIRMED and nothing else: from every other status,
    PENDING or not, the cancellation goes through. *)
Lemma cancel_accepted_unless_confirmed db pk r a m :
  objects.get Reservation.id pk (reservations db) = Some r ->
  Reservation.status r <> "CONFIRMED"%string ->
  objects.get Accommodation.id (Reservation.accommodation r) (accommodations db) = Some a ->
  objects.get Member.id (Reservation.member r) (members db) = Some m ->
  fst (ReservationViewSet.cancel db pk)
  = Response.mk HTTP_200_OK (Response.Status "Reservation cancelled successfully").
Proof.
  intros Hr Hs Ha Hm. unfold ReservationViewSet.cancel. rewrite Hr.
  apply String.eqb_neq in Hs. rewrite Hs. simpl. rewrite Ha, Hm. reflexivity.
Qed.

(** C1, at the failing input.  The model says a completed stay cannot be
    cancelled ([can_be_cancelled] is false), yet the view only refuses
    CONFIRMED: the request on [completed_stay] is answered 200, the
    reservation becomes CANCELLED and A Building is made available while
    [pending_stay] still holds it. *)
Theorem cancel_accepts_completed_reservation :
  Reservation.can_be_cancelled completed_stay = false
  /\ ReservationViewSet.cancel db_held 1
     = (Response.mk HTTP_200_OK (Response.Status "Reservation cancelled successfully"),
        mkDB [main_campus; sassoon_road] [peter] [yu]
          [Accommodation.set_is_available true a_building; b_building; c_building]
          [Reservation.set_status "CANCELLED" completed_stay; pending_stay]
          []
          [ActionLog.mk 1 "CANCEL_RESERVATION" "MEMBER" (Some 1) (Some 1) (Some 1) None
             "Reservation cancelled; status changed from COMPLETED to CANCELLED"]).
Proof.
  split; reflexivity.
Qed.

(** ** Reserve *)

(** C2. A reserve request against an accommodation whose [is_available] is
    false is answered with the conflict error whatever the body holds, and
    the database is left as it was.  When reserve answers 201 the
    accommodation was available and is now saved with [is_available] false,
    one reservation with status PENDING has been appended for it, and the
    audit log has grown by exactly one entry, whose action type is
    CREATE_RESERVATION and which names that reservation. *)
Theorem reserve_conflict_or_pending_reservation :
  forall (validate_required_fields : ReserveData.t -> list string -> option string)
         (ReservationSerializer_validate : DB -> Reservation.t -> bool)
         (db : DB) (pk : Z) (data : ReserveData.t),
    (forall a,
        objects.get Accommodation.id pk (accommodations db) = Some a ->
        Accommodation.is_available a = false ->
        AccommodationViewSet.reserve validate_required_fields
          ReservationSerializer_validate db pk data
        = (Response.mk HTTP_400_BAD_REQUEST (Response.Error "Accommodation not available"),
           db))
    /\ (forall resp db',
           AccommodationViewSet.reserve validate_required_fields
             ReservationSerializer_validate db pk data = (resp, db') ->
           Response.status_code resp = HTTP_201_CREATED ->
           exists a r entry,
             objects.get Accommodation.id pk (accommodations db) = Some a
             /\ Accommodation.is_available a = true
             /\ objects.get Accommodation.id pk (accommodations db')
                = Some (Accommodation.set_is_available false a)
             /\ resp = Response.mk HTTP_201_CREATED (Response.ReservationData r)
             /\ Reservation.status r = "PENDING"%string
             /\ Reservation.accommodation r = pk
             /\ reservations db' = reservations db ++ [r]
             /\ ratings db' = ratings db
             /\ action_logs db' = action_logs db ++ [entry]
             /\ ActionLog.action_type entry = "CREATE_RESERVATION"%string
             /\ ActionLog.accommodation_id entry = Some pk
             /\ ActionLog.reservation_id entry = Some (Reservation.id r)).
Proof.
  intros v sv db pk data. split.
  - intros a Ha Hav. unfold AccommodationViewSet.reserve. rewrite Ha, Hav. reflexivity.
  - intros resp db'. unfold AccommodationViewSet.reserve.
    destruct (objects.get Accommodation.id pk (accommodations db)) as [a|] eqn:Ha;
      [|intros [= <- <-]; discriminate].
    destruct (Accommodation.is_available a) eqn:Hav;
      [|intros [= <- <-]; discriminate].
    simpl.
    destruct (v data _) as [e|]; [intros [= <- <-]; discriminate|].
    destruct (AccommodationViewSet.ReservationSerializer_is_valid sv db
                (Accommodation.id a) data) as [new|] eqn:Hnew;
      [|intros [= <- <-]; discriminate].
    intros Hrun _.
    pose proof (get_pk _ _ _ _ Ha) as Hpk.
    unfold AccommodationViewSet.ReservationSerializer_is_valid in Hnew.
    destruct (ReserveData.member_id data); [|discriminate].
    destruct (ReserveData.reserved_from data); [|discriminate].
    destruct (ReserveData.reserved_to data); [|discriminate].
    destruct (ReserveData.contact_name data); [|discriminate].
    destruct (ReserveData.contact_phone data); [|discriminate].
    destruct (objects.get Member.id _ _); [|discriminate].
    destruct (sv db _); [|discriminate].
    injection Hnew as <-. simpl in Hrun. injection Hrun as <- <-.
    exists a. eexists. eexists. simpl.
    split; [reflexivity|]. split; [exact Hav|].
    split.
    { rewrite <- Hpk.
      apply (get_save_same Accommodation.id (Accommodation.set_is_available false a)). }
    repeat split; try reflexivity; simpl; congruence.
Qed.

Lemma reserve_conflict_or_pending_reservation_witness :
  AccommodationViewSet.reserve required_fields_present range_not_reversed
    db_confirmed 1 peter_request
  = (Response.mk HTTP_400_BAD_REQUEST (Response.Error "Accommodation not available"),
     db_confirmed)
  /\ exists a r entry,
       objects.get Accommodation.id 2 (accommodations db_confirmed) = Some a
       /\ Accommodation.is_available a = true
       /\ objects.get Accommodation.id 2
            (accommodations
               (snd (AccommodationViewSet.reserve required_fields_present
                       range_not_reversed db_confirmed 2 peter_request)))
          = Some (Accommodation.set_is_available false a)
       /\ fst (AccommodationViewSet.reserve required_fields_present
                 range_not_reversed db_confirmed 2 peter_request)
          = Response.mk HTTP_201_CREATED (Response.ReservationData r)
       /\ Reservation.status r = "PENDING"%string
       /\ Reservation.accommodation r = 2
       /\ reservations
            (snd (AccommodationViewSet.reserve required_fields_present
                    range_not_reversed db_confirmed 2 peter_request))
          = reservations db_confirmed ++ [r]
       /\ ratings
            (snd (AccommodationViewSet.reserve required_fields_present
                    range_not_reversed db_confirmed 2 peter_request))
          = ratings db_confirmed
       /\ action_logs
            (snd (AccommodationViewSet.reserve required_fields_present
                    range_not_reversed db_confirmed 2 peter_request))
          = action_logs db_confirmed ++ [entry]
       /\ ActionLog.action_type entry = "CREATE_RESERVATION"%string
       /\ ActionLog.accommodation_id entry = Some 2
       /\ ActionLog.reservation_id entry = Some (Reservation.id r).
Proof.
  split.
  - apply (proj1 (reserve_conflict_or_pending_reservation required_fields_present
                    range_not_reversed db_confirmed 1 peter_request)
             (Accommodation.set_is_available false a_building));
      reflexivity.
  - apply (proj2 (reserve_conflict_or_pending_reservation required_fields_present
                    range_not_reversed db_confirmed 2 peter_request)
             (fst (AccommodationViewSet.reserve required_fields_present
                     range_not_reversed db_confirmed 2 peter_request))
             (snd (AccommodationViewSet.reserve required_fields_present
                     range_not_reversed db_confirmed 2 peter_request)));
      reflexivity.
Defined.

(** ** Update status *)

Lemma str_in_In (s : string) (l : list string) :
  ReservationViewSet.str_in s l = true <-> In s l.
Proof.
  unfold ReservationViewSet.str_in. rewrite existsb_exists. split.
  - intros [x [Hx E]]. apply String.eqb_eq in E. now subst.
  - intros H. exists s. split; [exact H | apply String.eqb_refl].
Qed.

(** C6 as stated fails: posting CANCELLED on a reservation that is already
    CANCELLED is accepted, and the accommodation (here held by another,
    pending reservation) stays unavailable. *)
Lemma update_status_cancelled_again_counterexample :
  ~ (forall db pk resp db' r a,
        ReservationViewSet.update_status db pk (Some "CANCELLED"%string) = (resp, db') ->
        Response.status_code resp = HTTP_200_OK ->
        objects.get Reservation.id pk (reservations db) = Some r ->
        objects.get Accommodation.id (Reservation.accommodation r) (accommodations db')
          = Some a ->
        Accommodation.is_available a = true).
Proof.
  intros H.
  specialize (H db_held_after_cancel 3 _ _ cancelled_stay
                (Accommodation.set_is_available false a_building)
                eq_refl eq_refl eq_refl eq_refl).
  discriminate H.
Qed.

(** C6, amended.  For a reservation that exists: a missing status or one
    outside PENDING, CONFIRMED, CANCELLED, COMPLETED is rejected with the
    validation error and the database is unchanged.  Every value of the four
    is accepted (the member and accommodation rows being there): the
    reservation is saved with the new status, no rating changes, one audit
    entry is appended whose details record the old and the new status, and
    the accommodation table changes only when the new status is CANCELLED
    and the old one was not, in which case the accommodation is saved with
    [is_available] true.  Entering CONFIRMED, or repeating CANCELLED,
    leaves every accommodation as it was. *)
Theorem update_status_validates_and_records :
  forall (db : DB) (pk : Z) (new_status : option string) (r : Reservation.t),
    objects.get Reservation.id pk (reservations db) = Some r ->
    ((new_status = None
      \/ exists s, new_status = Some s
                   /\ ~ In s ["PENDING"; "CONFIRMED"; "CANCELLED"; "COMPLETED"]%string) ->
     ReservationViewSet.update_status db pk new_status
     = (Response.mk HTTP_400_BAD_REQUEST (Response.Error "Invalid status value"), db))
    /\ (forall s m a,
           new_status = Some s ->
           In s ["PENDING"; "CONFIRMED"; "CANCELLED"; "COMPLETED"]%string ->
           objects.get Member.id (Reservation.member r) (members db) = Some m ->
           objects.get Accommodation.id (Reservation.accommodation r) (accommodations db)
             = Some a ->
           exists db',
             ReservationViewSet.update_status db pk new_status
             = (Response.mk HTTP_200_OK
                  (Response.ReservationData (Reservation.set_status s r)), db')
             /\ reservations db'
                = objects.save Reservation.id (Reservation.set_status s r) (reservations db)
             /\ ratings db' = ratings db
             /\ action_logs db'
                = action_logs db
                  ++ [ActionLog.mk (objects.next_pk ActionLog.id (action_logs db))
                        "UPDATE_RESERVATION_STATUS" "MEMBER"
                        (Some (Reservation.member r))
                        (Some (Reservation.accommodation r))
                        (Some pk) None
                        ("Reservation status updated from " ++ Reservation.status r
                           ++ " to " ++ s)]
             /\ (s = "CANCELLED"%string -> Reservation.status r <> "CANCELLED"%string ->
                 accommodations db'
                 = objects.save Accommodation.id (Accommodation.set_is_available true a)
                     (accommodations db)
                 /\ objects.get Accommodation.id (Reservation.accommodation r)
                      (accommodations db')
                    = Some (Accommodation.set_is_available true a))
             /\ (s = "CANCELLED"%string -> Reservation.status r = "CANCELLED"%string ->
                 accommodations db' = accommodations db)
             /\ (s <> "CANCELLED"%string -> accommodations db' = accommodations db)).
Proof.
  intros db pk new_status r Hr.
  pose proof (get_pk _ _ _ _ Hr) as Hpk.
  unfold ReservationViewSet.update_status. rewrite Hr. split.
  - intros [-> | [s [-> Hs]]]; [reflexivity|].
    unfold nonempty. destruct (String.eqb s EmptyString); [reflexivity|].
    destruct (ReservationViewSet.str_in s ReservationViewSet.valid_statuses) eqn:E;
      [|reflexivity].
    apply str_in_In in E. contradiction.
  - intros s m a -> Hs Hm Ha.
    pose proof (get_pk _ _ _ _ Ha) as Hapk.
    pose proof (get_pk _ _ _ _ Hm) as Hmpk.
    assert (Hsave : objects.get Accommodation.id (Reservation.accommodation r)
                      (objects.save Accommodation.id
                         (Accommodation.set_is_available true a) (accommodations db))
                    = Some (Accommodation.set_is_available true a)).
    { rewrite <- Hapk.
      apply (get_save_same Accommodation.id (Accommodation.set_is_available true a)). }
    simpl in Hs.
    destruct Hs as [<- | [<- | [<- | [<- | []]]]]; simpl.
    + rewrite Hm, Ha. simpl. rewrite Hmpk, Hapk, Hpk.
      eexists. split; [reflexivity|]. simpl.
      repeat split; try reflexivity; intros; discriminate.
    + destruct (String.eqb (Reservation.status r) "PENDING");
        simpl; rewrite Hm, Ha; simpl; rewrite Hmpk, Hapk, Hpk;
        (eexists; split; [reflexivity|]; simpl;
         repeat split; try reflexivity; intros; discriminate).
    + destruct (String.eqb (Reservation.status r) "CANCELLED") eqn:E; simpl.
      * rewrite Hm, Ha. simpl. rewrite Hmpk, Hapk, Hpk.
        eexists. split; [reflexivity|]. simpl.
        apply String.eqb_eq in E.
        repeat split; try reflexivity; intros; congruence.
      * rewrite Ha. simpl. rewrite Hm, Hsave. simpl. rewrite Hmpk, Hapk, Hpk.
        eexists. split; [reflexivity|]. simpl.
        apply String.eqb_neq in E.
        repeat split; try reflexivity; try exact Hsave; intros; congruence.
    + destruct (String.eqb (Reservation.status r) "COMPLETED");
        simpl; rewrite Hm, Ha; simpl; rewrite Hmpk, Hapk, Hpk;
        (eexists; split; [reflexivity|]; simpl;
         repeat split; try reflexivity; intros; discriminate).
Qed.

Lemma update_status_validates_and_records_witness :
  ReservationViewSet.update_status db_held 2 (Some "ARCHIVED"%string)
  = (Response.mk HTTP_400_BAD_REQUEST (Response.Error "Invalid status value"), db_held)
  /\ (exists db',
         ReservationViewSet.update_status db_held 2 (Some "CANCELLED"%string)
         = (Response.mk HTTP_200_OK
              (Response.ReservationData (Reservation.set_status "CANCELLED" pending_stay)),
            db')
         /\ objects.get Accommodation.id 1 (accommodations db')
            = Some (Accommodation.set_is_available true a_building))
  /\ (exists db',
         ReservationViewSet.update_status db_held_after_cancel 3 (Some "CANCELLED"%string)
         = (Response.mk HTTP_200_OK (Response.ReservationData cancelled_stay), db')
         /\ accommodations db' = accommodations db_held_after_cancel).
Proof.
  split; [|split].
  - apply (proj1 (update_status_validates_and_records db_held 2
                    (Some "ARCHIVED"%string) pending_stay eq_refl)).
    right. exists "ARCHIVED"%string. split; [reflexivity|].
    simpl. intros [H|[H|[H|[H|[]]]]]; discriminate H.
  - destruct (proj2 (update_status_validates_and_records db_held 2
                       (Some "CANCELLED"%string) pending_stay eq_refl)
                "CANCELLED"%string peter (Accommodation.set_is_available false a_building)
                eq_refl (or_intror (or_intror (or_introl eq_refl))) eq_refl eq_refl)
      as [db' [E [_ [_ [_ [Hc _]]]]]].
    exists db'. split; [exact E|].
    apply Hc; [reflexivity | discriminate].
  - destruct (proj2 (update_status_validates_and_records db_held_after_cancel 3
                       (Some "CANCELLED"%string) cancelled_stay eq_refl)
                "CANCELLED"%string peter (Accommodation.set_is_available false a_building)
                eq_refl (or_intror (or_intror (or_introl eq_refl))) eq_refl eq_refl)
      as [db' [E [_ [_ [_ [_ [Hc _]]]]]]].
    exists db'. split; [exact E|].
    apply Hc; reflexivity.
Defined.

(** ** Search *)

Lemma search_queryset_In db q u a :
  In a (AccommodationViewSet.search_queryset db q u) <->
  In a (accommodations db)
  /\ satisfies_filters u q a
  /\ (forall f t, SearchParams.available_from q = Some f ->
                  SearchParams.available_to q = Some t ->
                  overlap_excluded db f t a = false).
Proof.
  unfold AccommodationViewSet.search_queryset, satisfies_filters.
  assert (Hty : (forall p, nonempty (SearchParams.type q) = Some p ->
                           String.eqb (Accommodation.type a) p = true)
                <-> (forall ty, SearchParams.type q = Some ty -> ty <> EmptyString ->
                                Accommodation.type a = ty)).
  { unfold nonempty. destruct (SearchParams.type q) as [ty|].
    - destruct (String.eqb ty EmptyString) eqn:E.
      + apply String.eqb_eq in E. split; [|discriminate].
        intros _ ty' [= <-] Hne. contradiction.
      + apply String.eqb_neq in E. split.
        * intros H ty' [= <-] _. apply String.eqb_eq. now apply H.
        * intros H p [= <-]. apply String.eqb_eq. now apply H.
    - split; intros; discriminate. }
  set (base := filter_if (SearchParams.max_price q) _ _).
  assert (Hbase : In a base <->
                  In a (accommodations db)
                  /\ In u (Accommodation.universities a)
                  /\ Accommodation.is_available a = true
                  /\ (forall ty, SearchParams.type q = Some ty -> ty <> EmptyString ->
                                 Accommodation.type a = ty)
                  /\ (forall n, SearchParams.num_beds q = Some n ->
                                n <= Accommodation.num_beds a)
                  /\ (forall n, SearchParams.num_bedrooms q = Some n ->
                                n <= Accommodation.num_bedrooms a)
                  /\ (forall p, SearchParams.min_price q = Some p ->
                                p <= Accommodation.monthly_rent a)
                  /\ (forall p, SearchParams.max_price q = Some p ->
                                Accommodation.monthly_rent a <= p)
                  /\ (forall d, SearchParams.available_from q = Some d ->
                                Accommodation.available_from a <= d)
                  /\ (forall d, SearchParams.available_to q = Some d ->
                                d <= Accommodation.available_to a)).
  { subst base. rewrite !filter_if_In, filter_In, andb_true_iff, Hty.
    assert (Hu : existsb (Z.eqb u) (Accommodation.universities a) = true
                 <-> In u (Accommodation.universities a)).
    { rewrite existsb_exists. split.
      - intros [x [Hx E]]. apply Z.eqb_eq in E. now subst.
      - intros H. exists u. split; [exact H | apply Z.eqb_refl]. }
    rewrite Hu.
    split.
    - intros [[[[[[[[Hin [H1 H2]] H3] H4] H5] H6] H7] H8] H9].
      repeat split; auto; intros x Hx.
      + apply Z.geb_le. now apply H6.
      + apply Z.geb_le. now apply H7.
      + apply Z.geb_le. now apply H8.
      + apply Z.leb_le. now apply H9.
      + apply Z.leb_le. now apply H4.
      + apply Z.geb_le. now apply H5.
    - intros [Hin [H1 [H2 [H3 [H4 [H5 [H6 [H7 [H8 H9]]]]]]]]].
      repeat split; auto; intros x Hx.
      + apply Z.leb_le. now apply H8.
      + apply Z.geb_le. now apply H9.
      + apply Z.geb_le. now apply H4.
      + apply Z.geb_le. now apply H5.
      + apply Z.geb_le. now apply H6.
      + apply Z.leb_le. now apply H7. }
  destruct (SearchParams.available_from q) as [f|];
    [destruct (SearchParams.available_to q) as [t|]|].
  - rewrite filter_In, negb_true_iff, Hbase. split.
    + intros [H Hx]. split; [tauto|]. split; [tauto|].
      intros f' t' [= <-] [= <-]. exact Hx.
    + intros [H1 [H2 H3]]. split; [tauto|]. now apply H3.
  - rewrite Hbase. split.
    + intros H. split; [tauto|]. split; [tauto|]. intros; discriminate.
    + tauto.
  - rewrite Hbase. split.
    + intros H. split; [tauto|]. split; [tauto|]. intros; discriminate.
    + tauto.
Qed.

Lemma sorted_rent_asc (l : list Accommodation.t) :
  StronglySorted
    (fun a b => Accommodation.monthly_rent a <= Accommodation.monthly_rent b)
    (sort_by rent_asc l).
Proof.
  apply StronglySorted_impl with (P := fun a b => rent_asc a b = true).
  - intros x y. apply Z.leb_le.
  - apply sort_by_sorted; unfold rent_asc.
    + intros x y. rewrite !Z.leb_le. lia.
    + intros x y z. rewrite !Z.leb_le. lia.
Qed.

Lemma sorted_rent_desc (l : list Accommodation.t) :
  StronglySorted
    (fun a b => Accommodation.monthly_rent b <= Accommodation.monthly_rent a)
    (sort_by rent_desc l).
Proof.
  apply StronglySorted_impl with (P := fun a b => rent_desc a b = true).
  - intros x y. apply Z.leb_le.
  - apply sort_by_sorted; unfold rent_desc.
    + intros x y. rewrite !Z.leb_le. lia.
    + intros x y z. rewrite !Z.leb_le. lia.
Qed.

Lemma map_fst_serialize_many (l : list Accommodation.t) :
  map fst (AccommodationViewSet.serialize_many l) = l.
Proof.
  unfold AccommodationViewSet.serialize_many. rewrite map_map. simpl. apply map_id.
Qed.

Section SearchFacts.

(** The search is studied for every float arithmetic. *)
Variable rnd : R -> R.
Variable math_cos : R -> R.

(** The response of [search] on each of its sort paths, for a member that
    exists. *)
Lemma search_price_asc db q member_id member :
  SearchParams.member_id q = Some member_id ->
  objects.get Member.id member_id (members db) = Some member ->
  SearchParams.sort_by q = Some "price_asc"%string ->
  AccommodationViewSet.search rnd math_cos db q
  = AccommodationViewSet.ok_list
      (AccommodationViewSet.serialize_many
         (sort_by rent_asc
            (AccommodationViewSet.search_queryset db q (Member.university member)))).
Proof.
  intros Hid Hm Hs. unfold AccommodationViewSet.search. rewrite Hid, Hm, Hs. reflexivity.
Qed.

Lemma search_price_desc db q member_id member :
  SearchParams.member_id q = Some member_id ->
  objects.get Member.id member_id (members db) = Some member ->
  SearchParams.sort_by q = Some "price_desc"%string ->
  AccommodationViewSet.search rnd math_cos db q
  = AccommodationViewSet.ok_list
      (AccommodationViewSet.serialize_many
         (sort_by rent_desc
            (AccommodationViewSet.search_queryset db q (Member.university member)))).
Proof.
  intros Hid Hm Hs. unfold AccommodationViewSet.search. rewrite Hid, Hm, Hs. reflexivity.
Qed.

(** Every row of a successful response comes from the filtered queryset. *)
Lemma search_items_from_queryset db q member_id member items :
  SearchParams.member_id q = Some member_id ->
  objects.get Member.id member_id (members db) = Some member ->
  AccommodationViewSet.search rnd math_cos db q = AccommodationViewSet.ok_list items ->
  forall item, In item items ->
    In (fst item) (AccommodationViewSet.search_queryset db q (Member.university member)).
Proof.
  intros Hid Hm. unfold AccommodationViewSet.search. rewrite Hid, Hm.
  set (qs := AccommodationViewSet.search_queryset db q (Member.university member)).
  unfold AccommodationViewSet.ok_list, AccommodationViewSet.serialize_many.
  destruct (String.eqb _ "price_asc");
    [|destruct (String.eqb _ "price_desc");
      [|destruct (SearchParams.campus_id q) as [c|];
        [destruct (objects.get Campus.id c (campuses db)) as [campus|]|]]].
  - intros [= <-] item Hin. apply in_map_iff in Hin.
    destruct Hin as [a [<- Ha]]. simpl. now apply sort_by_In in Ha.
  - intros [= <-] item Hin. apply in_map_iff in Hin.
    destruct Hin as [a [<- Ha]]. simpl. now apply sort_by_In in Ha.
  - intros [= <-] item Hin. apply in_map_iff in Hin.
    destruct Hin as [x [<- Hx]]. simpl. apply sort_by_In in Hx.
    apply in_map_iff in Hx. destruct Hx as [a [<- Ha]]. exact Ha.
  - discriminate.
  - intros [= <-] item Hin. apply in_map_iff in Hin.
    destruct Hin as [a [<- Ha]]. exact Ha.
Qed.

(** C4. For a query whose [member_id] names a member: every accommodation
    of a successful response is a row of the database associated with the
    member's university, has [is_available] true and satisfies each optional
    filter that was supplied (type, minimum beds and bedrooms, inclusive
    price bounds, containment of the availability window); with
    [sort_by=price_asc] the response is a success whose rows are in
    non-decreasing [monthly_rent] order, with [price_desc] in non-increasing
    order. *)
Theorem search_results_satisfy_query :
  forall (db : DB) (q : SearchParams.t) (member_id : Z) (member : Member.t),
    SearchParams.member_id q = Some member_id ->
    objects.get Member.id member_id (members db) = Some member ->
    (forall items,
        AccommodationViewSet.search rnd math_cos db q = AccommodationViewSet.ok_list items ->
        Forall (fun item =>
                  In (fst item) (accommodations db)
                  /\ satisfies_filters (Member.university member) q (fst item))
               items)
    /\ (SearchParams.sort_by q = Some "price_asc"%string ->
        exists items,
          AccommodationViewSet.search rnd math_cos db q = AccommodationViewSet.ok_list items
          /\ StronglySorted
               (fun a b => Accommodation.monthly_rent a <= Accommodation.monthly_rent b)
               (map fst items))
    /\ (SearchParams.sort_by q = Some "price_desc"%string ->
        exists items,
          AccommodationViewSet.search rnd math_cos db q = AccommodationViewSet.ok_list items
          /\ StronglySorted
               (fun a b => Accommodation.monthly_rent b <= Accommodation.monthly_rent a)
               (map fst items)).
Proof.
  intros db q member_id member Hid Hm. split; [|split].
  - intros items Hok. apply Forall_forall. intros item Hin.
    pose proof (search_items_from_queryset _ _ _ _ _ Hid Hm Hok item Hin) as H.
    apply search_queryset_In in H. tauto.
  - intros Hs. eexists. split; [apply (search_price_asc _ _ _ _ Hid Hm Hs)|].
    rewrite map_fst_serialize_many. apply sorted_rent_asc.
  - intros Hs. eexists. split; [apply (search_price_desc _ _ _ _ Hid Hm Hs)|].
    rewrite map_fst_serialize_many. apply sorted_rent_desc.
Qed.


(** C10. When [sort_by] is price_asc or price_desc the [campus_id]
    parameter plays no part: the response is the same for every value of
    it, it is never the campus not-found error, and for a member that
    exists it is a success whose rows are ordered by price and carry no
    distance, also when [campus_id] names no campus. *)
Theorem search_price_sort_ignores_campus :
  forall (db : DB) (q : SearchParams.t) (campus_id : option Z),
    SearchParams.sort_by q = Some "price_asc"%string
    \/ SearchParams.sort_by q = Some "price_desc"%string ->
    AccommodationViewSet.search rnd math_cos db (set_campus_id campus_id q)
    = AccommodationViewSet.search rnd math_cos db q
    /\ AccommodationViewSet.search rnd math_cos db q
       <> Response.mk HTTP_404_NOT_FOUND (Response.Error "Campus not found")
    /\ (forall member_id member,
           SearchParams.member_id q = Some member_id ->
           objects.get Member.id member_id (members db) = Some member ->
           exists rows,
             AccommodationViewSet.search rnd math_cos db q
             = Response.mk HTTP_200_OK
                 (Response.AccommodationList (map (fun a => (a, None)) rows))
             /\ (SearchParams.sort_by q = Some "price_asc"%string ->
                 StronglySorted
                   (fun a b => Accommodation.monthly_rent a <= Accommodation.monthly_rent b)
                   rows)
             /\ (SearchParams.sort_by q = Some "price_desc"%string ->
                 StronglySorted
                   (fun a b => Accommodation.monthly_rent b <= Accommodation.monthly_rent a)
                   rows)).
Proof.
  intros db q campus_id Hs. split; [|split].
  - unfold AccommodationViewSet.search, AccommodationViewSet.search_queryset. simpl.
    destruct (SearchParams.member_id q) as [mid|]; [|reflexivity].
    destruct (objects.get Member.id mid (members db)) as [m|]; [|reflexivity].
    destruct Hs as [-> | ->]; reflexivity.
  - unfold AccommodationViewSet.search.
    destruct (SearchParams.member_id q) as [mid|]; [|discriminate].
    destruct (objects.get Member.id mid (members db)) as [m|]; [|discriminate].
    destruct Hs as [-> | ->]; discriminate.
  - intros mid m Hid Hm. destruct Hs as [Hs | Hs].
    + eexists. split; [apply (search_price_asc _ _ _ _ Hid Hm Hs)|].
      split; [intros _; apply sorted_rent_asc | rewrite Hs; discriminate].
    + eexists. split; [apply (search_price_desc _ _ _ _ Hid Hm Hs)|].
      split; [rewrite Hs; discriminate | intros _; apply sorted_rent_desc].
Qed.


(** ** Overlap exclusion *)

(** The code excludes at least what the spec asks: an active reservation
    that overlaps the requested range excludes its accommodation. *)
Lemma has_active_overlap_excluded db f t a :
  has_active_overlap db f t a = true -> overlap_excluded db f t a = true.
Proof.
  unfold has_active_overlap, overlap_excluded. intros H.
  apply existsb_exists in H. destruct H as [r [Hr H]].
  rewrite !andb_true_iff in H. destruct H as [[Hst Hf] Ht].
  rewrite !andb_true_iff.
  repeat split; apply existsb_exists; exists r; auto.
Qed.

Lemma overlap_excluded_by_active_overlap db f t a r :
  In r (reservations db) ->
  Reservation.accommodation r = Accommodation.id a ->
  status_active r = true ->
  Reservation.reserved_from r < t ->
  Reservation.reserved_to r > f ->
  overlap_excluded db f t a = true.
Proof.
  intros Hin Hacc Hst Hf Ht.
  apply has_active_overlap_excluded. unfold has_active_overlap.
  apply existsb_exists. exists r. split.
  - unfold reservation_set. apply filter_In. split; [exact Hin | now apply Z.eqb_eq].
  - rewrite Hst. simpl. apply andb_true_iff. split.
    + now apply Z.ltb_lt.
    + apply Z.gtb_lt. lia.
Qed.

Lemma search_hides_active_overlap db q member_id member f t a r items :
  SearchParams.member_id q = Some member_id ->
  objects.get Member.id member_id (members db) = Some member ->
  SearchParams.available_from q = Some f ->
  SearchParams.available_to q = Some t ->
  In r (reservations db) ->
  Reservation.accommodation r = Accommodation.id a ->
  status_active r = true ->
  Reservation.reserved_from r < t ->
  Reservation.reserved_to r > f ->
  AccommodationViewSet.search rnd math_cos db q = AccommodationViewSet.ok_list items ->
  ~ In a (map fst items).
Proof.
  intros Hid Hm Hf Ht Hin Hacc Hst H1 H2 Hok Ha.
  apply in_map_iff in Ha. destruct Ha as [item [<- Hitem]].
  pose proof (search_items_from_queryset _ _ _ _ _ Hid Hm Hok item Hitem) as H.
  apply search_queryset_In in H. destruct H as [_ [_ H]].
  specialize (H f t Hf Ht).
  rewrite (overlap_excluded_by_active_overlap db f t (fst item) r Hin Hacc Hst H1 H2) in H.
  discriminate.
Qed.

(** An accommodation none of whose reservations, of any status, ends after
    the first requested day is not excluded. *)
Lemma overlap_kept_when_nothing_ends_later db f t a :
  (forall r, In r (reservations db) ->
             Reservation.accommodation r = Accommodation.id a ->
             Reservation.reserved_to r <= f) ->
  overlap_excluded db f t a = false.
Proof.
  intros H. unfold overlap_excluded.
  destruct (existsb (fun r => Reservation.reserved_to r >? f) (reservation_set db a)) eqn:E.
  - apply existsb_exists in E. destruct E as [r [Hr E]].
    unfold reservation_set in Hr. apply filter_In in Hr. destruct Hr as [Hin Hacc].
    apply Z.eqb_eq in Hacc. specialize (H r Hin Hacc).
    apply Z.gtb_lt in E. lia.
  - now rewrite andb_false_r.
Qed.

(** C3, at the failing input.  A Building has one active reservation,
    [boundary_stay], which ends on the first requested day, and a cancelled
    one that runs into the requested range.  No PENDING or CONFIRMED
    reservation overlaps the range ([has_active_overlap] is false), yet the
    [exclude] call drops A Building and the search leaves it out; with
    [boundary_stay] alone it is listed. *)
Theorem search_excludes_boundary_stay_beside_cancelled :
  status_active boundary_stay = true
  /\ Some (Reservation.reserved_to boundary_stay) = SearchParams.available_from peter_query
  /\ status_active cancelled_stay = false
  /\ has_active_overlap (with_reservations true [boundary_stay; cancelled_stay])
       739330 739350 a_building = false
  /\ overlap_excluded (with_reservations true [boundary_stay; cancelled_stay])
       739330 739350 a_building = true
  /\ AccommodationViewSet.search rnd math_cos (with_reservations true [boundary_stay; cancelled_stay])
       peter_query
     = AccommodationViewSet.ok_list [(b_building, None)]
  /\ AccommodationViewSet.search rnd math_cos (with_reservations true [boundary_stay]) peter_query
     = AccommodationViewSet.ok_list [(a_building, None); (b_building, None)].
Proof.
  repeat split.
Qed.

End SearchFacts.

Lemma search_results_satisfy_query_witness :
  (exists items,
      AccommodationViewSet.search no_rounding cos db_listing peter_query
      = AccommodationViewSet.ok_list items
      /\ StronglySorted
           (fun a b => Accommodation.monthly_rent a <= Accommodation.monthly_rent b)
           (map fst items))
  /\ Forall (fun item =>
               In (fst item) (accommodations db_listing)
               /\ satisfies_filters hku peter_query (fst item))
            [(b_discounted, @None R); (a_building, None); (d_building, None)].
Proof.
  split.
  - apply (proj1 (proj2 (search_results_satisfy_query no_rounding cos db_listing peter_query 1 peter
                           eq_refl eq_refl))).
    reflexivity.
  - apply (proj1 (search_results_satisfy_query no_rounding cos db_listing peter_query 1 peter
                    eq_refl eq_refl)).
    reflexivity.
Defined.

Lemma search_price_sort_ignores_campus_witness :
  AccommodationViewSet.search no_rounding cos db_listing (set_campus_id (Some 99) peter_query)
  = AccommodationViewSet.search no_rounding cos db_listing peter_query
  /\ AccommodationViewSet.search no_rounding cos db_listing (set_campus_id (Some 99) peter_query)
     = Response.mk HTTP_200_OK
         (Response.AccommodationList
            [(b_discounted, None); (a_building, None); (d_building, None)])
  /\ objects.get Campus.id 99 (campuses db_listing) = None.
Proof.
  split; [|split].
  - apply (search_price_sort_ignores_campus no_rounding cos db_listing peter_query (Some 99)).
    left. reflexivity.
  - reflexivity.
  - reflexivity.
Defined.

(** * Further properties of the views *)

(** ** More on tables *)

Section MoreTableFacts.
Context {A : Type} (pk : A -> Z).

Lemma next_pk_above (rows : list A) (x : A) :
  In x rows -> pk x < objects.next_pk pk rows.
Proof.
  unfold objects.next_pk. induction rows as [|y rows IH]; cbn [fold_right In];
    [contradiction|].
  intros [-> | H]; [lia|]. specialize (IH H). lia.
Qed.

Lemma get_None_iff (k : Z) (rows : list A) :
  objects.get pk k rows = None <-> forall x, In x rows -> pk x <> k.
Proof.
  unfold objects.get. split.
  - intros H x Hx E. apply (find_none _ _ H) in Hx. apply Z.eqb_neq in Hx. contradiction.
  - intros H. induction rows as [|y rows IH]; simpl; [reflexivity|].
    destruct (pk y =? k) eqn:E.
    + apply Z.eqb_eq in E. elim (H y (or_introl eq_refl) E).
    + apply IH. intros x Hx. apply H. now right.
Qed.

Lemma get_next_pk (rows : list A) :
  objects.get pk (objects.next_pk pk rows) rows = None.
Proof.
  apply get_None_iff. intros x Hx. pose proof (next_pk_above rows x Hx). lia.
Qed.

Lemma get_app (k : Z) (rows : list A) (x : A) :
  objects.get pk k (rows ++ [x])
  = match objects.get pk k rows with
    | Some y => Some y
    | None => if pk x =? k then Some x else None
    end.
Proof.
  unfold objects.get. induction rows as [|y rows IH]; simpl; [reflexivity|].
  destruct (pk y =? k); [reflexivity | exact IH].
Qed.

Lemma save_absent (x : A) (rows : list A) :
  objects.get pk (pk x) rows = None -> objects.save pk x rows = rows ++ [x].
Proof.
  unfold objects.get. induction rows as [|y rows IH]; simpl; [reflexivity|].
  destruct (pk y =? pk x); [discriminate|]. intros H. now rewrite IH.
Qed.

Lemma save_app_last (x y : A) (rows : list A) :
  objects.get pk (pk x) rows = None -> pk y = pk x ->
  objects.save pk y (rows ++ [x]) = rows ++ [y].
Proof.
  unfold objects.get. intros H E. induction rows as [|z rows IH]; simpl.
  - rewrite E, Z.eqb_refl. reflexivity.
  - simpl in H. rewrite E. destruct (pk z =? pk x); [discriminate|].
    f_equal. now apply IH.
Qed.

Lemma save_same_row (x : A) (rows : list A) :
  objects.get pk (pk x) rows = Some x -> objects.save pk x rows = rows.
Proof.
  unfold objects.get. induction rows as [|y rows IH]; simpl; [discriminate|].
  destruct (pk y =? pk x).
  - now intros [= ->].
  - intros H. now rewrite IH.
Qed.

Lemma save_save (x y : A) (rows : list A) :
  pk x = pk y -> objects.get pk (pk x) rows <> None ->
  objects.save pk y (objects.save pk x rows) = objects.save pk y rows.
Proof.
  unfold objects.get. intros E. induction rows as [|z rows IH]; simpl.
  - intros H. now elim H.
  - destruct (pk z =? pk x) eqn:Ez; simpl.
    + intros _. rewrite <- E, Z.eqb_refl, Ez. reflexivity.
    + intros H. rewrite <- E, Ez. f_equal. now apply IH.
Qed.

Lemma In_save (x y : A) (rows : list A) :
  In y (objects.save pk x rows) -> y = x \/ In y rows.
Proof.
  induction rows as [|z rows IH]; simpl.
  - intros [<- | []]. now left.
  - destruct (pk z =? pk x); simpl.
    + intros [<- | H]; [now left | right; now right].
    + intros [<- | H]; [right; now left|].
      destruct (IH H) as [-> | H']; [now left | right; now right].
Qed.

Lemma get_save_keeps (k : Z) (x : A) (rows : list A) :
  objects.get pk k rows <> None -> objects.get pk k (objects.save pk x rows) <> None.
Proof.
  intros H. destruct (Z.eq_dec k (pk x)) as [-> | Hk].
  - now rewrite get_save_same.
  - now rewrite get_save_other.
Qed.

Lemma get_app_keeps (k : Z) (x : A) (rows : list A) :
  objects.get pk k rows <> None -> objects.get pk k (rows ++ [x]) <> None.
Proof.
  intros H. rewrite get_app. destruct (objects.get pk k rows); [discriminate | now elim H].
Qed.

Lemma get_delete_other (k d : Z) (rows : list A) :
  k <> d -> objects.get pk k (objects.delete pk d rows) = objects.get pk k rows.
Proof.
  unfold objects.get, objects.delete. intros Hk.
  induction rows as [|y rows IH]; simpl; [reflexivity|].
  destruct (pk y =? d) eqn:Ed; simpl.
  - apply Z.eqb_eq in Ed. assert (E : (pk y =? k) = false) by (apply Z.eqb_neq; lia).
    now rewrite E.
  - destruct (pk y =? k); [reflexivity | exact IH].
Qed.

Lemma get_delete_same (d : Z) (rows : list A) :
  objects.get pk d (objects.delete pk d rows) = None.
Proof.
  apply get_None_iff. unfold objects.delete. intros x Hx.
  apply filter_In in Hx. destruct Hx as [_ Hx].
  apply negb_true_iff in Hx. now apply Z.eqb_neq.
Qed.

End MoreTableFacts.

Lemma set_is_available_same (a : Accommodation.t) :
  Accommodation.set_is_available (Accommodation.is_available a) a = a.
Proof.
  now destruct a.
Qed.

Lemma action_logs_log_action ty ut uid aid rid gid details db :
  action_logs (log_action ty ut uid aid rid gid details db)
  = action_logs db
    ++ [ActionLog.mk (objects.next_pk ActionLog.id (action_logs db)) ty ut uid aid rid gid
          details].
Proof.
  reflexivity.
Qed.

(** ** Reserve, then reserve again or cancel *)

(** The database after a reserve that answered 201. *)
Lemma reserve_created v sv db pk data resp db1 :
  AccommodationViewSet.reserve v sv db pk data = (resp, db1) ->
  Response.status_code resp = HTTP_201_CREATED ->
  exists a r m,
    objects.get Accommodation.id pk (accommodations db) = Some a
    /\ Accommodation.is_available a = true
    /\ resp = Response.mk HTTP_201_CREATED (Response.ReservationData r)
    /\ Reservation.id r = objects.next_pk Reservation.id (reservations db)
    /\ Reservation.accommodation r = pk
    /\ Reservation.status r = "PENDING"%string
    /\ ReserveData.member_id data = Some (Reservation.member r)
    /\ objects.get Member.id (Reservation.member r) (members db) = Some m
    /\ db1 = log_action "CREATE_RESERVATION" "MEMBER"
               (Some (Reservation.member r)) (Some pk) (Some (Reservation.id r)) None
               ("Created reservation for '" ++ Accommodation.name a ++ "'")
               (set_accommodations
                  (objects.save Accommodation.id (Accommodation.set_is_available false a)
                     (accommodations db))
                  (set_reservations (reservations db ++ [r]) db)).
Proof.
  unfold AccommodationViewSet.reserve.
  destruct (objects.get Accommodation.id pk (accommodations db)) as [a|] eqn:Ha;
    [|intros [= <- <-]; discriminate].
  destruct (Accommodation.is_available a) eqn:Hav;
    [|intros [= <- <-]; discriminate].
  simpl.
  destruct (v data _) as [e|]; [intros [= <- <-]; discriminate|].
  destruct (AccommodationViewSet.ReservationSerializer_is_valid sv db
              (Accommodation.id a) data) as [new|] eqn:Hnew;
    [|intros [= <- <-]; discriminate].
  intros Hrun _.
  pose proof (get_pk _ _ _ _ Ha) as Hpk.
  unfold AccommodationViewSet.ReservationSerializer_is_valid in Hnew.
  destruct (ReserveData.member_id data) as [mid|]; [|discriminate].
  destruct (ReserveData.reserved_from data); [|discriminate].
  destruct (ReserveData.reserved_to data); [|discriminate].
  destruct (ReserveData.contact_name data); [|discriminate].
  destruct (ReserveData.contact_phone data); [|discriminate].
  destruct (objects.get Member.id mid (members db)) as [m|] eqn:Hm; [|discriminate].
  destruct (sv db _); [|discriminate].
  injection Hnew as <-. simpl in Hrun. injection Hrun as <- <-.
  exists a. eexists. exists m. simpl.
  split; [reflexivity|]. split; [exact Hav|]. split; [reflexivity|].
  split; [reflexivity|]. split; [exact Hpk|]. split; [reflexivity|].
  split; [reflexivity|]. split; [exact Hm|].
  rewrite Hpk. reflexivity.
Qed.

(** X1. Once reserve has answered 201 for an accommodation, every further
    reserve request against it, whatever its body and whatever the
    validators, is answered with the conflict error and writes nothing. *)
Theorem reserve_blocks_next_reserve :
  forall v sv (db : DB) (pk : Z) (data : ReserveData.t) resp db1,
    AccommodationViewSet.reserve v sv db pk data = (resp, db1) ->
    Response.status_code resp = HTTP_201_CREATED ->
    forall v' sv' data',
      AccommodationViewSet.reserve v' sv' db1 pk data'
      = (Response.mk HTTP_400_BAD_REQUEST (Response.Error "Accommodation not available"),
         db1).
Proof.
  intros v sv db pk data resp db1 Hrun Hok v' sv' data'.
  destruct (reserve_created _ _ _ _ _ _ _ Hrun Hok)
    as [a [r [m [Ha [Hav [_ [_ [_ [_ [_ [_ ->]]]]]]]]]]].
  pose proof (get_pk _ _ _ _ Ha) as Hpk. subst pk.
  unfold AccommodationViewSet.reserve.
  cbn [accommodations log_action set_action_logs set_accommodations].
  rewrite (get_save_same Accommodation.id (Accommodation.set_is_available false a)).
  reflexivity.
Qed.

(** X2. Reserve, then cancel the reservation it created: the cancel is
    accepted, the accommodation table is exactly what it was before the
    reserve, the reservation stays on record as CANCELLED, no rating
    changes, and the audit log has gained the two entries
    CREATE_RESERVATION and CANCEL_RESERVATION, in that order. *)
Theorem reserve_then_cancel_restores_accommodations :
  forall v sv (db : DB) (pk : Z) (data : ReserveData.t) r db1,
    AccommodationViewSet.reserve v sv db pk data
    = (Response.mk HTTP_201_CREATED (Response.ReservationData r), db1) ->
    exists db2 e1 e2,
      ReservationViewSet.cancel db1 (Reservation.id r)
      = (Response.mk HTTP_200_OK (Response.Status "Reservation cancelled successfully"),
         db2)
      /\ accommodations db2 = accommodations db
      /\ reservations db2 = reservations db ++ [Reservation.set_status "CANCELLED" r]
      /\ ratings db2 = ratings db
      /\ action_logs db2 = action_logs db ++ [e1; e2]
      /\ ActionLog.action_type e1 = "CREATE_RESERVATION"%string
      /\ ActionLog.action_type e2 = "CANCEL_RESERVATION"%string
      /\ ActionLog.reservation_id e1 = Some (Reservation.id r)
      /\ ActionLog.reservation_id e2 = Some (Reservation.id r).
Proof.
  intros v sv db pk data r db1 Hrun.
  destruct (reserve_created _ _ _ _ _ _ _ Hrun eq_refl)
    as [a [r' [m [Ha [Hav [Hr [Hid [Hacc [Hst [_ [Hm ->]]]]]]]]]]].
  injection Hr as <-.
  pose proof (get_pk _ _ _ _ Ha) as Hpk. revert Hacc. subst pk. intros Hacc.
  pose proof (get_pk _ _ _ _ Hm) as Hmpk.
  unfold ReservationViewSet.cancel.
  cbn [accommodations reservations members log_action set_action_logs set_accommodations
       set_reservations].
  assert (Hget : objects.get Reservation.id (Reservation.id r) (reservations db ++ [r])
                 = Some r).
  { rewrite get_app, Hid, get_next_pk, <- Hid, Z.eqb_refl. reflexivity. }
  rewrite Hget, Hst.
  cbn [String.eqb Ascii.eqb Bool.eqb andb accommodations reservations members
       set_reservations Reservation.accommodation Reservation.member Reservation.set_status].
  assert (Hfresh : objects.get Reservation.id (Reservation.id r) (reservations db) = None).
  { rewrite Hid. apply get_next_pk. }
  rewrite (save_app_last Reservation.id r (Reservation.set_status "CANCELLED" r)
             (reservations db) Hfresh eq_refl).
  rewrite Hacc.
  rewrite (get_save_same Accommodation.id (Accommodation.set_is_available false a)).
  rewrite Hm.
  eexists. eexists. eexists. split; [reflexivity|].
  cbn [accommodations reservations ratings action_logs log_action set_action_logs
       set_accommodations set_reservations objects.create snd].
  split.
  { rewrite (save_save Accommodation.id (Accommodation.set_is_available false a)
               (Accommodation.set_is_available true (Accommodation.set_is_available false a))
               (accommodations db) eq_refl).
    - apply save_same_row.
      change (Accommodation.id (Accommodation.set_is_available true
                                  (Accommodation.set_is_available false a)))
        with (Accommodation.id a).
      rewrite Ha. f_equal. rewrite <- Hav. destruct a; reflexivity.
    - change (Accommodation.id (Accommodation.set_is_available false a))
        with (Accommodation.id a).
      rewrite Ha. discriminate. }
  split; [reflexivity|]. split; [reflexivity|].
  split; [rewrite <- app_assoc; reflexivity|].
  repeat split.
Qed.

(** ** The two cancellations *)

(** X3. On a PENDING reservation the cancel view and the model method
    [Reservation.cancel] write the same rows: after either, the reservation,
    accommodation and rating tables are equal.  (Only the view adds an
    audit entry.) *)
Theorem cancel_view_agrees_with_model_on_pending :
  forall (db : DB) (pk : Z) (r : Reservation.t),
    objects.get Reservation.id pk (reservations db) = Some r ->
    Reservation.status r = "PENDING"%string ->
    reservations (snd (ReservationViewSet.cancel db pk))
    = reservations (snd (Reservation_cancel r db))
    /\ accommodations (snd (ReservationViewSet.cancel db pk))
       = accommodations (snd (Reservation_cancel r db))
    /\ ratings (snd (ReservationViewSet.cancel db pk))
       = ratings (snd (Reservation_cancel r db))
    /\ action_logs (snd (Reservation_cancel r db)) = action_logs db.
Proof.
  intros db pk r Hr Hs.
  unfold ReservationViewSet.cancel, Reservation_cancel, Reservation.can_be_cancelled.
  rewrite Hr, Hs. simpl.
  destruct (objects.get Accommodation.id (Reservation.accommodation r) (accommodations db))
    as [a|]; [|repeat split].
  destruct (objects.get Member.id (Reservation.member r) (members db)); repeat split.
Qed.

(** ** Mark unavailable *)

(** X4. For an accommodation that exists, mark-unavailable always answers
    200: the accommodation is saved with [is_available] false, no
    reservation or rating is touched (an active reservation stays as it
    is), exactly one MARK_UNAVAILABLE entry is appended, which carries the
    specialist's id only when [specialist_id] names a specialist, and every
    later reserve request against the accommodation is refused with the
    conflict error. *)
Theorem mark_unavailable_closes_accommodation :
  forall (db : DB) (pk : Z) (specialist_id : option Z) (a : Accommodation.t),
    objects.get Accommodation.id pk (accommodations db) = Some a ->
    exists db' e,
      AccommodationViewSet.mark_unavailable db pk specialist_id
      = (Response.mk HTTP_200_OK (Response.Status "Accommodation marked as unavailable"),
         db')
      /\ accommodations db'
         = objects.save Accommodation.id (Accommodation.set_is_available false a)
             (accommodations db)
      /\ objects.get Accommodation.id pk (accommodations db')
         = Some (Accommodation.set_is_available false a)
      /\ reservations db' = reservations db
      /\ ratings db' = ratings db
      /\ action_logs db' = action_logs db ++ [e]
      /\ ActionLog.action_type e = "MARK_UNAVAILABLE"%string
      /\ ActionLog.accommodation_id e = Some pk
      /\ ActionLog.user_id e
         = match truthy_id specialist_id with
           | Some k => option_map Specialist.id
                         (objects.get Specialist.id k (specialists db))
           | None => None
           end
      /\ forall v sv data,
           AccommodationViewSet.reserve v sv db' pk data
           = (Response.mk HTTP_400_BAD_REQUEST
                (Response.Error "Accommodation not available"), db').
Proof.
  intros db pk sid a Ha.
  pose proof (get_pk _ _ _ _ Ha) as Hpk. subst pk.
  unfold AccommodationViewSet.mark_unavailable. rewrite Ha.
  assert (Hget : forall db0,
             accommodations db0
             = objects.save Accommodation.id (Accommodation.set_is_available false a)
                 (accommodations db) ->
             forall v sv data,
               AccommodationViewSet.reserve v sv db0 (Accommodation.id a) data
               = (Response.mk HTTP_400_BAD_REQUEST
                    (Response.Error "Accommodation not available"), db0)).
  { intros db0 E v sv data. unfold AccommodationViewSet.reserve. rewrite E.
    rewrite (get_save_same Accommodation.id (Accommodation.set_is_available false a)).
    reflexivity. }
  unfold AccommodationViewSet.log_specialist_action.
  destruct (truthy_id sid) as [k|];
    [destruct (objects.get Specialist.id k (specialists db)) as [s|] eqn:Hs|];
    cbn [specialists set_accommodations]; try rewrite Hs;
    (eexists; eexists; split; [reflexivity|];
     cbn [accommodations reservations ratings action_logs log_action set_action_logs
          set_accommodations objects.create snd];
     split; [reflexivity|];
     split; [apply (get_save_same Accommodation.id
                      (Accommodation.set_is_available false a))|];
     repeat (split; [reflexivity|]);
     apply Hget; reflexivity).
Qed.

(** ** The specialist-attributed log entry *)

Lemma log_specialist_action_tables ty sid aid details db :
  accommodations (AccommodationViewSet.log_specialist_action ty sid aid details db)
  = accommodations db
  /\ reservations (AccommodationViewSet.log_specialist_action ty sid aid details db)
     = reservations db
  /\ ratings (AccommodationViewSet.log_specialist_action ty sid aid details db)
     = ratings db
  /\ members (AccommodationViewSet.log_specialist_action ty sid aid details db)
     = members db.
Proof.
  unfold AccommodationViewSet.log_specialist_action.
  destruct (truthy_id sid) as [k|];
    [destruct (objects.get Specialist.id k (specialists db))|];
    repeat split.
Qed.

Lemma log_specialist_action_entry ty sid aid details db :
  exists e,
    action_logs (AccommodationViewSet.log_specialist_action ty sid aid details db)
    = action_logs db ++ [e]
    /\ ActionLog.action_type e = ty
    /\ ActionLog.accommodation_id e = aid.
Proof.
  unfold AccommodationViewSet.log_specialist_action.
  destruct (truthy_id sid) as [k|];
    [destruct (objects.get Specialist.id k (specialists db))|];
    eexists; (split; [reflexivity|]); split; reflexivity.
Qed.

(** ** Delete accommodation *)

Lemma existsb_active_iff db a :
  existsb status_active (reservation_set db a) = true <->
  exists r, In r (reservations db)
            /\ Reservation.accommodation r = Accommodation.id a
            /\ status_active r = true.
Proof.
  rewrite existsb_exists. unfold reservation_set. split.
  - intros [r [Hr Hs]]. apply filter_In in Hr. destruct Hr as [Hin E].
    apply Z.eqb_eq in E. now exists r.
  - intros [r [Hin [E Hs]]]. exists r. split; [|exact Hs].
    apply filter_In. split; [exact Hin | now apply Z.eqb_eq].
Qed.

(** X5. For an accommodation that exists, delete is refused with the
    conflict error exactly when some reservation against it is PENDING or
    CONFIRMED; otherwise it answers 200.  Cancelled and completed
    reservations never block the deletion. *)
Theorem destroy_refused_iff_active_reservation :
  forall (db : DB) (pk : Z) (specialist_id : option Z) (a : Accommodation.t),
    objects.get Accommodation.id pk (accommodations db) = Some a ->
    (fst (AccommodationViewSet.destroy db pk specialist_id)
     = Response.mk HTTP_400_BAD_REQUEST
         (Response.Error "Cannot delete accommodation with active reservations")
     <-> exists r, In r (reservations db)
                   /\ Reservation.accommodation r = pk
                   /\ (Reservation.status r = "PENDING"%string
                       \/ Reservation.status r = "CONFIRMED"%string))
    /\ (fst (AccommodationViewSet.destroy db pk specialist_id)
        = Response.mk HTTP_200_OK
            (Response.Status
               ("Accommodation '" ++ Accommodation.name a ++ "' successfully deleted"))
        <-> forall r, In r (reservations db) ->
                      Reservation.accommodation r = pk ->
                      Reservation.status r <> "PENDING"%string
                      /\ Reservation.status r <> "CONFIRMED"%string).
Proof.
  intros db pk sid a Ha.
  pose proof (get_pk _ _ _ _ Ha) as Hpk. subst pk.
  unfold AccommodationViewSet.destroy. rewrite Ha.
  assert (Hact : forall r, status_active r = true <->
                           Reservation.status r = "PENDING"%string
                           \/ Reservation.status r = "CONFIRMED"%string).
  { intros r. unfold status_active. rewrite orb_true_iff, !String.eqb_eq. reflexivity. }
  destruct (existsb status_active (reservation_set db a)) eqn:E.
  - apply existsb_active_iff in E. destruct E as [r [Hin [Hacc Hs]]]. simpl. split.
    + split; [|reflexivity]. intros _. exists r. rewrite <- Hact. auto.
    + split; [discriminate|]. intros H.
      destruct (H r Hin Hacc) as [H1 H2]. apply Hact in Hs. tauto.
  - simpl. split.
    + split; [discriminate|]. intros [r [Hin [Hacc Hs]]].
      assert (X : existsb status_active (reservation_set db a) = true).
      { apply existsb_active_iff. exists r. rewrite Hact. auto. }
      congruence.
    + split; [|reflexivity]. intros _ r Hin Hacc.
      assert (X : status_active r = false).
      { destruct (status_active r) eqn:Hs; [|reflexivity].
        assert (Y : existsb status_active (reservation_set db a) = true).
        { apply existsb_active_iff. now exists r. }
        congruence. }
      split; intros Hs; assert (Y : status_active r = true) by (apply Hact; auto);
        congruence.
Qed.

(** X6. When delete accommodation answers 200, the accommodation is gone,
    and so is every reservation against it and every rating of it or of one
    of those reservations (the cascade); the reservations of the other
    accommodations are all kept, in order, no other accommodation is
    touched, and one DELETE_ACCOMMODATION entry is appended, which names no
    accommodation id. *)
Theorem destroy_cascades :
  forall (db : DB) (pk : Z) (specialist_id : option Z) resp db',
    AccommodationViewSet.destroy db pk specialist_id = (resp, db') ->
    Response.status_code resp = HTTP_200_OK ->
    objects.get Accommodation.id pk (accommodations db') = None
    /\ (forall k, k <> pk ->
          objects.get Accommodation.id k (accommodations db')
          = objects.get Accommodation.id k (accommodations db))
    /\ reservations db'
       = filter (fun r => negb (Reservation.accommodation r =? pk)) (reservations db)
    /\ (forall g, In g (ratings db') <->
          In g (ratings db)
          /\ Rating.accommodation g <> pk
          /\ forall r, In r (reservations db) -> Reservation.accommodation r = pk ->
                       Rating.reservation g <> Reservation.id r)
    /\ exists e,
         action_logs db' = action_logs db ++ [e]
         /\ ActionLog.action_type e = "DELETE_ACCOMMODATION"%string
         /\ ActionLog.accommodation_id e = None.
Proof.
  intros db pk sid resp db'. unfold AccommodationViewSet.destroy.
  destruct (objects.get Accommodation.id pk (accommodations db)) as [a|] eqn:Ha;
    [|intros [= <- <-]; discriminate].
  pose proof (get_pk _ _ _ _ Ha) as Hpk. subst pk.
  destruct (existsb status_active (reservation_set db a));
    [intros [= <- <-]; discriminate|].
  intros Hrun _. cbv zeta in Hrun. apply (f_equal snd) in Hrun. cbn [snd] in Hrun.
  subst db'.
  cbn [snd].
  destruct (log_specialist_action_tables "DELETE_ACCOMMODATION" sid None
              ("Deleted accommodation '" ++ Accommodation.name a ++ "'")
              (AccommodationViewSet.perform_destroy a db)) as [Ea [Er [Eg _]]].
  destruct (log_specialist_action_entry "DELETE_ACCOMMODATION" sid None
              ("Deleted accommodation '" ++ Accommodation.name a ++ "'")
              (AccommodationViewSet.perform_destroy a db)) as [e He].
  cbv zeta. rewrite Ea, Er.
  split; [apply get_delete_same|].
  split; [intros k Hk; now apply get_delete_other|].
  split; [reflexivity|].
  split; [|exists e; exact He].
  intros g. rewrite Eg. unfold AccommodationViewSet.perform_destroy.
  cbn [ratings set_ratings set_reservations set_accommodations].
  rewrite filter_In, negb_true_iff, orb_false_iff, Z.eqb_neq.
  assert (Hgone : existsb (Z.eqb (Rating.reservation g))
                    (map Reservation.id (reservation_set db a)) = false
                  <-> forall r, In r (reservations db) ->
                                Reservation.accommodation r = Accommodation.id a ->
                                Rating.reservation g <> Reservation.id r).
  { split.
    - intros H r Hin Hacc E.
      assert (X : existsb (Z.eqb (Rating.reservation g))
                    (map Reservation.id (reservation_set db a)) = true).
      { apply existsb_exists. exists (Reservation.id r). split; [|now apply Z.eqb_eq].
        apply in_map. unfold reservation_set. apply filter_In.
        split; [exact Hin | now apply Z.eqb_eq]. }
      congruence.
    - intros H. destruct (existsb _ _) eqn:E; [|reflexivity].
      apply existsb_exists in E. destruct E as [k [Hk E]]. apply Z.eqb_eq in E.
      apply in_map_iff in Hk. destruct Hk as [r [<- Hr]].
      unfold reservation_set in Hr. apply filter_In in Hr. destruct Hr as [Hin Hacc].
      apply Z.eqb_eq in Hacc. elim (H r Hin Hacc E). }
  rewrite Hgone. tauto.
Qed.

(** ** The audit log *)

Ltac settle_logs :=
  unfold logs_once; simpl;
  split;
  [ intros [H|H]; try discriminate H; eexists; split; reflexivity
  | intros H1 H2; try reflexivity; try (now elim H1); try (now elim H2) ].

Lemma reserve_logs_once v sv db pk data :
  logs_once "CREATE_RESERVATION" db (AccommodationViewSet.reserve v sv db pk data).
Proof.
  unfold AccommodationViewSet.reserve.
  repeat (split_view; try settle_logs).
Qed.

Lemma cancel_logs_once db pk :
  logs_once "CANCEL_RESERVATION" db (ReservationViewSet.cancel db pk).
Proof.
  unfold ReservationViewSet.cancel.
  repeat (split_view; try settle_logs).
Qed.

Lemma update_status_logs_once db pk new_status :
  logs_once "UPDATE_RESERVATION_STATUS" db
    (ReservationViewSet.update_status db pk new_status).
Proof.
  unfold ReservationViewSet.update_status.
  destruct (objects.get Reservation.id pk (reservations db)) as [r|]; [|settle_logs].
  destruct (nonempty new_status) as [s|]; [|settle_logs].
  destruct (negb (ReservationViewSet.str_in s ReservationViewSet.valid_statuses));
    [settle_logs|].
  cbv zeta.
  repeat (split_view; try settle_logs).
Qed.

Lemma moderate_logs_once db pk data now :
  logs_once "MODERATE_RATING" db (RatingViewSet.moderate db pk data now).
Proof.
  unfold RatingViewSet.moderate.
  repeat (split_view; try settle_logs).
Qed.

Lemma destroy_logs_once db pk sid :
  logs_once "DELETE_ACCOMMODATION" db (AccommodationViewSet.destroy db pk sid).
Proof.
  unfold AccommodationViewSet.destroy.
  destruct (objects.get Accommodation.id pk (accommodations db)) as [a|]; [|settle_logs].
  destruct (existsb status_active (reservation_set db a)); [settle_logs|].
  cbv zeta. unfold logs_once. cbn [fst snd].
  destruct (log_specialist_action_entry "DELETE_ACCOMMODATION" sid None
              ("Deleted accommodation '" ++ Accommodation.name a ++ "'")
              (AccommodationViewSet.perform_destroy a db)) as [e [He [Hty _]]].
  split.
  - intros _. exists e. split; [exact He | exact Hty].
  - intros H. now elim H.
Qed.

(** X7. The audit log is append-only and complete for the five mutating
    operations: a request that is answered 200 or 201 appends exactly one
    entry, whose action type is the one of the operation, and a request
    answered otherwise leaves the log as it was; no entry is ever changed
    or removed.  The type written by update-status,
    UPDATE_RESERVATION_STATUS, is the only one that is not among the
    declared ACTION_TYPES. *)
Theorem every_success_is_logged_once :
  forall (validate_required_fields : ReserveData.t -> list string -> option string)
         (ReservationSerializer_validate : DB -> Reservation.t -> bool)
         (op : operation) (db : DB),
    let out := run validate_required_fields ReservationSerializer_validate op db in
    (Response.status_code (fst out) = HTTP_200_OK
     \/ Response.status_code (fst out) = HTTP_201_CREATED ->
     exists e, action_logs (snd out) = action_logs db ++ [e]
               /\ ActionLog.action_type e = logged_as op)
    /\ (Response.status_code (fst out) <> HTTP_200_OK ->
        Response.status_code (fst out) <> HTTP_201_CREATED ->
        action_logs (snd out) = action_logs db)
    /\ (In (logged_as op) ACTION_TYPES <-> forall pk s, op <> UpdateStatus pk s).
Proof.
  intros v sv op db out.
  assert (H : logs_once (logged_as op) db out).
  { subst out. destruct op; simpl.
    - apply reserve_logs_once.
    - apply cancel_logs_once.
    - apply update_status_logs_once.
    - apply moderate_logs_once.
    - apply destroy_logs_once. }
  destruct H as [H1 H2]. split; [exact H1|]. split; [exact H2|].
  destruct op; simpl; split; try tauto; try discriminate.
  - intros [H|[H|[H|[H|[H|[H|[H|[H|[H|[H|[H|[]]]]]]]]]]]]; discriminate H.
  - intros H. elim (H pk status). reflexivity.
Qed.

(** ** Referential integrity *)

(** A step that deletes nothing keeps the foreign keys sound when the rows
    it leaves in the reservation and rating tables refer to rows that were
    there before. *)
Lemma fk_integrity_step db db' :
  fk_integrity db ->
  members db' = members db ->
  (forall k, objects.get Accommodation.id k (accommodations db) <> None ->
             objects.get Accommodation.id k (accommodations db') <> None) ->
  (forall k, objects.get Reservation.id k (reservations db) <> None ->
             objects.get Reservation.id k (reservations db') <> None) ->
  (forall r, In r (reservations db') ->
     objects.get Accommodation.id (Reservation.accommodation r) (accommodations db) <> None
     /\ objects.get Member.id (Reservation.member r) (members db) <> None) ->
  (forall g, In g (ratings db') ->
     objects.get Accommodation.id (Rating.accommodation g) (accommodations db) <> None
     /\ objects.get Member.id (Rating.member g) (members db) <> None
     /\ objects.get Reservation.id (Rating.reservation g) (reservations db) <> None) ->
  fk_integrity db'.
Proof.
  intros _ Hm Ha Hr Hres Hrat. split.
  - intros r Hin. destruct (Hres r Hin) as [H1 H2]. rewrite Hm. auto.
  - intros g Hin. destruct (Hrat g Hin) as [H1 [H2 H3]]. rewrite Hm. auto.
Qed.

Lemma saved_reservation_refs db r s r' :
  fk_integrity db ->
  In r (reservations db) ->
  In r' (objects.save Reservation.id (Reservation.set_status s r) (reservations db)) ->
  objects.get Accommodation.id (Reservation.accommodation r') (accommodations db) <> None
  /\ objects.get Member.id (Reservation.member r') (members db) <> None.
Proof.
  intros [Hres _] Hin Hin'. apply In_save in Hin'.
  destruct Hin' as [-> | Hin']; [apply (Hres r Hin) | apply (Hres r' Hin')].
Qed.

Lemma reserve_keeps_integrity v sv db pk data :
  fk_integrity db ->
  fk_integrity (snd (AccommodationViewSet.reserve v sv db pk data))
  /\ Response.status_code (fst (AccommodationViewSet.reserve v sv db pk data))
     <> HTTP_500_INTERNAL_SERVER_ERROR.
Proof.
  intros Hfk.
  destruct (AccommodationViewSet.reserve v sv db pk data) as [resp db1] eqn:Hrun.
  destruct (Z.eq_dec (Response.status_code resp) HTTP_201_CREATED) as [Hok | Hno].
  - destruct (reserve_created _ _ _ _ _ _ _ Hrun Hok)
      as [a [r [m [Ha [Hav [-> [Hid [Hacc [Hst [_ [Hm ->]]]]]]]]]]].
    split; [|discriminate]. cbn [snd].
    apply (fk_integrity_step db); try exact Hfk; try reflexivity.
    + intros k. apply get_save_keeps.
    + intros k. apply get_app_keeps.
    + cbn [reservations log_action set_action_logs set_accommodations set_reservations].
      intros r' Hin. apply in_app_iff in Hin. destruct Hin as [Hin | [<- | []]].
      * apply (proj1 Hfk r' Hin).
      * rewrite Hacc, Ha, Hm. split; discriminate.
    + apply (proj2 Hfk).
  - revert Hrun Hno. unfold AccommodationViewSet.reserve.
    repeat (split_view; try (intros [= <- <-] Hno; simpl in *;
                             first [ now elim Hno
                                   | split; [exact Hfk | discriminate] ])).
Qed.

Lemma cancel_keeps_integrity db pk :
  fk_integrity db ->
  fk_integrity (snd (ReservationViewSet.cancel db pk))
  /\ Response.status_code (fst (ReservationViewSet.cancel db pk))
     <> HTTP_500_INTERNAL_SERVER_ERROR.
Proof.
  intros Hfk. unfold ReservationViewSet.cancel.
  destruct (objects.get Reservation.id pk (reservations db)) as [r|] eqn:Hr;
    [|split; [exact Hfk | discriminate]].
  destruct (String.eqb (Reservation.status r) "CONFIRMED");
    [split; [exact Hfk | discriminate]|].
  pose proof (get_In _ _ _ _ Hr) as Hin.
  destruct (proj1 Hfk r Hin) as [Ha Hm]. simpl.
  destruct (objects.get Accommodation.id (Reservation.accommodation r) (accommodations db))
    as [a|]; [|now elim Ha].
  destruct (objects.get Member.id (Reservation.member r) (members db))
    as [m|]; [|now elim Hm].
  split; [|discriminate]. cbn [snd].
  apply (fk_integrity_step db); try exact Hfk; try reflexivity.
  - intros k. apply get_save_keeps.
  - intros k. apply get_save_keeps.
  - intros r'. apply saved_reservation_refs; assumption.
  - apply (proj2 Hfk).
Qed.

Lemma update_status_keeps_integrity db pk new_status :
  fk_integrity db ->
  fk_integrity (snd (ReservationViewSet.update_status db pk new_status))
  /\ Response.status_code (fst (ReservationViewSet.update_status db pk new_status))
     <> HTTP_500_INTERNAL_SERVER_ERROR.
Proof.
  intros Hfk. unfold ReservationViewSet.update_status.
  destruct (objects.get Reservation.id pk (reservations db)) as [r|] eqn:Hr;
    [|split; [exact Hfk | discriminate]].
  destruct (nonempty new_status) as [s|]; [|split; [exact Hfk | discriminate]].
  destruct (negb (ReservationViewSet.str_in s ReservationViewSet.valid_statuses));
    [split; [exact Hfk | discriminate]|].
  pose proof (get_In _ _ _ _ Hr) as Hin.
  destruct (proj1 Hfk r Hin) as [Ha Hm].
  destruct (objects.get Accommodation.id (Reservation.accommodation r) (accommodations db))
    as [a|] eqn:Ea; [|now elim Ha].
  destruct (objects.get Member.id (Reservation.member r) (members db))
    as [m|] eqn:Em; [|now elim Hm].
  assert (Hsaved : objects.get Accommodation.id (Reservation.accommodation r)
                     (objects.save Accommodation.id
                        (Accommodation.set_is_available true a) (accommodations db))
                   = Some (Accommodation.set_is_available true a)).
  { rewrite <- (get_pk _ _ _ _ Ea).
    apply (get_save_same Accommodation.id (Accommodation.set_is_available true a)). }
  assert (Hplain : fk_integrity
                     (set_reservations
                        (objects.save Reservation.id (Reservation.set_status s r)
                           (reservations db)) db)).
  { apply (fk_integrity_step db); try exact Hfk; try reflexivity.
    - auto.
    - intros k. apply get_save_keeps.
    - intros r'. apply saved_reservation_refs; assumption.
    - apply (proj2 Hfk). }
  assert (Hopen : fk_integrity
                    (set_accommodations
                       (objects.save Accommodation.id
                          (Accommodation.set_is_available true a) (accommodations db))
                       (set_reservations
                          (objects.save Reservation.id (Reservation.set_status s r)
                             (reservations db)) db))).
  { apply (fk_integrity_step db); try exact Hfk; try reflexivity.
    - intros k. apply get_save_keeps.
    - intros k. apply get_save_keeps.
    - intros r'. apply saved_reservation_refs; assumption.
    - apply (proj2 Hfk). }
  simpl.
  destruct (String.eqb s "CONFIRMED" && String.eqb (Reservation.status r) "PENDING").
  { simpl. rewrite Em, Ea. split; [exact Hplain | discriminate]. }
  destruct (String.eqb s "COMPLETED" && negb (String.eqb (Reservation.status r) "COMPLETED")).
  { simpl. rewrite Em, Ea. split; [exact Hplain | discriminate]. }
  destruct (String.eqb s "CANCELLED" && negb (String.eqb (Reservation.status r) "CANCELLED")).
  { rewrite Ea. simpl. rewrite Em, Hsaved. split; [exact Hopen | discriminate]. }
  simpl. rewrite Em, Ea. split; [exact Hplain | discriminate].
Qed.

Lemma In_get_queryset db accommodation k g :
  objects.get Rating.id k (RatingViewSet.get_queryset db accommodation) = Some g ->
  In g (ratings db).
Proof.
  intros H. apply get_In in H. unfold RatingViewSet.get_queryset in H.
  apply filter_if_In in H. tauto.
Qed.

Lemma moderate_keeps_integrity db pk data now :
  fk_integrity db ->
  fk_integrity (snd (RatingViewSet.moderate db pk data now))
  /\ Response.status_code (fst (RatingViewSet.moderate db pk data now))
     <> HTTP_500_INTERNAL_SERVER_ERROR.
Proof.
  intros Hfk. unfold RatingViewSet.moderate.
  destruct (objects.get Rating.id pk _) as [g|] eqn:Hg;
    [|split; [exact Hfk | discriminate]].
  destruct (truthy_id (ModerateData.specialist_id data)) as [sid|];
    [|split; [exact Hfk | discriminate]].
  destruct (objects.get Specialist.id sid (specialists db)) as [sp|];
    [|split; [exact Hfk | discriminate]].
  pose proof (In_get_queryset _ _ _ _ Hg) as Hin.
  destruct (proj2 Hfk g Hin) as [Ha [Hm Hr]]. simpl.
  destruct (objects.get Accommodation.id (Rating.accommodation g) (accommodations db))
    as [a|]; [|now elim Ha].
  split; [|discriminate]. cbn [snd].
  apply (fk_integrity_step db); try exact Hfk; try reflexivity.
  - auto.
  - auto.
  - apply (proj1 Hfk).
  - cbn [ratings log_action set_action_logs set_ratings].
    intros g' Hin'. apply In_save in Hin'.
    destruct Hin' as [-> | Hin']; [|apply (proj2 Hfk g' Hin')].
    apply (proj2 Hfk g Hin).
Qed.

Lemma destroy_keeps_integrity db pk sid :
  fk_integrity db ->
  fk_integrity (snd (AccommodationViewSet.destroy db pk sid))
  /\ Response.status_code (fst (AccommodationViewSet.destroy db pk sid))
     <> HTTP_500_INTERNAL_SERVER_ERROR.
Proof.
  intros Hfk.
  destruct (AccommodationViewSet.destroy db pk sid) as [resp db'] eqn:Hrun.
  destruct (Z.eq_dec (Response.status_code resp) HTTP_200_OK) as [Hok | Hno].
  - destruct (destroy_cascades _ _ _ _ _ Hrun Hok) as [Hgone [Hkeep [Hres [Hrat _]]]].
    split; [|cbn [fst]; rewrite Hok; discriminate]. cbn [snd].
    assert (Hmem : members db' = members db).
    { revert Hrun. unfold AccommodationViewSet.destroy.
      destruct (objects.get Accommodation.id pk (accommodations db)) as [a|];
        [|now intros [= _ <-]].
      destruct (existsb status_active (reservation_set db a)); [now intros [= _ <-]|].
      intros Hrun. cbv zeta in Hrun. apply (f_equal snd) in Hrun. cbn [snd] in Hrun.
      subst db'.
      now rewrite (proj2 (proj2 (proj2 (log_specialist_action_tables _ _ _ _ _)))). }
    split.
    + intros r Hin. rewrite Hres in Hin. apply filter_In in Hin.
      destruct Hin as [Hin Hne]. apply negb_true_iff, Z.eqb_neq in Hne.
      rewrite Hmem, (Hkeep _ Hne). apply (proj1 Hfk r Hin).
    + intros g Hin. apply Hrat in Hin. destruct Hin as [Hin [Hne Hres']].
      destruct (proj2 Hfk g Hin) as [Ha [Hm Hr]].
      rewrite Hmem, (Hkeep _ Hne). split; [exact Ha|]. split; [exact Hm|].
      destruct (objects.get Reservation.id (Rating.reservation g) (reservations db))
        as [r0|] eqn:Hr0; [|now elim Hr].
      intros Hnone. rewrite Hres in Hnone.
      apply (proj1 (get_None_iff Reservation.id _ _) Hnone r0).
      * apply filter_In. split; [now apply get_In in Hr0|].
        apply negb_true_iff, Z.eqb_neq. intros Hacc.
        apply (Hres' r0); [now apply get_In in Hr0 | exact Hacc|].
        symmetry. now apply get_pk in Hr0.
      * now apply get_pk in Hr0.
  - revert Hrun Hno. unfold AccommodationViewSet.destroy.
    destruct (objects.get Accommodation.id pk (accommodations db)) as [a|];
      [|intros [= <- <-] _; split; [exact Hfk | discriminate]].
    destruct (existsb status_active (reservation_set db a));
      [intros [= <- <-] _; split; [exact Hfk | discriminate]|].
    intros [= <- _] Hno. now elim Hno.
Qed.

(** X8. Referential integrity is an invariant of the five mutating
    operations: when every reservation and rating refers to rows that
    exist, the same holds after the request, also after a deletion, whose
    cascade removes the dependent rows; and on such a database no request
    ends in a server error, so every answer is a success or one of the
    rejections that write nothing. *)
Theorem operations_keep_referential_integrity :
  forall (validate_required_fields : ReserveData.t -> list string -> option string)
         (ReservationSerializer_validate : DB -> Reservation.t -> bool)
         (op : operation) (db : DB),
    fk_integrity db ->
    fk_integrity (snd (run validate_required_fields ReservationSerializer_validate op db))
    /\ Response.status_code
         (fst (run validate_required_fields ReservationSerializer_validate op db))
       <> HTTP_500_INTERNAL_SERVER_ERROR.
Proof.
  intros v sv op db Hfk. destruct op; simpl.
  - now apply reserve_keeps_integrity.
  - now apply cancel_keeps_integrity.
  - now apply update_status_keeps_integrity.
  - now apply moderate_keeps_integrity.
  - now apply destroy_keeps_integrity.
Qed.

(** ** Moderation *)

Section UniqueRow.
Context {A : Type} (pk : A -> Z).

Lemma the_row_get k x rows : the_row pk k x rows -> objects.get pk k rows = Some x.
Proof.
  intros [Hin [Hk Hu]].
  destruct (objects.get pk k rows) as [y|] eqn:E.
  - f_equal. apply Hu; [now apply get_In in E | now apply get_pk in E].
  - elim (proj1 (get_None_iff pk k rows) E x Hin Hk).
Qed.

Lemma the_row_filter k x rows (keep : A -> bool) :
  the_row pk k x rows ->
  objects.get pk k (filter keep rows) = if keep x then Some x else None.
Proof.
  intros [Hin [Hk Hu]]. destruct (keep x) eqn:Ex.
  - apply the_row_get. split; [apply filter_In; auto|]. split; [exact Hk|].
    intros y Hy. apply filter_In in Hy. apply Hu. tauto.
  - apply get_None_iff. intros y Hy Hyk. apply filter_In in Hy. destruct Hy as [Hy Ey].
    rewrite (Hu y Hy Hyk) in Ey. congruence.
Qed.

Lemma save_map {B : Type} (h : A -> B) (x g : A) (rows : list A) :
  objects.get pk (pk x) rows = Some g -> h x = h g ->
  map h (objects.save pk x rows) = map h rows.
Proof.
  unfold objects.get. intros Hg Hh. induction rows as [|y rows IH]; simpl in *.
  - discriminate.
  - destruct (pk y =? pk x).
    + injection Hg as ->. simpl. now rewrite Hh.
    + simpl. f_equal. now apply IH.
Qed.

End UniqueRow.

(** X9. Moderating a rating (found under its unique key, not hidden by the
    [accommodation] filter, by a specialist that exists) answers 200 and
    saves the decision: [is_approved] is the submitted value and true when
    none was submitted, the moderator and the time are stamped, the note
    defaults to the empty text, while score, comment, member, reservation
    and accommodation of the rating are kept.  The rating is no longer
    unmoderated and no rating becomes unmoderated; reservations and
    accommodations are untouched; one MODERATE_RATING entry names the
    specialist and the rating.  With an [accommodation] filter that names
    another accommodation the same rating is not found and nothing is
    written. *)
Theorem moderate_records_decision :
  forall (db : DB) (pk : Z) (data : ModerateData.t) (now : Z)
         (g : Rating.t) (sid : Z) (sp : Specialist.t) (a : Accommodation.t),
    the_row Rating.id pk g (ratings db) ->
    truthy_id (ModerateData.specialist_id data) = Some sid ->
    objects.get Specialist.id sid (specialists db) = Some sp ->
    objects.get Accommodation.id (Rating.accommodation g) (accommodations db) = Some a ->
    ((forall k, ModerateData.accommodation data = Some k -> k = Rating.accommodation g) ->
     exists db' e,
       RatingViewSet.moderate db pk data now
       = (Response.mk HTTP_200_OK
            (Response.Moderated
               ("Rating " ++ (if Rating.is_approved (moderated g sp data now)
                              then "approved" else "rejected"))
               (moderated g sp data now)), db')
       /\ ratings db' = objects.save Rating.id (moderated g sp data now) (ratings db)
       /\ objects.get Rating.id pk (ratings db') = Some (moderated g sp data now)
       /\ unmoderated (moderated g sp data now) = false
       /\ (forall x, In x (ratings db') -> unmoderated x = true -> In x (ratings db))
       /\ reservations db' = reservations db
       /\ accommodations db' = accommodations db
       /\ action_logs db' = action_logs db ++ [e]
       /\ ActionLog.action_type e = "MODERATE_RATING"%string
       /\ ActionLog.user_id e = Some (Specialist.id sp)
       /\ ActionLog.rating_id e = Some pk)
    /\ ((exists k, ModerateData.accommodation data = Some k /\ k <> Rating.accommodation g) ->
        RatingViewSet.moderate db pk data now = (not_found, db)).
Proof.
  intros db pk data now g sid sp a Hrow Hsid Hsp Ha.
  pose proof Hrow as [Hin [Hpk Huniq]].
  unfold RatingViewSet.moderate, RatingViewSet.get_queryset. split.
  - intros Hfilter.
    assert (Hget : objects.get Rating.id pk
                     (filter_if (ModerateData.accommodation data)
                        (fun k g0 => Rating.accommodation g0 =? k) (ratings db))
                   = Some g).
    { destruct (ModerateData.accommodation data) as [k|]; simpl.
      - rewrite (the_row_filter Rating.id pk g _ _ Hrow).
        rewrite (Hfilter k eq_refl), Z.eqb_refl. reflexivity.
      - now apply the_row_get. }
    rewrite Hget, Hsid, Hsp. simpl. rewrite Ha.
    fold (moderated g sp data now).
    eexists. eexists. split; [reflexivity|]. simpl.
    split; [reflexivity|].
    split.
    { rewrite <- Hpk.
      apply (get_save_same Rating.id (moderated g sp data now)). }
    split; [reflexivity|].
    split.
    { intros x Hx Hun. apply In_save in Hx. destruct Hx as [-> | Hx].
      - discriminate Hun.
      - exact Hx. }
    rewrite Hpk. repeat split.
  - intros [k [Hk Hne]]. rewrite Hk. simpl.
    rewrite (the_row_filter Rating.id pk g _ _ Hrow).
    assert (E : (Rating.accommodation g =? k) = false) by (apply Z.eqb_neq; congruence).
    rewrite E. reflexivity.
Qed.

(** ** The rating summary *)

Lemma rating_summary_ext (self : Accommodation.t) (l l' : list Rating.t) :
  map (fun g => (Rating.accommodation g, Rating.score g)) l
  = map (fun g => (Rating.accommodation g, Rating.score g)) l' ->
  List.length (filter (fun g => Rating.accommodation g =? Accommodation.id self) l)
  = List.length (filter (fun g => Rating.accommodation g =? Accommodation.id self) l')
  /\ sum_scores (filter (fun g => Rating.accommodation g =? Accommodation.id self) l)
     = sum_scores (filter (fun g => Rating.accommodation g =? Accommodation.id self) l').
Proof.
  revert l'. induction l as [|x l IH]; intros [|y l'] H; simpl in *; try discriminate.
  - split; reflexivity.
  - injection H as Ha Hs Hl. destruct (IH l' Hl) as [IH1 IH2].
    rewrite Ha. destruct (Rating.accommodation y =? Accommodation.id self); simpl.
    + rewrite IH1, IH2, Hs. split; reflexivity.
    + split; assumption.
Qed.

Lemma average_rating_ext rnd (self : Accommodation.t) (db db' : DB) :
  map (fun g => (Rating.accommodation g, Rating.score g)) (ratings db')
  = map (fun g => (Rating.accommodation g, Rating.score g)) (ratings db) ->
  Accommodation_rating_count self db' = Accommodation_rating_count self db
  /\ Accommodation_average_rating rnd self db' = Accommodation_average_rating rnd self db.
Proof.
  intros H. destruct (rating_summary_ext self _ _ H) as [Hl Hs].
  unfold Accommodation_rating_count, Accommodation_average_rating, rating_set.
  rewrite Hl. split; [reflexivity|].
  destruct (filter _ (ratings db')) as [|x l] eqn:E';
    destruct (filter _ (ratings db)) as [|y l0] eqn:E; try discriminate Hl.
  - reflexivity.
  - rewrite Hl, Hs. reflexivity.
Qed.

Lemma moderate_saved_ratings db pk data now g sid sp a :
  the_row Rating.id pk g (ratings db) ->
  truthy_id (ModerateData.specialist_id data) = Some sid ->
  objects.get Specialist.id sid (specialists db) = Some sp ->
  objects.get Accommodation.id (Rating.accommodation g) (accommodations db) = Some a ->
  (forall k, ModerateData.accommodation data = Some k -> k = Rating.accommodation g) ->
  ratings (snd (RatingViewSet.moderate db pk data now))
  = objects.save Rating.id (moderated g sp data now) (ratings db).
Proof.
  intros Hrow Hsid Hsp Ha Hfilter.
  unfold RatingViewSet.moderate, RatingViewSet.get_queryset.
  assert (Hget : objects.get Rating.id pk
                   (filter_if (ModerateData.accommodation data)
                      (fun k g0 => Rating.accommodation g0 =? k) (ratings db))
                 = Some g).
  { destruct (ModerateData.accommodation data) as [k|]; simpl.
    - rewrite (the_row_filter Rating.id pk g _ _ Hrow).
      rewrite (Hfilter k eq_refl), Z.eqb_refl. reflexivity.
    - now apply the_row_get. }
  rewrite Hget, Hsid, Hsp. simpl. rewrite Ha. reflexivity.
Qed.

(** X10. Moderation never changes the rating summary of an accommodation:
    after an accepted moderate request, approving or rejecting, the
    [rating_count] and the [average_rating] of every accommodation are what
    they were.  A rejected rating keeps counting in both. *)
Theorem moderation_keeps_rating_summary :
  forall (rnd : R -> R) (db : DB) (pk : Z) (data : ModerateData.t) (now : Z)
         (g : Rating.t) (sid : Z) (sp : Specialist.t) (a : Accommodation.t),
    the_row Rating.id pk g (ratings db) ->
    truthy_id (ModerateData.specialist_id data) = Some sid ->
    objects.get Specialist.id sid (specialists db) = Some sp ->
    objects.get Accommodation.id (Rating.accommodation g) (accommodations db) = Some a ->
    (forall k, ModerateData.accommodation data = Some k -> k = Rating.accommodation g) ->
    Response.status_code (fst (RatingViewSet.moderate db pk data now)) = HTTP_200_OK
    /\ forall self : Accommodation.t,
         Accommodation_rating_count self (snd (RatingViewSet.moderate db pk data now))
         = Accommodation_rating_count self db
         /\ Accommodation_average_rating rnd self
              (snd (RatingViewSet.moderate db pk data now))
            = Accommodation_average_rating rnd self db.
Proof.
  intros rnd db pk data now g sid sp a Hrow Hsid Hsp Ha Hfilter. split.
  - unfold RatingViewSet.moderate, RatingViewSet.get_queryset.
    assert (Hget : objects.get Rating.id pk
                     (filter_if (ModerateData.accommodation data)
                        (fun k g0 => Rating.accommodation g0 =? k) (ratings db))
                   = Some g).
    { destruct (ModerateData.accommodation data) as [k|]; simpl.
      - rewrite (the_row_filter Rating.id pk g _ _ Hrow).
        rewrite (Hfilter k eq_refl), Z.eqb_refl. reflexivity.
      - now apply the_row_get. }
    rewrite Hget, Hsid, Hsp. simpl. rewrite Ha. reflexivity.
  - intros self. apply average_rating_ext.
    rewrite (moderate_saved_ratings _ _ _ _ _ _ _ _ Hrow Hsid Hsp Ha Hfilter).
    apply (save_map Rating.id _ (moderated g sp data now) g).
    + destruct Hrow as [Hin [Hpk Hu]].
      change (Rating.id (moderated g sp data now)) with (Rating.id g).
      rewrite Hpk. now apply the_row_get.
    + reflexivity.
Qed.

Lemma sum_scores_bounds (l : list Rating.t) :
  (forall g, In g l -> 0 <= Rating.score g <= 5) ->
  0 <= sum_scores l <= 5 * Z.of_nat (List.length l).
Proof.
  induction l as [|x l IH]; intros H.
  - simpl. lia.
  - assert (Hx := H x (or_introl eq_refl)).
    assert (Hl : forall g, In g l -> 0 <= Rating.score g <= 5)
      by (intros g Hg; apply H; now right).
    specialize (IH Hl). cbn [sum_scores fold_right List.length] in *.
    fold (sum_scores l). rewrite Nat2Z.inj_succ. lia.
Qed.

(** X11. [average_rating] is None exactly when [rating_count] is 0.  When
    the scores of the accommodation's ratings lie between 0 and 5 (the
    range of the field's validators), the average lies between 0 and 5
    too, whatever the rounding of the division (monotone, exact on 0 and
    on 5). *)
Theorem average_rating_range :
  forall (rnd : R -> R) (self : Accommodation.t) (db : DB),
    (Accommodation_average_rating rnd self db = None
     <-> Accommodation_rating_count self db = 0)
    /\ (rnd 0%R = 0%R ->
        rnd 5%R = 5%R ->
        (forall x y : R, (x <= y)%R -> (rnd x <= rnd y)%R) ->
        (forall g, In g (ratings db) ->
                   Rating.accommodation g = Accommodation.id self ->
                   0 <= Rating.score g <= 5) ->
        forall avg, Accommodation_average_rating rnd self db = Some avg ->
                    (0 <= avg <= 5)%R).
Proof.
  intros rnd self db.
  unfold Accommodation_average_rating, Accommodation_rating_count. split.
  - destruct (rating_set self db) as [|x l]; simpl.
    + split; reflexivity.
    + split; [discriminate|]. intros H. lia.
  - intros H0 H5 Hmono Hscores avg.
    destruct (rating_set self db) as [|x l] eqn:E; [discriminate|].
    intros [= <-].
    assert (Hb : 0 <= sum_scores (x :: l) <= 5 * Z.of_nat (List.length (x :: l))).
    { apply sum_scores_bounds. intros g Hg. rewrite <- E in Hg.
      unfold rating_set in Hg. apply filter_In in Hg. destruct Hg as [Hin Hacc].
      apply Z.eqb_eq in Hacc. now apply Hscores. }
    assert (Hn : (0 < IZR (Z.of_nat (List.length (x :: l))))%R).
    { apply IZR_lt. simpl. lia. }
    destruct Hb as [Hlo Hhi]. apply IZR_le in Hlo. apply IZR_le in Hhi.
    rewrite mult_IZR in Hhi.
    set (s := IZR (sum_scores (x :: l))) in *.
    set (n := IZR (Z.of_nat (List.length (x :: l)))) in *.
    assert (Hq : (0 <= s / n <= 5)%R).
    { split.
      - apply Rmult_le_pos; [exact Hlo|]. left. now apply Rinv_0_lt_compat.
      - apply Rmult_le_reg_r with (r := n); [exact Hn|].
        unfold Rdiv. rewrite Rmult_assoc, Rinv_l, Rmult_1_r; [exact Hhi|].
        apply Rgt_not_eq. exact Hn. }
    split.
    + rewrite <- H0. apply Hmono. tauto.
    + rewrite <- H5. apply Hmono. tauto.
Qed.

(** ** Search: the distance path and the error paths *)



Section SearchPaths.

Variable rnd : R -> R.
Variable math_cos : R -> R.


(** X13. Search answers with a list exactly when [member_id] names a
    member and, unless the sort is by price, [campus_id] is absent or names
    a campus.  Without [member_id] the answer is the 400 validation error,
    whatever else the query holds, and with an unknown one the member
    not-found error. *)
Theorem search_succeeds_iff :
  forall (db : DB) (q : SearchParams.t),
    ((exists items,
         AccommodationViewSet.search rnd math_cos db q = AccommodationViewSet.ok_list items)
     <-> exists member_id member,
           SearchParams.member_id q = Some member_id
           /\ objects.get Member.id member_id (members db) = Some member
           /\ (SearchParams.sort_by q = Some "price_asc"%string
               \/ SearchParams.sort_by q = Some "price_desc"%string
               \/ SearchParams.campus_id q = None
               \/ exists campus_id campus,
                    SearchParams.campus_id q = Some campus_id
                    /\ objects.get Campus.id campus_id (campuses db) = Some campus))
    /\ (SearchParams.member_id q = None ->
        AccommodationViewSet.search rnd math_cos db q
        = Response.mk HTTP_400_BAD_REQUEST
            (Response.Error "member_id is required for searching accommodations"))
    /\ (forall member_id,
           SearchParams.member_id q = Some member_id ->
           objects.get Member.id member_id (members db) = None ->
           AccommodationViewSet.search rnd math_cos db q
           = Response.mk HTTP_404_NOT_FOUND (Response.Error "Member not found")).
Proof.
  intros db q. unfold AccommodationViewSet.search, AccommodationViewSet.ok_list.
  split; [|split].
  - destruct (SearchParams.member_id q) as [mid|].
    2:{ split; [intros [items H]; discriminate H|].
        intros [mid [m [H _]]]. discriminate H. }
    destruct (objects.get Member.id mid (members db)) as [m|] eqn:Hm.
    2:{ split; [intros [items H]; discriminate H|].
        intros [mid' [m' [[= <-] [H _]]]]. congruence. }
    cbv zeta.
    destruct (String.eqb _ "price_asc") eqn:E1.
    { split; [|intros _; eexists; reflexivity].
      intros _. exists mid, m. split; [reflexivity|]. split; [exact Hm|].
      left. apply String.eqb_eq in E1.
      destruct (SearchParams.sort_by q); [now subst | discriminate]. }
    destruct (String.eqb _ "price_desc") eqn:E2.
    { split; [|intros _; eexists; reflexivity].
      intros _. exists mid, m. split; [reflexivity|]. split; [exact Hm|].
      right. left. apply String.eqb_eq in E2.
      destruct (SearchParams.sort_by q); [now subst | discriminate]. }
    destruct (SearchParams.campus_id q) as [cid|].
    2:{ split; [|intros _; eexists; reflexivity].
        intros _. exists mid, m. split; [reflexivity|]. split; [exact Hm|].
        right. right. left. reflexivity. }
    destruct (objects.get Campus.id cid (campuses db)) as [campus|] eqn:Hc.
    { split; [|intros _; eexists; reflexivity].
      intros _. exists mid, m. split; [reflexivity|]. split; [exact Hm|].
      right. right. right. exists cid, campus. split; [reflexivity | exact Hc]. }
    split; [intros [items H]; discriminate H|].
    intros [mid' [m' [_ [_ [H | [H | [H | [cid' [campus [[= <-] H]]]]]]]]]].
    + rewrite H in E1. discriminate E1.
    + rewrite H in E2. discriminate E2.
    + discriminate H.
    + congruence.
  - intros ->. reflexivity.
  - intros mid -> ->. reflexivity.
Qed.

(** X14. Unless both [available_from] and [available_to] are supplied the
    search never looks at the reservation table: with either bound missing
    the response is the same for every content of that table, so an
    accommodation with an overlapping active reservation is still listed
    when its flag says available. *)
Theorem search_ignores_reservations_without_both_dates :
  forall (db : DB) (q : SearchParams.t) (rows : list Reservation.t),
    SearchParams.available_from q = None \/ SearchParams.available_to q = None ->
    AccommodationViewSet.search rnd math_cos (set_reservations rows db) q
    = AccommodationViewSet.search rnd math_cos db q.
Proof.
  intros db q rows H.
  unfold AccommodationViewSet.search, AccommodationViewSet.search_queryset.
  cbn [members campuses accommodations set_reservations].
  destruct H as [H | H]; rewrite H.
  - reflexivity.
  - destruct (SearchParams.available_from q); reflexivity.
Qed.

End SearchPaths.

(** ** Pagination *)

Lemma chunks_cover {A : Type} (size : nat) (n : nat) (l : list A) :
  (List.length l <= n * size)%nat ->
  List.concat (map (fun j => firstn size (skipn (j * size)%nat l)) (seq 0 n)) = l.
Proof.
  revert l. induction n as [|n IH]; intros l Hl.
  - simpl in *. destruct l; [reflexivity | simpl in Hl; lia].
  - cbn [seq map List.concat]. rewrite <- seq_shift, map_map.
    transitivity (firstn size l ++ skipn size l); [|apply firstn_skipn].
    f_equal.
    etransitivity; [|apply (IH (skipn size l)); rewrite length_skipn; simpl in Hl; lia].
    f_equal. apply map_ext. intros j.
    rewrite skipn_skipn. f_equal. f_equal. simpl. lia.
Qed.

Lemma In_firstn {A : Type} (n : nat) (l : list A) (x : A) :
  In x (firstn n l) -> In x l.
Proof.
  intros H. rewrite <- (firstn_skipn n l). apply in_or_app. now left.
Qed.

Lemma In_skipn {A : Type} (n : nat) (l : list A) (x : A) :
  In x (skipn n l) -> In x l.
Proof.
  intros H. rewrite <- (firstn_skipn n l). apply in_or_app. now right.
Qed.

Section Pages.
Context {A : Type} (page_size : Z) (Hsize : 0 < page_size).

Lemma num_pages_pos (l : list A) : 1 <= num_pages page_size l.
Proof.
  unfold num_pages.
  apply Z.div_le_lower_bound; [exact Hsize|]. lia.
Qed.

Lemma num_pages_enough (l : list A) :
  Z.of_nat (List.length l) <= num_pages page_size l * page_size.
Proof.
  unfold num_pages.
  set (h := Z.max 1 (Z.of_nat (List.length l))).
  pose proof (Z.div_mod (h + page_size - 1) page_size ltac:(lia)) as Hdm.
  pose proof (Z.mod_pos_bound (h + page_size - 1) page_size Hsize) as Hb.
  assert (Hh : Z.of_nat (List.length l) <= h) by (subst h; lia).
  nia.
Qed.

Lemma page_rows_length (l : list A) (n : Z) :
  Z.of_nat (List.length (page_rows page_size l n)) <= page_size.
Proof.
  unfold page_rows. rewrite length_firstn. lia.
Qed.

Lemma page_rows_In (l : list A) (n : Z) (x : A) :
  In x (page_rows page_size l n) -> In x l.
Proof.
  unfold page_rows. intros H. apply In_firstn in H. now apply In_skipn in H.
Qed.

Lemma pages_cover (l : list A) :
  List.concat (map (page_rows page_size l) (page_numbers page_size l)) = l.
Proof.
  unfold page_numbers. rewrite map_map, <- seq_shift, map_map.
  etransitivity;
    [|apply (chunks_cover (Z.to_nat page_size) (Z.to_nat (num_pages page_size l)) l)].
  - f_equal. apply map_ext. intros j. unfold page_rows. f_equal. f_equal.
    rewrite Nat2Z.inj_succ.
    replace ((Z.succ (Z.of_nat j) - 1) * page_size) with (Z.of_nat j * page_size) by lia.
    rewrite Z2Nat.inj_mul by lia. now rewrite Nat2Z.id.
  - pose proof (num_pages_enough l). pose proof (num_pages_pos l).
    apply Nat2Z.inj_le. rewrite Nat2Z.inj_mul, !Z2Nat.id by lia. exact H.
Qed.

Lemma In_page_numbers (l : list A) (n : Z) :
  In n (page_numbers page_size l) <-> 1 <= n <= num_pages page_size l.
Proof.
  unfold page_numbers. pose proof (num_pages_pos l) as Hp. rewrite in_map_iff. split.
  - intros [j [<- Hj]]. apply in_seq in Hj. lia.
  - intros Hn. exists (Z.to_nat n). split; [lia|]. apply in_seq. lia.
Qed.

Lemma paginate_page_number (l : list A) (n : Z) :
  paginate_queryset page_size l (PageNumber n)
  = if (1 <=? n) && (n <=? num_pages page_size l)
    then Some (n, page_rows page_size l n) else None.
Proof.
  unfold paginate_queryset, page_number.
  destruct ((1 <=? n) && (n <=? num_pages page_size l)); reflexivity.
Qed.

End Pages.

(** ** The moderation queue *)

Lemma ten_positive : 0 < 10.
Proof. reflexivity. Qed.

Lemma twenty_positive : 0 < 20.
Proof. reflexivity. Qed.

Lemma unmoderated_None (g : Rating.t) :
  unmoderated g = true <-> Rating.moderated_by g = None.
Proof.
  unfold unmoderated. destruct (Rating.moderated_by g); split; congruence.
Qed.

Section Queue.

Variable rating_created_at : Rating.t -> Z.

Lemma pending_ratings_In (db : DB) (g : Rating.t) :
  In g (pending_ratings rating_created_at db) <->
  In g (ratings db) /\ Rating.moderated_by g = None.
Proof.
  unfold pending_ratings. rewrite sort_by_In, filter_In, unmoderated_None. reflexivity.
Qed.

(** X15. The moderation queue.  A page of [pending] holds at most 10
    ratings, all of them ratings of the database that no specialist has
    moderated, and its count is the number of unmoderated ratings.  The
    queue is ordered oldest first, and its pages, read in order, list every
    unmoderated rating exactly once.  Without a [page] parameter the answer
    is page 1, which exists even when the queue is empty; a page number is
    refused exactly when it is outside 1..num_pages. *)
Theorem pending_lists_unmoderated_ratings :
  forall (db : DB),
    (forall page count next previous results,
        pending rating_created_at db page = Page count next previous results ->
        Z.of_nat (List.length results) <= 10
        /\ count = Z.of_nat (List.length (filter unmoderated (ratings db)))
        /\ Forall (fun g => In g (ratings db) /\ Rating.moderated_by g = None) results)
    /\ (pending rating_created_at db PageAbsent
        = pending rating_created_at db (PageNumber 1)
        /\ exists next results,
             pending rating_created_at db PageAbsent
             = Page (Z.of_nat (List.length (filter unmoderated (ratings db))))
                    next None results)
    /\ (List.concat
          (map (fun n => results_of (pending rating_created_at db (PageNumber n)))
               (page_numbers 10 (pending_ratings rating_created_at db)))
        = pending_ratings rating_created_at db
        /\ Permutation (pending_ratings rating_created_at db)
             (filter unmoderated (ratings db))
        /\ StronglySorted (fun x y => rating_created_at x <= rating_created_at y)
             (pending_ratings rating_created_at db))
    /\ (forall n,
           pending rating_created_at db (PageNumber n) = Failed invalid_page
           <-> ~ (1 <= n <= num_pages 10 (pending_ratings rating_created_at db))).
Proof.
  intros db.
  set (queue := pending_ratings rating_created_at db).
  assert (Hperm : Permutation queue (filter unmoderated (ratings db))).
  { subst queue. unfold pending_ratings. symmetry. apply sort_by_perm. }
  assert (Hcount : Z.of_nat (List.length queue)
                   = Z.of_nat (List.length (filter unmoderated (ratings db)))).
  { f_equal. now apply Permutation_length. }
  pose proof (num_pages_pos 10 ten_positive queue) as Hpos.
  split; [|split; [|split]].
  - intros page count next previous results. unfold pending. fold queue.
    destruct (paginate_queryset 10 queue page) as [[number rows]|] eqn:E; [|discriminate].
    unfold get_paginated_response. intros [= <- _ _ <-].
    unfold paginate_queryset in E.
    destruct (page_number 10 queue page) as [k|]; [|discriminate].
    injection E as <- <-.
    split; [apply (page_rows_length 10 ten_positive)|]. split; [exact Hcount|].
    apply Forall_forall. intros g Hg. apply page_rows_In in Hg.
    now apply pending_ratings_In in Hg.
  - unfold pending. fold queue. rewrite (paginate_page_number 10).
    assert (E : (1 <=? 1) && (1 <=? num_pages 10 queue) = true).
    { apply andb_true_iff. split; apply Z.leb_le; lia. }
    rewrite E. split; [reflexivity|].
    unfold get_paginated_response. rewrite Hcount. eexists. eexists. reflexivity.
  - split; [|split; [exact Hperm|]].
    + rewrite <- (pages_cover 10 ten_positive queue) at 2.
      f_equal. apply map_ext_in. intros n Hn.
      apply (In_page_numbers 10 ten_positive) in Hn.
      unfold pending. fold queue. rewrite (paginate_page_number 10).
      assert (E : (1 <=? n) && (n <=? num_pages 10 queue) = true).
      { apply andb_true_iff. split; apply Z.leb_le; lia. }
      rewrite E. reflexivity.
    + subst queue. unfold pending_ratings.
      apply StronglySorted_impl
        with (P := fun x y => (rating_created_at x <=? rating_created_at y) = true).
      * intros x y. apply Z.leb_le.
      * apply sort_by_sorted.
        -- intros x y. rewrite !Z.leb_le. lia.
        -- intros x y z. rewrite !Z.leb_le. lia.
  - intros n. unfold pending. fold queue. rewrite (paginate_page_number 10).
    destruct ((1 <=? n) && (n <=? num_pages 10 queue)) eqn:E.
    + apply andb_true_iff in E. rewrite !Z.leb_le in E.
      unfold get_paginated_response. split; [discriminate | intros H; now elim H].
    + split; [|reflexivity]. intros _ H.
      assert (X : (1 <=? n) && (n <=? num_pages 10 queue) = true).
      { apply andb_true_iff. rewrite !Z.leb_le. exact H. }
      congruence.
Qed.

End Queue.

(** ** The audit log viewer *)

Lemma StronglySorted_filter {A : Type} (P : A -> A -> Prop) (keep : A -> bool)
    (l : list A) :
  StronglySorted P l -> StronglySorted P (filter keep l).
Proof.
  induction 1 as [|x l Hs IH Hx]; simpl; [constructor|].
  destruct (keep x); [|exact IH].
  constructor; [exact IH|].
  rewrite Forall_forall in *. intros y Hy. apply filter_In in Hy. apply Hx. tauto.
Qed.

Lemma StronglySorted_filter_if {A B : Type} (P : A -> A -> Prop) (param : option B)
    (keep : B -> A -> bool) (l : list A) :
  StronglySorted P l -> StronglySorted P (filter_if param keep l).
Proof.
  destruct param; simpl; [apply StronglySorted_filter | auto].
Qed.

Lemma StronglySorted_skipn {A : Type} (P : A -> A -> Prop) (n : nat) (l : list A) :
  StronglySorted P l -> StronglySorted P (skipn n l).
Proof.
  revert l. induction n as [|n IH]; intros l Hs; [exact Hs|].
  destruct l as [|x l]; [constructor|]. simpl. apply IH. now inversion Hs.
Qed.

Lemma StronglySorted_firstn {A : Type} (P : A -> A -> Prop) (n : nat) (l : list A) :
  StronglySorted P l -> StronglySorted P (firstn n l).
Proof.
  revert l. induction n as [|n IH]; intros l Hs; [constructor|].
  destruct l as [|x l]; [constructor|]. simpl. inversion Hs as [|? ? Hl Hx]; subst.
  constructor; [now apply IH|].
  rewrite Forall_forall in *. intros y Hy. apply Hx. now apply In_firstn in Hy.
Qed.

Lemma opt_is_Some (k : Z) (o : option Z) : opt_is k o = true <-> o = Some k.
Proof.
  unfold opt_is. destruct o as [v|]; [|split; discriminate].
  rewrite Z.eqb_eq. split; congruence.
Qed.

Lemma nonempty_Some (param : option string) (s : string) :
  nonempty param = Some s <-> param = Some s /\ s <> EmptyString.
Proof.
  unfold nonempty. destruct param as [t|]; [|split; [discriminate | intros [H _]; discriminate]].
  destruct (String.eqb t EmptyString) eqn:E.
  - apply String.eqb_eq in E. subst. split; [discriminate|]. intros [[= <-] H]. now elim H.
  - apply String.eqb_neq in E. split.
    + intros [= <-]. auto.
    + intros [[= <-] _]. reflexivity.
Qed.

Section LogViewer.

Variable log_created_at : ActionLog.t -> Z.

Lemma logs_queryset_In (db : DB) (q : LogParams) (e : ActionLog.t) :
  In e (logs_queryset log_created_at db q) <->
  In e (action_logs db)
  /\ (forall s, lp_action_type q = Some s -> s <> EmptyString ->
                ActionLog.action_type e = s)
  /\ (forall s, lp_user_type q = Some s -> s <> EmptyString ->
                ActionLog.user_type e = s)
  /\ (forall k, lp_user_id q = Some k -> ActionLog.user_id e = Some k)
  /\ (forall k, lp_accommodation_id q = Some k -> ActionLog.accommodation_id e = Some k)
  /\ (forall d, lp_start_date q = Some d -> d <= log_created_at e)
  /\ (forall d, lp_end_date q = Some d -> log_created_at e <= d).
Proof.
  unfold logs_queryset. rewrite !filter_if_In, sort_by_In.
  split.
  - intros [[[[[[Hin H1] H2] H3] H4] H5] H6].
    split; [exact Hin|]. repeat split.
    + intros s Hs Hne. apply String.eqb_eq. apply H1. now apply nonempty_Some.
    + intros s Hs Hne. apply String.eqb_eq. apply H2. now apply nonempty_Some.
    + intros k Hk. apply opt_is_Some. now apply H3.
    + intros k Hk. apply opt_is_Some. now apply H4.
    + intros d Hd. apply Z.geb_le. now apply H5.
    + intros d Hd. apply Z.leb_le. now apply H6.
  - intros [Hin [H1 [H2 [H3 [H4 [H5 H6]]]]]].
    repeat split; try exact Hin.
    + intros s Hs. apply nonempty_Some in Hs. apply String.eqb_eq. now apply H1.
    + intros s Hs. apply nonempty_Some in Hs. apply String.eqb_eq. now apply H2.
    + intros k Hk. apply opt_is_Some. now apply H3.
    + intros k Hk. apply opt_is_Some. now apply H4.
    + intros d Hd. apply Z.geb_le. now apply H5.
    + intros d Hd. apply Z.leb_le. now apply H6.
Qed.

Lemma logs_queryset_sorted (db : DB) (q : LogParams) :
  StronglySorted (fun x y => log_created_at y <= log_created_at x)
    (logs_queryset log_created_at db q).
Proof.
  unfold logs_queryset. repeat apply StronglySorted_filter_if.
  apply StronglySorted_impl with (P := fun x y => log_order log_created_at x y = true).
  - intros x y. unfold log_order.
    rewrite orb_true_iff, andb_true_iff, Z.ltb_lt, Z.eqb_eq, Z.leb_le. lia.
  - apply sort_by_sorted; unfold log_order.
    + intros x y.
      rewrite !orb_true_iff, !andb_true_iff, !Z.ltb_lt, !Z.eqb_eq, !Z.leb_le. lia.
    + intros x y z.
      rewrite !orb_true_iff, !andb_true_iff, !Z.ltb_lt, !Z.eqb_eq, !Z.leb_le. lia.
Qed.

(** X16. The audit log viewer never answers with an empty page: when no
    entry passes the filters, or the page is empty, the answer is the 404
    "No logs found".  A page it does answer with holds between 1 and 20
    entries of the log, newest first, each satisfying every filter that
    was supplied (action type, user type, user id, accommodation id, and
    the two bounds on the creation time, both inclusive). *)
Theorem get_action_logs_filters_and_pages :
  forall (db : DB) (q : LogParams),
    (forall count next previous results,
        get_action_logs log_created_at db q = Page count next previous results ->
        results <> []
        /\ Z.of_nat (List.length results) <= 20
        /\ count = Z.of_nat (List.length (logs_queryset log_created_at db q))
        /\ StronglySorted (fun x y => log_created_at y <= log_created_at x) results
        /\ Forall (fun e =>
                     In e (action_logs db)
                     /\ (forall s, lp_action_type q = Some s -> s <> EmptyString ->
                                   ActionLog.action_type e = s)
                     /\ (forall s, lp_user_type q = Some s -> s <> EmptyString ->
                                   ActionLog.user_type e = s)
                     /\ (forall k, lp_user_id q = Some k ->
                                   ActionLog.user_id e = Some k)
                     /\ (forall k, lp_accommodation_id q = Some k ->
                                   ActionLog.accommodation_id e = Some k)
                     /\ (forall d, lp_start_date q = Some d -> d <= log_created_at e)
                     /\ (forall d, lp_end_date q = Some d -> log_created_at e <= d))
                  results)
    /\ (logs_queryset log_created_at db q = [] ->
        exists r,
          get_action_logs log_created_at db q = Failed r
          /\ Response.status_code r = HTTP_404_NOT_FOUND
          /\ (lp_page q = PageAbsent ->
              r = Response.mk HTTP_404_NOT_FOUND (Response.Error "No logs found"))).
Proof.
  intros db q. split.
  - intros count next previous results. unfold get_action_logs. cbv zeta.
    destruct (paginate_queryset 20 (logs_queryset log_created_at db q) (lp_page q))
      as [[number rows]|] eqn:E; [|discriminate].
    destruct rows as [|x rows]; [discriminate|].
    unfold get_paginated_response. intros [= <- _ _ <-].
    unfold paginate_queryset in E.
    destruct (page_number 20 _ (lp_page q)) as [k|]; [|discriminate].
    injection E as <- E.
    split; [discriminate|]. rewrite <- E.
    split; [apply (page_rows_length 20 twenty_positive)|]. split; [reflexivity|].
    split.
    + unfold page_rows. apply StronglySorted_firstn, StronglySorted_skipn.
      apply logs_queryset_sorted.
    + apply Forall_forall. intros e He. apply page_rows_In in He.
      now apply logs_queryset_In in He.
  - intros Hempty. unfold get_action_logs. cbv zeta. rewrite Hempty.
    unfold paginate_queryset.
    destruct (page_number 20 [] (lp_page q)) as [k|] eqn:E.
    + assert (Hrows : page_rows 20 (@nil ActionLog.t) k = []).
      { unfold page_rows. rewrite skipn_nil. apply firstn_nil. }
      rewrite Hrows. eexists. split; [reflexivity|]. split; [reflexivity|]. reflexivity.
    + eexists. split; [reflexivity|]. split; [reflexivity|].
      intros Hp. rewrite Hp in E. discriminate E.
Qed.

End LogViewer.

(** ** A member's reservations *)

(** X17. The reservations view of a member lists, in table order, exactly
    the reservations whose member is that member, of every status; for an
    unknown member it answers not found.  A reserve that answers 201 adds
    the new reservation at the end of the list of the member named in the
    request and leaves the lists of the other members as they were. *)
Theorem member_reservations_follow_reserve :
  forall (db : DB) (pk : Z),
    (objects.get Member.id pk (members db) = None ->
     MemberViewSet.reservations_of db pk = Failed not_found)
    /\ (objects.get Member.id pk (members db) <> None ->
        exists rows,
          MemberViewSet.reservations_of db pk = Rows rows
          /\ rows = filter (fun r => Reservation.member r =? pk) (reservations db)
          /\ forall r, In r rows <-> In r (reservations db) /\ Reservation.member r = pk)
    /\ (forall v sv acc data r db1,
           objects.get Member.id pk (members db) <> None ->
           AccommodationViewSet.reserve v sv db acc data
           = (Response.mk HTTP_201_CREATED (Response.ReservationData r), db1) ->
           MemberViewSet.reservations_of db1 pk
           = Rows (results_of (MemberViewSet.reservations_of db pk)
                   ++ (if Reservation.member r =? pk then [r] else []))
           /\ ReserveData.member_id data = Some (Reservation.member r)).
Proof.
  intros db pk. unfold MemberViewSet.reservations_of. split; [|split].
  - intros ->. reflexivity.
  - destruct (objects.get Member.id pk (members db)) as [m|] eqn:Hm;
      [|intros H; now elim H].
    intros _. rewrite (get_pk _ _ _ _ Hm). eexists. split; [reflexivity|].
    split; [reflexivity|]. intros r. rewrite filter_In, Z.eqb_eq. reflexivity.
  - intros v sv acc data r db1 Hm Hrun.
    destruct (reserve_created _ _ _ _ _ _ _ Hrun eq_refl)
      as [a [r' [m' [_ [_ [Hr [_ [_ [_ [Hdata [_ ->]]]]]]]]]]].
    injection Hr as <-. split; [|exact Hdata].
    cbn [members reservations log_action set_action_logs set_accommodations
         set_reservations].
    destruct (objects.get Member.id pk (members db)) as [m|] eqn:Em; [|now elim Hm].
    rewrite (get_pk _ _ _ _ Em). cbn [results_of].
    rewrite filter_app. cbn [filter]. reflexivity.
Qed.

(** ** Creating an accommodation *)

(** X18. [create] consults the address lookup only for a request that
    names a building and lacks a latitude, a longitude or a geo address:
    for every other request the outcome is the same whatever the lookup
    service would do.  When the lookup is needed and finds nothing, or
    raises, the request is refused with a 400 whatever the serializer would
    accept, and no coordinates are made up.  Every refusal is a 400 that
    writes nothing.  A creation appends the new accommodation and one
    CREATE_ACCOMMODATION entry, attributed to SPECIALIST when a
    [specialist_id] was submitted and to SYSTEM otherwise, and touches no
    reservation or rating. *)
Theorem create_consults_lookup_only_when_needed :
  forall (lookup_address : string -> lookup_result)
         (AccommodationSerializer : DB -> CreateData.t -> option (Z -> Accommodation.t))
         (str_universities : list Z -> string)
         (db : DB) (data : CreateData.t),
    (needs_lookup data = false ->
     forall lookup_address',
       create lookup_address' AccommodationSerializer str_universities db data
       = create lookup_address AccommodationSerializer str_universities db data)
    /\ (forall building_name,
           needs_lookup data = true ->
           CreateData.building_name data = Some building_name ->
           match lookup_address building_name with
           | Located latitude longitude geo_address =>
               create lookup_address AccommodationSerializer str_universities db data
               = create lookup_address AccommodationSerializer str_universities db
                   (with_location data latitude longitude geo_address)
           | NoAddress =>
               create lookup_address AccommodationSerializer str_universities db data
               = (NotCreated
                    (Response.mk HTTP_400_BAD_REQUEST
                       (Response.Error
                          "No address found for this building name. Please enter location data manually.")),
                  db)
           | LookupRaised e =>
               create lookup_address AccommodationSerializer str_universities db data
               = (NotCreated
                    (Response.mk HTTP_400_BAD_REQUEST
                       (Response.Error
                          ("Failed to get location data: " ++ e
                             ++ ". Please enter location data manually."))),
                  db)
           end)
    /\ (forall r db',
           create lookup_address AccommodationSerializer str_universities db data
           = (NotCreated r, db') ->
           db' = db /\ Response.status_code r = HTTP_400_BAD_REQUEST)
    /\ (forall a db',
           create lookup_address AccommodationSerializer str_universities db data
           = (Created a, db') ->
           accommodations db' = accommodations db ++ [a]
           /\ reservations db' = reservations db
           /\ ratings db' = ratings db
           /\ exists e,
                action_logs db' = action_logs db ++ [e]
                /\ ActionLog.action_type e = "CREATE_ACCOMMODATION"%string
                /\ ActionLog.accommodation_id e = Some (Accommodation.id a)
                /\ ActionLog.user_id e = CreateData.specialist_id data
                /\ ActionLog.user_type e
                   = match truthy_id (CreateData.specialist_id data) with
                     | Some _ => "SPECIALIST"%string
                     | None => "SYSTEM"%string
                     end).
Proof.
  intros lookup ser str db data. split; [|split; [|split]].
  - intros Hno lookup'. unfold create. rewrite Hno. reflexivity.
  - intros b Hneed Hb.
    destruct (lookup b) as [lat lon geo| |e] eqn:Hl.
    + unfold create at 1. rewrite Hneed, Hb, Hl.
      unfold create.
      destruct (needs_lookup (with_location data lat lon geo)); [|reflexivity].
      cbn [with_location CreateData.building_name]. rewrite Hb, Hl. reflexivity.
    + unfold create. rewrite Hneed, Hb, Hl. reflexivity.
    + unfold create. rewrite Hneed, Hb, Hl. reflexivity.
  - intros r db'. unfold create.
    destruct (needs_lookup data);
      [destruct (CreateData.building_name data) as [b|];
       [destruct (lookup b) as [lat lon geo| |e]|]|];
      cbv zeta;
      try (intros [= <- <-]; split; reflexivity);
      (destruct (ser db _) as [new|]; [discriminate|]; intros [= <- <-]; split; reflexivity).
  - intros a db'. unfold create.
    destruct (needs_lookup data);
      [destruct (CreateData.building_name data) as [b|];
       [destruct (lookup b) as [lat lon geo| |e]|]|];
      cbv zeta;
      try discriminate;
      (destruct (ser db _) as [new|]; [|discriminate]; intros [= <- <-];
       split; [reflexivity|]; split; [reflexivity|]; split; [reflexivity|];
       eexists; split; [reflexivity|]; repeat split).
Qed.

(** ** Search: what is listed *)

Lemma save_unique_key {A : Type} (pk : A -> Z) (x : A) (rows : list A) :
  NoDup (map pk rows) ->
  forall y, In y (objects.save pk x rows) -> pk y = pk x -> y = x.
Proof.
  induction rows as [|z rows IH]; simpl; intros Hnd y Hy Hk.
  - destruct Hy as [<- | []]. reflexivity.
  - inversion Hnd as [|? ? Hz Hnd']; subst.
    destruct (pk z =? pk x) eqn:E.
    + destruct Hy as [<- | Hy]; [reflexivity|].
      apply Z.eqb_eq in E. elim Hz. rewrite E, <- Hk. now apply in_map.
    + destruct Hy as [<- | Hy].
      * apply Z.eqb_neq in E. contradiction.
      * now apply IH.
Qed.

Section Listing.

Variable rnd : R -> R.
Variable math_cos : R -> R.

Lemma search_items_perm db q member_id member items :
  SearchParams.member_id q = Some member_id ->
  objects.get Member.id member_id (members db) = Some member ->
  AccommodationViewSet.search rnd math_cos db q = AccommodationViewSet.ok_list items ->
  Permutation (map fst items)
    (AccommodationViewSet.search_queryset db q (Member.university member)).
Proof.
  intros Hid Hm. unfold AccommodationViewSet.search. rewrite Hid, Hm.
  set (qs := AccommodationViewSet.search_queryset db q (Member.university member)).
  unfold AccommodationViewSet.ok_list.
  destruct (String.eqb _ "price_asc");
    [|destruct (String.eqb _ "price_desc");
      [|destruct (SearchParams.campus_id q) as [c|];
        [destruct (objects.get Campus.id c (campuses db)) as [campus|]|]]].
  - intros [= <-]. rewrite map_fst_serialize_many. symmetry. apply sort_by_perm.
  - intros [= <-]. rewrite map_fst_serialize_many. symmetry. apply sort_by_perm.
  - intros [= <-]. rewrite map_map. cbn [fst].
    transitivity (map fst (map (fun a => (a, Accommodation.calculate_distance rnd math_cos
                                               a campus)) qs)).
    + apply Permutation_map. symmetry. apply sort_by_perm.
    + rewrite map_map. cbn [fst]. rewrite map_id. reflexivity.
  - discriminate.
  - intros [= <-]. rewrite map_fst_serialize_many. reflexivity.
Qed.

Lemma search_queryset_same_filters db q q' u :
  same_filters q q' ->
  AccommodationViewSet.search_queryset db q u
  = AccommodationViewSet.search_queryset db q' u.
Proof.
  intros [H1 [H2 [H3 [H4 [H5 [H6 [H7 _]]]]]]].
  unfold AccommodationViewSet.search_queryset.
  rewrite H1, H2, H3, H4, H5, H6, H7. reflexivity.
Qed.

(** X19. The sort order and the campus never change which accommodations
    are listed: two successful searches whose queries agree on the member
    and on every filter list the same accommodations, each the same number
    of times, whatever their [sort_by] and [campus_id]. *)
Theorem search_sorting_keeps_the_listing :
  forall (db : DB) (q q' : SearchParams.t) (member_id : Z) (member : Member.t)
         (items items' : list (Accommodation.t * option R)),
    same_filters q q' ->
    SearchParams.member_id q = Some member_id ->
    objects.get Member.id member_id (members db) = Some member ->
    AccommodationViewSet.search rnd math_cos db q = AccommodationViewSet.ok_list items ->
    AccommodationViewSet.search rnd math_cos db q' = AccommodationViewSet.ok_list items' ->
    Permutation (map fst items) (map fst items').
Proof.
  intros db q q' mid m items items' Hsame Hid Hm Hq Hq'.
  assert (Hid' : SearchParams.member_id q' = Some mid).
  { destruct Hsame as [_ [_ [_ [_ [_ [_ [_ H]]]]]]]. now rewrite <- H. }
  rewrite (search_items_perm _ _ _ _ _ Hid Hm Hq).
  rewrite (search_items_perm _ _ _ _ _ Hid' Hm Hq').
  now rewrite (search_queryset_same_filters db q q' _ Hsame).
Qed.

(** X20. A reserved accommodation leaves every search.  On a table with
    unique primary keys, after reserve has answered 201 for an
    accommodation, no search by any member with any filters or sort order
    lists that accommodation. *)
Theorem reserved_accommodation_is_not_listed :
  forall v sv (db : DB) (pk : Z) (data : ReserveData.t) resp db1,
    NoDup (map Accommodation.id (accommodations db)) ->
    AccommodationViewSet.reserve v sv db pk data = (resp, db1) ->
    Response.status_code resp = HTTP_201_CREATED ->
    forall (q : SearchParams.t) (items : list (Accommodation.t * option R)),
      AccommodationViewSet.search rnd math_cos db1 q = AccommodationViewSet.ok_list items ->
      forall item, In item items -> Accommodation.id (fst item) <> pk.
Proof.
  intros v sv db pk data resp db1 Hnd Hrun Hok q items Hq item Hitem Hpk.
  destruct (reserve_created _ _ _ _ _ _ _ Hrun Hok)
    as [a [r [m [Ha [Hav [_ [_ [_ [_ [_ [_ Hdb1]]]]]]]]]]].
  pose proof (get_pk _ _ _ _ Ha) as Hapk.
  assert (Hmembers : members db1 = members db) by (now rewrite Hdb1).
  assert (Haccs : accommodations db1
                  = objects.save Accommodation.id (Accommodation.set_is_available false a)
                      (accommodations db)) by (now rewrite Hdb1).
  assert (Hmem : exists mid mem,
             SearchParams.member_id q = Some mid
             /\ objects.get Member.id mid (members db1) = Some mem).
  { revert Hq. unfold AccommodationViewSet.search, AccommodationViewSet.ok_list.
    destruct (SearchParams.member_id q) as [mid|]; [|discriminate].
    destruct (objects.get Member.id mid (members db1)) as [mem|] eqn:Emem; [|discriminate].
    intros _. exists mid, mem. split; [reflexivity | exact Emem]. }
  destruct Hmem as [mid [mem [Hid Hm]]].
  pose proof (search_items_from_queryset rnd math_cos _ _ _ _ _ Hid Hm Hq item Hitem) as Hin.
  apply search_queryset_In in Hin. destruct Hin as [Hin [[_ [Havail _]] _]].
  rewrite Haccs in Hin.
  assert (E : fst item = Accommodation.set_is_available false a).
  { apply (save_unique_key Accommodation.id _ _ Hnd _ Hin).
    cbn [Accommodation.id Accommodation.set_is_available]. congruence. }
  rewrite E in Havail. discriminate Havail.
Qed.

End Listing.

(** * Instances of the further properties *)

Lemma reserve_blocks_next_reserve_witness :
  let db1 := snd (AccommodationViewSet.reserve required_fields_present range_not_reversed
                    db_confirmed 2 peter_request) in
  AccommodationViewSet.reserve required_fields_present range_not_reversed db1 2 peter_request
  = (Response.mk HTTP_400_BAD_REQUEST (Response.Error "Accommodation not available"), db1).
Proof.
  apply (reserve_blocks_next_reserve required_fields_present range_not_reversed
           db_confirmed 2 peter_request
           (fst (AccommodationViewSet.reserve required_fields_present range_not_reversed
                   db_confirmed 2 peter_request))
           (snd (AccommodationViewSet.reserve required_fields_present range_not_reversed
                   db_confirmed 2 peter_request)));
    reflexivity.
Defined.

Lemma reserve_then_cancel_restores_accommodations_witness :
  exists db2 e1 e2,
    ReservationViewSet.cancel
      (snd (AccommodationViewSet.reserve required_fields_present range_not_reversed
              db_confirmed 2 peter_request)) 5
    = (Response.mk HTTP_200_OK (Response.Status "Reservation cancelled successfully"), db2)
    /\ accommodations db2 = accommodations db_confirmed
    /\ reservations db2
       = reservations db_confirmed
         ++ [Reservation.mk 5 2 1 739400 739430 "Peter" "12345678" "CANCELLED"]
    /\ ratings db2 = ratings db_confirmed
    /\ action_logs db2 = action_logs db_confirmed ++ [e1; e2]
    /\ ActionLog.action_type e1 = "CREATE_RESERVATION"%string
    /\ ActionLog.action_type e2 = "CANCEL_RESERVATION"%string
    /\ ActionLog.reservation_id e1 = Some 5
    /\ ActionLog.reservation_id e2 = Some 5.
Proof.
  apply (reserve_then_cancel_restores_accommodations required_fields_present
           range_not_reversed db_confirmed 2 peter_request
           (Reservation.mk 5 2 1 739400 739430 "Peter" "12345678" "PENDING")
           (snd (AccommodationViewSet.reserve required_fields_present range_not_reversed
                   db_confirmed 2 peter_request))).
  reflexivity.
Defined.

Lemma cancel_view_agrees_with_model_on_pending_witness :
  reservations (snd (ReservationViewSet.cancel db_held 2))
  = reservations (snd (Reservation_cancel pending_stay db_held))
  /\ accommodations (snd (ReservationViewSet.cancel db_held 2))
     = accommodations (snd (Reservation_cancel pending_stay db_held))
  /\ ratings (snd (ReservationViewSet.cancel db_held 2))
     = ratings (snd (Reservation_cancel pending_stay db_held))
  /\ action_logs (snd (Reservation_cancel pending_stay db_held)) = action_logs db_held.
Proof.
  apply (cancel_view_agrees_with_model_on_pending db_held 2 pending_stay); reflexivity.
Defined.

Lemma mark_unavailable_closes_accommodation_witness :
  exists db' e,
    AccommodationViewSet.mark_unavailable db_listing 1 (Some 7)
    = (Response.mk HTTP_200_OK (Response.Status "Accommodation marked as unavailable"), db')
    /\ objects.get Accommodation.id 1 (accommodations db')
       = Some (Accommodation.set_is_available false a_building)
    /\ action_logs db' = action_logs db_listing ++ [e]
    /\ ActionLog.user_id e = None
    /\ AccommodationViewSet.reserve required_fields_present range_not_reversed db' 1
         peter_request
       = (Response.mk HTTP_400_BAD_REQUEST (Response.Error "Accommodation not available"),
          db').
Proof.
  destruct (mark_unavailable_closes_accommodation db_listing 1 (Some 7) a_building eq_refl)
    as [db' [e [H1 [_ [H3 [_ [_ [H6 [_ [_ [H9 H10]]]]]]]]]]].
  exists db', e. split; [exact H1|]. split; [exact H3|]. split; [exact H6|].
  split; [exact H9|]. apply H10.
Defined.

Lemma destroy_refused_iff_active_reservation_witness :
  fst (AccommodationViewSet.destroy db_held 1 None)
  = Response.mk HTTP_400_BAD_REQUEST
      (Response.Error "Cannot delete accommodation with active reservations")
  /\ fst (AccommodationViewSet.destroy db_rated 1 None)
     = Response.mk HTTP_200_OK
         (Response.Status "Accommodation 'A Building' successfully deleted").
Proof.
  split.
  - apply (proj1 (destroy_refused_iff_active_reservation db_held 1 None
                    (Accommodation.set_is_available false a_building) eq_refl)).
    exists pending_stay. split; [right; left; reflexivity|].
    split; [reflexivity | left; reflexivity].
  - apply (proj2 (destroy_refused_iff_active_reservation db_rated 1 None a_building
                    eq_refl)).
    intros r [<- | []] _. split; discriminate.
Defined.

Lemma destroy_cascades_witness :
  objects.get Accommodation.id 1
    (accommodations (snd (AccommodationViewSet.destroy db_rated 1 None))) = None
  /\ reservations (snd (AccommodationViewSet.destroy db_rated 1 None)) = []
  /\ ~ In quiet_rating (ratings (snd (AccommodationViewSet.destroy db_rated 1 None))).
Proof.
  destruct (destroy_cascades db_rated 1 None
              (fst (AccommodationViewSet.destroy db_rated 1 None))
              (snd (AccommodationViewSet.destroy db_rated 1 None)) eq_refl eq_refl)
    as [H1 [_ [H3 [H4 _]]]].
  split; [exact H1|]. split; [exact H3|].
  intros Hin. apply H4 in Hin. destruct Hin as [_ [Hne _]]. now elim Hne.
Defined.

Lemma every_success_is_logged_once_witness :
  (exists e,
      action_logs (snd (run required_fields_present range_not_reversed
                          (UpdateStatus 2 (Some "CONFIRMED"%string)) db_held))
      = action_logs db_held ++ [e]
      /\ ActionLog.action_type e = "UPDATE_RESERVATION_STATUS"%string)
  /\ action_logs (snd (run required_fields_present range_not_reversed (Cancel 4)
                         db_confirmed))
     = action_logs db_confirmed
  /\ ~ In "UPDATE_RESERVATION_STATUS"%string ACTION_TYPES.
Proof.
  split; [|split].
  - apply (proj1 (every_success_is_logged_once required_fields_present range_not_reversed
                    (UpdateStatus 2 (Some "CONFIRMED"%string)) db_held)).
    left. reflexivity.
  - apply (proj1 (proj2 (every_success_is_logged_once required_fields_present
                           range_not_reversed (Cancel 4) db_confirmed)));
      discriminate.
  - intros H.
    apply (proj1 (proj2 (proj2 (every_success_is_logged_once required_fields_present
                                  range_not_reversed
                                  (UpdateStatus 2 (Some "CONFIRMED"%string)) db_held)))
             H 2 (Some "CONFIRMED"%string)).
    reflexivity.
Defined.

Lemma db_held_integrity : fk_integrity db_held.
Proof.
  split.
  - intros r [<- | [<- | []]]; split; discriminate.
  - intros g [].
Defined.

Lemma operations_keep_referential_integrity_witness :
  fk_integrity (snd (run required_fields_present range_not_reversed (Destroy 2 None) db_held))
  /\ Response.status_code
       (fst (run required_fields_present range_not_reversed (Cancel 1) db_held))
     <> HTTP_500_INTERNAL_SERVER_ERROR.
Proof.
  split.
  - apply (operations_keep_referential_integrity required_fields_present
             range_not_reversed (Destroy 2 None) db_held db_held_integrity).
  - apply (operations_keep_referential_integrity required_fields_present
             range_not_reversed (Cancel 1) db_held db_held_integrity).
Defined.

Lemma quiet_rating_row : the_row Rating.id 1 quiet_rating (ratings db_rated).
Proof.
  split; [left; reflexivity|]. split; [reflexivity|].
  intros y [<- | []] _. reflexivity.
Defined.

Lemma moderate_records_decision_witness :
  exists db' e,
    RatingViewSet.moderate db_rated 1 yu_rejects 739700
    = (Response.mk HTTP_200_OK
         (Response.Moderated "Rating rejected"
            (Rating.mk 1 1 1 1 4 "quiet" false (Some 1) (Some 739700) "off topic")), db')
    /\ unmoderated (moderated quiet_rating yu yu_rejects 739700) = false
    /\ action_logs db' = action_logs db_rated ++ [e]
    /\ ActionLog.rating_id e = Some 1.
Proof.
  destruct (proj1 (moderate_records_decision db_rated 1 yu_rejects 739700 quiet_rating 1 yu
                     a_building quiet_rating_row eq_refl eq_refl eq_refl))
    as [db' [e [H1 [_ [_ [H4 [_ [_ [_ [H8 [_ [_ H11]]]]]]]]]]]].
  - intros k Hk. discriminate Hk.
  - exists db', e. split; [exact H1|]. split; [exact H4|]. split; [exact H8 | exact H11].
Defined.

Lemma moderation_keeps_rating_summary_witness :
  Accommodation_rating_count a_building
    (snd (RatingViewSet.moderate db_rated 1 yu_rejects 739700)) = 1
  /\ Accommodation_average_rating no_rounding a_building
       (snd (RatingViewSet.moderate db_rated 1 yu_rejects 739700))
     = Accommodation_average_rating no_rounding a_building db_rated.
Proof.
  destruct (moderation_keeps_rating_summary no_rounding db_rated 1 yu_rejects 739700
              quiet_rating 1 yu a_building quiet_rating_row eq_refl eq_refl eq_refl)
    as [_ H].
  - intros k Hk. discriminate Hk.
  - destruct (H a_building) as [Hc Ha]. split; [rewrite Hc; reflexivity | exact Ha].
Defined.

Lemma average_rating_range_witness :
  Accommodation_average_rating no_rounding b_building db_rated = None
  /\ exists avg,
       Accommodation_average_rating no_rounding a_building db_rated = Some avg
       /\ (0 <= avg <= 5)%R.
Proof.
  split.
  - apply (proj1 (average_rating_range no_rounding b_building db_rated)). reflexivity.
  - eexists. split; [reflexivity|].
    apply (proj2 (average_rating_range no_rounding a_building db_rated));
      try reflexivity.
    + intros x y H. exact H.
    + intros g [<- | []] _. simpl. lia.
Defined.


Lemma search_succeeds_iff_witness :
  (exists items,
      AccommodationViewSet.search no_rounding cos db_listing peter_query
      = AccommodationViewSet.ok_list items)
  /\ AccommodationViewSet.search no_rounding cos db_listing
       (SearchParams.mk None None None None None None None None None None)
     = Response.mk HTTP_400_BAD_REQUEST
         (Response.Error "member_id is required for searching accommodations").
Proof.
  split.
  - apply (proj1 (search_succeeds_iff no_rounding cos db_listing peter_query)).
    exists 1, peter. split; [reflexivity|]. split; [reflexivity|]. left. reflexivity.
  - apply (proj1 (proj2 (search_succeeds_iff no_rounding cos db_listing
                           (SearchParams.mk None None None None None None None None None
                              None)))).
    reflexivity.
Defined.

Lemma search_ignores_reservations_without_both_dates_witness :
  AccommodationViewSet.search no_rounding cos
    (set_reservations [boundary_stay; pending_stay] db_listing) (nearest_to None)
  = AccommodationViewSet.search no_rounding cos db_listing (nearest_to None).
Proof.
  apply (search_ignores_reservations_without_both_dates no_rounding cos db_listing
           (nearest_to None) [boundary_stay; pending_stay]).
  left. reflexivity.
Defined.

Lemma pending_lists_unmoderated_ratings_witness :
  pending rating_clock db_rated PageAbsent = Page 1 None None [quiet_rating]
  /\ Forall (fun g => In g (ratings db_rated) /\ Rating.moderated_by g = None)
            [quiet_rating]
  /\ pending rating_clock db_rated (PageNumber 2) = Failed invalid_page.
Proof.
  split; [reflexivity|]. split.
  - apply (proj1 (pending_lists_unmoderated_ratings rating_clock db_rated)
             PageAbsent 1 None None [quiet_rating] eq_refl).
  - apply (proj2 (proj2 (proj2 (pending_lists_unmoderated_ratings rating_clock db_rated)))
             2).
    intros [_ H]. vm_compute in H. now elim H.
Defined.

Lemma get_action_logs_filters_and_pages_witness :
  (exists r,
      get_action_logs log_clock db_logged logs_of_deletions = Failed r
      /\ Response.status_code r = HTTP_404_NOT_FOUND
      /\ (lp_page logs_of_deletions = PageAbsent ->
          r = Response.mk HTTP_404_NOT_FOUND (Response.Error "No logs found")))
  /\ exists e,
       get_action_logs log_clock db_logged logs_of_cancellations = Page 1 None None [e]
       /\ ActionLog.action_type e = "CANCEL_RESERVATION"%string.
Proof.
  split.
  - apply (proj2 (get_action_logs_filters_and_pages log_clock db_logged logs_of_deletions)).
    reflexivity.
  - eexists. split; [reflexivity|].
    destruct (proj1 (get_action_logs_filters_and_pages log_clock db_logged
                       logs_of_cancellations) 1 None None _ eq_refl)
      as [_ [_ [_ [_ H]]]].
    inversion H as [|e l [_ [Hty _]] _]. apply Hty; [reflexivity | discriminate].
Defined.

Lemma member_reservations_follow_reserve_witness :
  MemberViewSet.reservations_of
    (snd (AccommodationViewSet.reserve required_fields_present range_not_reversed
            db_confirmed 2 peter_request)) 1
  = Rows [confirmed_stay; Reservation.mk 5 2 1 739400 739430 "Peter" "12345678" "PENDING"]
  /\ MemberViewSet.reservations_of db_confirmed 8 = Failed not_found.
Proof.
  split.
  - apply (proj2 (proj2 (member_reservations_follow_reserve db_confirmed 1))
             required_fields_present range_not_reversed 2 peter_request
             (Reservation.mk 5 2 1 739400 739430 "Peter" "12345678" "PENDING")
             (snd (AccommodationViewSet.reserve required_fields_present range_not_reversed
                     db_confirmed 2 peter_request))).
    + discriminate.
    + reflexivity.
  - apply (proj1 (member_reservations_follow_reserve db_confirmed 8)). reflexivity.
Defined.

Lemma create_consults_lookup_only_when_needed_witness :
  create knows_nothing located_serializer count_of db_listing by_name_only
  = (NotCreated
       (Response.mk HTTP_400_BAD_REQUEST
          (Response.Error
             "No address found for this building name. Please enter location data manually.")),
     db_listing)
  /\ create always_down located_serializer count_of db_listing with_coordinates
     = create knows_nothing located_serializer count_of db_listing with_coordinates
  /\ exists a, fst (create always_down located_serializer count_of db_listing
                      with_coordinates) = Created a.
Proof.
  split; [|split].
  - apply (proj1 (proj2 (create_consults_lookup_only_when_needed knows_nothing
                           located_serializer count_of db_listing by_name_only))
             "E Building"%string); reflexivity.
  - apply (proj1 (create_consults_lookup_only_when_needed knows_nothing
                    located_serializer count_of db_listing with_coordinates)).
    reflexivity.
  - eexists. reflexivity.
Defined.

Lemma search_sorting_keeps_the_listing_witness :
  Permutation [b_discounted; a_building; d_building] [a_building; b_discounted; d_building].
Proof.
  apply (search_sorting_keeps_the_listing no_rounding cos db_listing
           (SearchParams.mk None None None None None None None None
              (Some "price_asc"%string) (Some 1))
           (nearest_to None) 1 peter
           [(b_discounted, None); (a_building, None); (d_building, None)]
           [(a_building, None); (b_discounted, None); (d_building, None)]);
    try reflexivity.
  repeat split.
Defined.

Lemma reserved_accommodation_is_not_listed_witness :
  AccommodationViewSet.search no_rounding cos
    (snd (AccommodationViewSet.reserve required_fields_present range_not_reversed
            db_listing 2 peter_request)) (nearest_to None)
  = AccommodationViewSet.ok_list [(a_building, None); (d_building, None)]
  /\ Accommodation.id (fst (d_building, @None R)) <> 2.
Proof.
  split; [reflexivity|].
  apply (reserved_accommodation_is_not_listed no_rounding cos
           required_fields_present range_not_reversed db_listing 2 peter_request
           (fst (AccommodationViewSet.reserve required_fields_present range_not_reversed
                   db_listing 2 peter_request))
           (snd (AccommodationViewSet.reserve required_fields_present range_not_reversed
                   db_listing 2 peter_request)))
    with (q := nearest_to None) (items := [(a_building, None); (d_building, None)]).
  - repeat constructor; simpl; intuition discriminate.
  - reflexivity.
  - reflexivity.
  - reflexivity.
  - right. left. reflexivity.
Defined.
